(** * LipIndex: query parser, search executor, fetchers and read API

    A shallow embedding of
      - [RedisClient.search] (the query built from the search string, the
        page count and the page returned),
      - the [router.get('/:tooth/:version')] handler with [fetchReadme],
        [fetchReadmeForLang], [fetchToothMetadata] and [fetchVersionList],
      - [LeviLaminaFetcher] and [EndstonePythonFetcher],
    followed by the properties established about them.

    Conventions.  A JavaScript string is a [string] (one [ascii] per code
    unit).  A [number] that the code uses as an integer is a [Z]; the
    quotient under [Math.ceil] is the exact rational.  An [async] function
    is the function from the upstream answers to its result; a rejected
    promise or thrown exception is an explicit error value.  Upstream
    services and modules that are not among the sources (HTTP, the GitHub
    client of [github-fetcher.ts], the RediSearch index, [lib/version.js],
    [lib/tooth_metadata.js]) are records of answer functions that the
    definitions take as arguments.  An async generator is the list of the
    values it yields.  Of the log, the embedding keeps the lines that the
    fetchers write with [consola.error]; progress lines ([consola.start],
    [debug], [log], [success]) are left out, and so is the idempotent
    [createIndex] call of [search]. *)

From Stdlib Require Import String Ascii List Bool ZArith QArith Qround Lia.
Import ListNotations.
Local Open Scope list_scope.
Local Open Scope string_scope.

(* ===================================================================== *)
(** ** JavaScript string primitives used by the sources                   *)
(* ===================================================================== *)

Module JS.

(** [s.length] *)
Definition length (s : string) : Z := Z.of_nat (String.length s).

(** [s.replaceAll(c, d)] for one-character [c] and [d]. *)
Fixpoint replaceAll (c d : ascii) (s : string) : string :=
  match s with
  | EmptyString => EmptyString
  | String a s' => String (if Ascii.eqb a c then d else a) (replaceAll c d s')
  end.

(** [s.split(sep)] for a one-character separator: the pieces between the
    separators, empty pieces included; the empty string gives one empty piece. *)
Fixpoint split (sep : ascii) (s : string) : list string :=
  match s with
  | EmptyString => [EmptyString]
  | String a s' =>
      if Ascii.eqb a sep then EmptyString :: split sep s'
      else match split sep s' with
           | w :: ws => String a w :: ws
           | [] => [String a EmptyString]
           end
  end.

(** [s.startsWith(c)] for a one-character [c]. *)
Definition startsWith (c : ascii) (s : string) : bool :=
  match s with
  | String a _ => Ascii.eqb a c
  | EmptyString => false
  end.

(** [s.slice(1)] *)
Definition slice1 (s : string) : string :=
  match s with
  | String _ s' => s'
  | EmptyString => EmptyString
  end.

Definition code (c : ascii) : nat := nat_of_ascii c.

Definition inRange (lo hi : nat) (c : ascii) : bool :=
  Nat.leb lo (code c) && Nat.leb (code c) hi.

(** Character classes of the regular expressions in the sources. *)
Definition isLower (c : ascii) : bool := inRange 97 122 c.   (* a-z *)
Definition isUpper (c : ascii) : bool := inRange 65 90 c.    (* A-Z *)
Definition isDigit (c : ascii) : bool := inRange 48 57 c.    (* 0-9 *)

(** Line terminators, the characters [.] does not match. *)
Definition isLineTerminator (c : ascii) : bool :=
  Nat.eqb (code c) 10 || Nat.eqb (code c) 13.

(** White space removed by [s.trim()] (within one-byte code units). *)
Definition isWhiteSpace (c : ascii) : bool :=
  inRange 9 13 c || Nat.eqb (code c) 32 || Nat.eqb (code c) 160.

Fixpoint all (p : ascii -> bool) (s : string) : bool :=
  match s with
  | EmptyString => true
  | String a s' => p a && all p s'
  end.

(** The longest prefix of [s] made of [p]-characters, and the rest:
    what a greedy [[...]*] consumes. *)
Fixpoint span (p : ascii -> bool) (s : string) : string * string :=
  match s with
  | EmptyString => (EmptyString, EmptyString)
  | String a s' =>
      if p a then let (k, r) := span p s' in (String a k, r)
      else (EmptyString, s)
  end.

Fixpoint trimStart (s : string) : string :=
  match s with
  | String a s' => if isWhiteSpace a then trimStart s' else s
  | EmptyString => EmptyString
  end.

Fixpoint trimEnd (s : string) : string :=
  match s with
  | EmptyString => EmptyString
  | String a s' =>
      match trimEnd s' with
      | EmptyString => if isWhiteSpace a then EmptyString else String a EmptyString
      | t => String a t
      end
  end.

(** [s.trim()] *)
Definition trim (s : string) : string := trimEnd (trimStart s).

(** [s.replace(/^v/, '')] *)
Definition stripLeadingV (s : string) : string :=
  match s with
  | String "v" s' => s'
  | _ => s
  end.

(** [s.replace(/lit/g, '')] for a non-empty literal [lit]: scan from the
    left; where [lit] occurs, drop its characters and go on after them.
    [skip] counts the characters of an occurrence still to be dropped. *)
Fixpoint removeAll_from (lit : string) (skip : nat) (s : string) : string :=
  match s with
  | EmptyString => EmptyString
  | String a s' =>
      match skip with
      | S k => removeAll_from lit k s'
      | O =>
          if String.prefix lit s
          then removeAll_from lit (String.length lit - 1) s'
          else String a (removeAll_from lit 0 s')
      end
  end.

Definition removeAll (lit s : string) : string := removeAll_from lit 0 s.

(** [s.replace(/lit$/, '')] for a non-empty literal [lit]. *)
Fixpoint stripSuffix (lit s : string) : string :=
  match s with
  | EmptyString => EmptyString
  | String a s' => if String.eqb s lit then EmptyString else String a (stripSuffix lit s')
  end.

(** A literal at the start of a regular expression's remaining input: the
    input after the literal when it is there. *)
Fixpoint literal (lit s : string) : option string :=
  match lit, s with
  | EmptyString, _ => Some s
  | String a lit', String b s' => if Ascii.eqb a b then literal lit' s' else None
  | String _ _, EmptyString => None
  end.

(** [l.slice(0, -1)] *)
Definition dropLast {A : Type} (l : list A) : list A := removelast l.

(** [[...new Set(l)]]: the distinct elements in order of first occurrence. *)
Fixpoint distinct (seen l : list string) : list string :=
  match l with
  | [] => []
  | x :: l' =>
      if existsb (String.eqb x) seen then distinct seen l'
      else x :: distinct (x :: seen) l'
  end.

End JS.

(* ===================================================================== *)
(** ** Outcomes of fallible code                                          *)
(* ===================================================================== *)

(** The outcome of code that may throw (an [async] function that may
    reject): a value, or an exception of type [E]. *)
Inductive result (E A : Type) : Type :=
| Ok (a : A)
| Throw (e : E).
Arguments Ok {E A} a.
Arguments Throw {E A} e.

Definition bind {E A B : Type} (r : result E A) (k : A -> result E B) : result E B :=
  match r with
  | Ok a => k a
  | Throw e => Throw e
  end.

Notation "x <- r ;; k" := (bind r (fun x => k))
  (at level 61, r at next level, right associativity).

(** A [for ... of] loop whose body may throw, threading the loop state. *)
Fixpoint forOf {E A S : Type} (body : S -> A -> result E S) (l : list A) (s : S)
  : result E S :=
  match l with
  | [] => Ok s
  | a :: l' => s' <- body s a ;; forOf body l' s'
  end.

(* ===================================================================== *)
(** ** What the sources read of a [fetch] response                        *)
(* ===================================================================== *)

Module Http.

Record Response := {
  ok : bool;             (* [response.ok] *)
  status : Z;            (* [response.status] *)
  statusText : string;   (* [response.statusText] *)
  text : string          (* [await response.text()], the body *)
}.

End Http.

(* ===================================================================== *)
(** ** The canonical record model ([package.ts])                          *)
(* ===================================================================== *)

Inductive Source := github | pypi.
Inductive PackageManager := lip | pip.

Record Contributor := {
  username : string;
  contributions : Z
}.

Record Version := {
  version : string;
  releasedAt : string;
  source : Source;
  packageManager : PackageManager;
  platformVersionRequirement : option string
}.

Record Package := {
  identifier : string;
  name : string;
  description : string;
  author : string;
  tags : list string;
  avatarUrl : string;
  projectUrl : string;
  hotness : Z;
  updated : string;
  contributors : list Contributor;
  versions : list Version
}.

Section Normalizer.

(** [after a b]: the timestamp [a] is strictly later than [b]. *)
Variable after : string -> string -> bool.

(** Modelled from the spec: the deduplication step of [normalizePackage]
    ([package.js] is not among the sources).  Section 3: at most one entry
    per version string, the first one met wins. *)
Fixpoint dedupVersions (seen : list string) (vs : list Version) : list Version :=
  match vs with
  | [] => []
  | v :: vs' =>
      if existsb (String.eqb (version v)) seen then dedupVersions seen vs'
      else v :: dedupVersions (version v :: seen) vs'
  end.

(** Modelled from the spec: the sorting step of [normalizePackage]
    ([package.js] is not among the sources).  Section 3: [versions] is
    sorted descending by [releasedAt]; the sort is a stable insertion
    sort. *)
Fixpoint insertVersion (v : Version) (vs : list Version) : list Version :=
  match vs with
  | [] => [v]
  | w :: vs' =>
      if after (releasedAt w) (releasedAt v) then w :: insertVersion v vs'
      else v :: vs
  end.

(** Modelled from the spec: see [insertVersion]. *)
Definition sortVersions (vs : list Version) : list Version :=
  fold_right insertVersion [] vs.

(** Modelled from the spec: [normalizePackage] is imported from
    [package.js], which is not among the sources.  Section 4.2: it
    deduplicates [versions] by version string, sorts [versions] descending
    by [releasedAt], sets [updated] to the first version's [releasedAt],
    deduplicates [tags] keeping the first occurrence, and passes every
    other field through unchanged. *)
Definition normalizePackage (pkg : Package) : Package :=
  let vs := sortVersions (dedupVersions [] (versions pkg)) in
  {| identifier := identifier pkg;
     name := name pkg;
     description := description pkg;
     author := author pkg;
     tags := JS.distinct [] (tags pkg);
     avatarUrl := avatarUrl pkg;
     projectUrl := projectUrl pkg;
     hotness := hotness pkg;
     updated := match vs with v :: _ => releasedAt v | [] => updated pkg end;
     contributors := contributors pkg;
     versions := vs |}.

End Normalizer.

(* ===================================================================== *)
(** ** The query builder of redis-om, as [RedisClient.search] uses it     *)
(* ===================================================================== *)

Module RedisOm.

Inductive Field := f_name | f_description | f_author | f_tags.

(** The where-tree that a search accumulates. *)
Inductive Where :=
| WhereMatches (f : Field) (pattern : string)   (* [.matches(pattern)] on a text field *)
| WhereContains (f : Field) (value : string)    (* [.contains(value)] on a string[] field *)
| WhereAnd (l r : Where)
| WhereOr (l r : Where).

(** A search is its root where; [None] is a search without any filter. *)
Definition Search := option Where.

(** [repository.search()] and the fresh search handed to a sub-query
    callback. *)
Definition emptySearch : Search := None.

(** The only error of the builder: a sub-query callback that returns a
    search without a root where. *)
Inductive BuilderError := SubSearchWithoutRootWhere.

(** [search.or(field).matches(pattern)] and [search.or(field).contains(value)]:
    the first condition of a search becomes its root, a later one is
    joined to the root with OR. *)
Definition orWhere (w : Where) (s : Search) : Search :=
  match s with
  | None => Some w
  | Some root => Some (WhereOr root w)
  end.

Definition orMatches (f : Field) (pattern : string) : Search -> Search :=
  orWhere (WhereMatches f pattern).

Definition orContains (f : Field) (value : string) : Search -> Search :=
  orWhere (WhereContains f value).

(** [search.and(fn)] and [search.or(fn)] with a callback: the callback
    runs on a fresh search and its root is joined to this search's root. *)
Definition joinFn (ctor : Where -> Where -> Where)
    (fn : Search -> result BuilderError Search) (s : Search)
  : result BuilderError Search :=
  sub <- fn emptySearch ;;
  match sub with
  | None => Throw SubSearchWithoutRootWhere
  | Some subRoot =>
      match s with
      | None => Ok (Some subRoot)
      | Some root => Ok (Some (ctor root subRoot))
      end
  end.

Definition andFn := joinFn WhereAnd.
Definition orFn := joinFn WhereOr.

End RedisOm.

(* ===================================================================== *)
(** ** [RedisClient.search]                                               *)
(* ===================================================================== *)

Module RedisClient.
Import RedisOm.

Inductive SortKey := sort_hotness | sort_updated.      (* 'hotness' | 'updated' *)
Inductive SortOrder := asc | desc.                     (* 'asc' | 'desc' *)
Inductive IndexField := field_hotness | field_updated.
Inductive Direction := ASC | DESC.

(** The RediSearch index behind the repository: the stored records, the
    meaning it gives to the two leaf conditions, and its sort. *)
Record Index := {
  entities : list Package;
  matches : Field -> string -> Package -> bool;
  contains : Field -> string -> Package -> bool;
  sortBy : IndexField -> Direction -> list Package -> list Package
}.

(** Whether a record satisfies a where-tree. *)
Fixpoint holds (I : Index) (w : Where) (p : Package) : bool :=
  match w with
  | WhereMatches f pattern => matches I f pattern p
  | WhereContains f value => contains I f value p
  | WhereAnd l r => holds I l p && holds I r p
  | WhereOr l r => holds I l p || holds I r p
  end.

(** A search without a root where selects every record. *)
Definition satisfies (I : Index) (s : Search) (p : Package) : bool :=
  match s with
  | None => true
  | Some w => holds I w p
  end.

(** [query.count()] *)
Definition count (I : Index) (s : Search) : Z :=
  Z.of_nat (List.length (filter (satisfies I s) (entities I))).

(** [query.sortBy(field, direction).return.page(offset, count)], for a
    non-negative integer offset and count. *)
Definition returnPage (I : Index) (s : Search) (f : IndexField) (d : Direction)
    (offset cnt : Z) : list Package :=
  firstn (Z.to_nat cnt)
    (skipn (Z.to_nat offset) (sortBy I f d (filter (satisfies I s) (entities I)))).

Definition sortFieldMap (sort : SortKey) : IndexField :=
  match sort with
  | sort_hotness => field_hotness
  | sort_updated => field_updated
  end.

Definition sortOrderMap (order : SortOrder) : Direction :=
  match order with
  | asc => ASC
  | desc => DESC
  end.

(** [[a-z0-9-]] *)
Definition isTagChar (c : ascii) : bool :=
  JS.isLower c || JS.isDigit c || Ascii.eqb c "-".

(** [/^[a-z0-9-]+:[a-z0-9-]+$/.test(qItem)].  The class does not contain
    [:], so the first group is the longest run of class characters at the
    start; a colon must follow it and the rest, up to the end of the
    string, must be a non-empty run of class characters. *)
Definition isTagTerm (qItem : string) : bool :=
  match JS.span isTagChar qItem with
  | (String _ _, String ":" (String b v)) => JS.all isTagChar (String b v)
  | _ => false
  end.

(** The callback passed to [query.and] for a required token and to
    [subQuery.or] for an optional token (the two loops have the same
    body). *)
Definition termQuery (qItem : string) (subQuery : Search)
  : result BuilderError Search :=
  if isTagTerm qItem then
    Ok (orContains f_tags qItem subQuery)
  else
    let pattern := "*" ++ qItem ++ "*" in
    Ok (orContains f_tags pattern
         (orMatches f_author pattern
           (orMatches f_description pattern
             (orMatches f_name pattern subQuery)))).

(** [q.replaceAll('*', ' ').split(' ').filter(item => item.length > 0)] *)
Definition qList (q : string) : list string :=
  filter (fun item => 0 <? JS.length item)%Z (JS.split " " (JS.replaceAll "*" " " q)).

Definition optionalQList (q : string) : list string :=
  filter (fun item => negb (JS.startsWith "+" item)) (qList q).

Definition exactQList (q : string) : list string :=
  map JS.slice1 (filter (fun item => JS.startsWith "+" item) (qList q)).

(** The query that [search] builds from [q] (the source's lines from
    [let query = this.repository.search()] to the end of the
    [if (q.length > 1)] block). *)
Definition buildQuery (q : string) : result BuilderError Search :=
  let query := emptySearch in
  if (1 <? JS.length q)%Z then
    query <- forOf (fun query qItem => andFn (termQuery qItem) query)
               (exactQList q) query ;;
    if (0 <? Z.of_nat (List.length (optionalQList q)))%Z then
      andFn (fun subQuery =>
               forOf (fun subQuery qItem => orFn (termQuery qItem) subQuery)
                 (optionalQList q) subQuery)
            query
    else Ok query
  else Ok query.

(** [Math.ceil(a / b)] for integers [a] and [b], [b] not zero. *)
Definition ceilDiv (a b : Z) : Z := Qceiling (inject_Z a / inject_Z b).

Record SearchResult := {
  packages : list Package;
  pageCount : Z
}.

Definition search (I : Index) (q : string) (perPage page : Z)
    (sort : SortKey) (order : SortOrder) : result BuilderError SearchResult :=
  let offset := ((page - 1) * perPage)%Z in
  query <- buildQuery q ;;
  let pageCount := ceilDiv (count I query) perPage in
  let entities := returnPage I query (sortFieldMap sort) (sortOrderMap order) offset perPage in
  Ok {| packages := entities; pageCount := pageCount |}.

End RedisClient.

(* ===================================================================== *)
(** ** The read API: [router.get('/:tooth/:version')]                     *)
(* ===================================================================== *)

Module ReadApi.
Import Http.

(** What the handler's [catch] tells apart: an error made by [httpErrors]
    and anything else. *)
Inductive Error :=
| HttpError (statusCode : Z) (message : string)
| OtherError.

Section Handler.

(** The tooth metadata object of [lib/tooth_metadata.js]. *)
Variable ToothMetadata : Type.

(** The collaborators of the handler. *)
Record Env := {
  (** the global [fetch]; it rejects on a network failure *)
  fetch : string -> result Error Response;
  (** [isValidVersionString] of [lib/version.js] *)
  isValidVersionString : string -> bool;
  (** [createToothMetadataFromJsonString] of [lib/tooth_metadata.js] *)
  createToothMetadataFromJsonString : string -> result Error ToothMetadata;
  (** the status code that [httpErrors(status, message)] gives its error *)
  httpErrorStatus : Z -> Z;
  (** when several promises of a [Promise.all] reject, the position (among
      the rejected ones) of the one that rejects first *)
  firstRejection : nat
}.

Variable E : Env.

(** [[a-zA-Z0-9-]] and [[a-zA-Z0-9-_.]] *)
Definition isOwnerChar (c : ascii) : bool :=
  JS.isLower c || JS.isUpper c || JS.isDigit c || Ascii.eqb c "-".

Definition isRepoChar (c : ascii) : bool :=
  isOwnerChar c || Ascii.eqb c "_" || Ascii.eqb c ".".

(** [TOOTH_PATH_REGEXP.exec(tooth)] with
    [/^github.com\/(?<owner>[a-zA-Z0-9-]+)\/(?<repo>[a-zA-Z0-9-_.]+)$/]:
    the groups [owner] and [repo] of the match, if any.  The [.] between
    [github] and [com] is the regular expression's any-character. *)
Definition TOOTH_PATH_REGEXP_exec (tooth : string) : option (string * string) :=
  match JS.literal "github" tooth with
  | Some (String anyChar afterDot) =>
      if JS.isLineTerminator anyChar then None
      else
        match JS.literal "com/" afterDot with
        | Some rest =>
            match JS.span isOwnerChar rest with
            | (String a owner, String "/" (String b repo)) =>
                if JS.all isRepoChar (String b repo)
                then Some (String a owner, String b repo)
                else None
            | _ => None
            end
        | None => None
        end
  | _ => None
  end.

(** An asynchronous computation of the handler: the URLs it requests, in
    the order the requests are issued, and its outcome. *)
Definition Async (A : Type) : Type := list string * result Error A.

Definition rejections {A : Type} (r : result Error A) : list Error :=
  match r with
  | Ok _ => []
  | Throw e => [e]
  end.

(** The rejection of a [Promise.all] of which at least the promise with
    error [e] rejected. *)
Definition raceOf (e : Error) (es : list Error) : Error :=
  nth (Nat.modulo (firstRejection E) (S (List.length es))) (e :: es) e.

(** [Promise.all] over a list of promises of one type. *)
Fixpoint values {A : Type} (rs : list (result Error A)) : list A :=
  match rs with
  | [] => []
  | Ok a :: rs' => a :: values rs'
  | Throw _ :: rs' => values rs'
  end.

Definition promiseAll {A : Type} (ps : list (Async A)) : Async (list A) :=
  (concat (map fst ps),
   match concat (map (fun p => rejections (snd p)) ps) with
   | [] => Ok (values (map snd ps))
   | e :: es => Throw (raceOf e es)
   end).

Definition fetchReadmeForLang (owner repo versionString : string)
    (lang : option string) : Async (option string) :=
  let readmeUrl :=
    match lang with
    | None =>
        "https://raw.githubusercontent.com/" ++ owner ++ "/" ++ repo ++ "/v"
          ++ versionString ++ "/README.md"
    | Some lang =>
        "https://raw.githubusercontent.com/" ++ owner ++ "/" ++ repo ++ "/v"
          ++ versionString ++ "/README." ++ lang ++ ".md"
    end in
  ([readmeUrl],
   response <- fetch E readmeUrl ;;
   if negb (ok response) then Ok None
   else Ok (Some (text response))).

(** The first entry of [readmeList] that is not [null]. *)
Fixpoint firstNonNull (readmeList : list (option string)) : option string :=
  match readmeList with
  | [] => None
  | Some readme :: _ => Some readme
  | None :: readmeList' => firstNonNull readmeList'
  end.

Definition fetchReadme (owner repo versionString : string)
    (langList : list string) : Async (option string) :=
  let promiseList :=
    (map (fun lang => fetchReadmeForLang owner repo versionString (Some lang)) langList
     ++ [fetchReadmeForLang owner repo versionString None])%list in
  let '(urls, readmeList) := promiseAll promiseList in
  (urls, readmeList <- readmeList ;; Ok (firstNonNull readmeList)).

Definition fetchToothMetadata (owner repo versionString : string)
  : Async ToothMetadata :=
  let toothJsonUrl :=
    "https://raw.githubusercontent.com/" ++ owner ++ "/" ++ repo ++ "/v"
      ++ versionString ++ "/tooth.json" in
  ([toothJsonUrl],
   response <- fetch E toothJsonUrl ;;
   if negb (ok response) then
     Throw (HttpError (httpErrorStatus E (status response))
              ("Failed to fetch tooth.json: " ++ text response))
   else createToothMetadataFromJsonString E (text response)).

Definition fetchVersionList (owner repo : string) : Async (list string) :=
  let versionListUrl :=
    "https://goproxy.io/github.com/" ++ owner ++ "/" ++ repo ++ "/@v/list" in
  ([versionListUrl],
   response <- fetch E versionListUrl ;;
   if negb (ok response) then
     Throw (HttpError (httpErrorStatus E (status response))
              ("Failed to fetch version list: " ++ text response))
   else
     let goTagList := JS.dropLast (JS.split "010" (text response)) in
     Ok (map (fun tag => JS.stripSuffix "+incompatible" (JS.stripLeadingV tag))
           goTagList)).

(** The JSON body sent by the handler. *)
Inductive Body :=
| Data (toothMetadata : ToothMetadata) (available_versions : list string)
       (readme : option string)
| Message (message : string).

(** [res.status(httpStatus).send({code, ...body})]. *)
Record Reply := {
  httpStatus : Z;
  code : Z;
  body : Body
}.

(** The [try] block of the handler.  [languageCodes] is
    [acceptLanguageParser.parse(req.headers['accept-language'])
       .map(language => language.code)]. *)
Definition tryBlock (tooth version : string) (languageCodes : list string)
  : Async Reply :=
  match TOOTH_PATH_REGEXP_exec tooth with
  | None => ([], Throw (HttpError 400 "Invalid parameter - tooth."))
  | Some (ownerParam, repoParam) =>
      let versionParam := version in
      if negb (isValidVersionString E versionParam) then
        ([], Throw (HttpError 400 "Invalid parameter - version."))
      else
        let acceptedLanguages := JS.distinct [] languageCodes in
        let '(urls1, toothMetadata) := fetchToothMetadata ownerParam repoParam versionParam in
        let '(urls2, readme) := fetchReadme ownerParam repoParam versionParam acceptedLanguages in
        let '(urls3, versionList) := fetchVersionList ownerParam repoParam in
        ((urls1 ++ urls2 ++ urls3)%list,
         match toothMetadata, readme, versionList with
         | Ok toothMetadata, Ok readme, Ok versionList =>
             Ok {| httpStatus := 200; code := 200;
                   body := Data toothMetadata versionList readme |}
         | _, _, _ =>
             match (rejections toothMetadata ++ rejections readme
                      ++ rejections versionList)%list with
             | e :: es => Throw (raceOf e es)
             | [] => Throw OtherError
             end
         end)
  end.

(** The handler: the requests it issues and the reply it sends. *)
Definition handler (tooth version : string) (languageCodes : list string)
  : list string * Reply :=
  let '(urls, outcome) := tryBlock tooth version languageCodes in
  (urls,
   match outcome with
   | Ok reply => reply
   | Throw (HttpError statusCode message) =>
       {| httpStatus := statusCode; code := statusCode; body := Message message |}
   | Throw OtherError =>
       {| httpStatus := 500; code := 500; body := Message "Internal server error." |}
   end).

End Handler.

End ReadApi.

(* ===================================================================== *)
(** ** Shapes shared by the fetchers ([github-fetcher.ts], upstream JSON) *)
(* ===================================================================== *)

Module GitHub.

(** [RepoId] (called [RepositoryDescriptor] by the Endstone fetcher). *)
Record RepoId := {
  owner : string;
  repo : string
}.

(** What the fetchers read of a repository. *)
Record Repository := {
  topics : option (list string);
  stargazers_count : Z;
  owner_login : string
}.

Record RepoContributor := {
  login : option string;
  contributions : Z
}.

(** What the Endstone fetcher reads of a release. *)
Record Release := {
  tag_name : string;
  published_at : option string;
  created_at : string
}.

End GitHub.

(** An exception inside a fetcher; the fetchers only log it. *)
Inductive Thrown := thrown.

(** The lines written with [consola.error]. *)
Definition Log := list string.

(** A fetcher step that logs: the error lines and the outcome. *)
Definition Logged (A : Type) : Type := Log * A.

(* ===================================================================== *)
(** ** [LeviLaminaFetcher]                                                *)
(* ===================================================================== *)

Module LeviLaminaFetcher.
Import Http.
Definition RepoId := GitHub.RepoId.

(** [interface Tooth]; the two optional maps are read only at the key
    ['github.com/LiteLDev/LeviLamina'], so each is kept as the value found
    there, [None] when the map or the key is missing. *)
Record Tooth := {
  info_name : string;
  info_description : string;
  info_tags : list string;
  info_avatar_url : option string;
  dependencies_LeviLamina : option string;
  prerequisites_LeviLamina : option string
}.

(** [interface GoProxyVersion] *)
Record GoProxyVersion := {
  Version_ : string;
  Time : string
}.

(** The collaborators of the fetcher. *)
Record Env := {
  (** the repositories that [this.searchForRepo(query)] yields *)
  searchForRepo : string -> list RepoId;
  getRepo : RepoId -> result Thrown GitHub.Repository;
  listRepoContributors : RepoId -> result Thrown (list GitHub.RepoContributor);
  (** the global [fetch] *)
  fetch : string -> result Thrown Response;
  (** [await response.json()] read as a [Tooth] / as a [GoProxyVersion] *)
  jsonTooth : string -> result Thrown Tooth;
  jsonGoProxyVersion : string -> result Thrown GoProxyVersion;
  (** [new Date(s).toISOString()], which throws on an invalid date *)
  toISOString : string -> result Thrown string
}.

Section Fetcher.

Variable after : string -> string -> bool.
Variable E : Env.

(** The double-quote character, and a word between double quotes. *)
Definition quote : string := String "034" EmptyString.
Definition quoted (s : string) : string := quote ++ s ++ quote.

Definition query : string :=
  "path:/+filename:tooth.json+" ++ quoted "format_version" ++ "+2+" ++ quoted "tooth"
    ++ "+" ++ quoted "version" ++ "+" ++ quoted "info" ++ "+" ++ quoted "name"
    ++ "+" ++ quoted "description" ++ "+" ++ quoted "author" ++ "+" ++ quoted "tags"
    ++ "+" ++ quoted "github.com/LiteLDev/LeviLamina".

(** [s.replace(/([A-Z])/g, (match) => `!${match.toLowerCase()}`)] *)
Fixpoint escapeForGoProxy (s : string) : string :=
  match s with
  | EmptyString => EmptyString
  | String a s' =>
      if JS.isUpper a
      then String "!" (String (ascii_of_nat (JS.code a + 32)) (escapeForGoProxy s'))
      else String a (escapeForGoProxy s')
  end.

Definition fetchGoProxyVersion (repo : RepoId) (goproxyVersionStr : string)
  : result Thrown (option GoProxyVersion) :=
  let url := "https://goproxy.io/github.com/" ++ escapeForGoProxy (GitHub.owner repo) ++ "/"
               ++ escapeForGoProxy (GitHub.repo repo) ++ "/@v/" ++ goproxyVersionStr ++ ".info" in
  response <- fetch E url ;;
  if negb (ok response) then Ok None
  else data <- jsonGoProxyVersion E (text response) ;; Ok (Some data).

Definition fetchTooth (repo : RepoId) (ref : string) : result Thrown (option Tooth) :=
  let url := "https://raw.githubusercontent.com/" ++ GitHub.owner repo ++ "/" ++ GitHub.repo repo
               ++ "/" ++ ref ++ "/tooth.json" in
  response <- fetch E url ;;
  if negb (ok response) then Ok None
  else data <- jsonTooth E (text response) ;; Ok (Some data).

(** The [try] block of the loop of [fetchVersions]: the version to push,
    [None] on [continue]. *)
Definition tryVersion (repo : RepoId) (goproxyVersionStr : string)
  : result Thrown (option Version) :=
  let versionStr := JS.removeAll "+incompatible" (JS.stripLeadingV goproxyVersionStr) in
  match fetchGoProxyVersion repo goproxyVersionStr,
        fetchTooth repo ("v" ++ versionStr) with
  | Ok goproxyResp, Ok toothResp =>
      match goproxyResp, toothResp with
      | Some goproxyResp, Some toothResp =>
          iso <- toISOString E (Time goproxyResp) ;;
          Ok (Some {| version := versionStr;
                      releasedAt := iso;
                      source := github;
                      packageManager := lip;
                      platformVersionRequirement :=
                        Some match dependencies_LeviLamina toothResp with
                             | Some r => r
                             | None =>
                                 match prerequisites_LeviLamina toothResp with
                                 | Some r => r
                                 | None => EmptyString
                                 end
                             end |})
      | _, _ => Ok None
      end
  | _, _ => Throw thrown
  end.

Fixpoint versionLoop (repo : RepoId) (goproxyVersionStrList : list string)
    (versionList : list Version) : Logged (list Version) :=
  match goproxyVersionStrList with
  | [] => ([], versionList)
  | goproxyVersionStr :: rest =>
      match tryVersion repo goproxyVersionStr with
      | Ok (Some v) => versionLoop repo rest (versionList ++ [v])%list
      | Ok None => versionLoop repo rest versionList
      | Throw _ =>
          let line := "Failed to fetch version " ++ goproxyVersionStr ++ " for package "
                        ++ GitHub.owner repo ++ "/" ++ GitHub.repo repo ++ ":" in
          let '(log, vs) := versionLoop repo rest versionList in
          (line :: log, vs)
      end
  end.

Definition fetchVersions (repo : RepoId) : Logged (result Thrown (list Version)) :=
  let url := "https://goproxy.io/github.com/" ++ escapeForGoProxy (GitHub.owner repo) ++ "/"
               ++ escapeForGoProxy (GitHub.repo repo) ++ "/@v/list" in
  match fetch E url with
  | Throw e => ([], Throw e)
  | Ok response =>
      let goproxyVersionStrList :=
        filter (fun line => 0 <? JS.length line)%Z
          (map JS.trim (JS.split "010" (text response))) in
      let '(log, versionList) := versionLoop repo goproxyVersionStrList [] in
      (log, Ok versionList)
  end.

(** [[a-z+]] under the [i] flag. *)
Definition isSchemeChar (c : ascii) : bool :=
  JS.isLower c || JS.isUpper c || Ascii.eqb c "+".

(** [/^(?:[a-z+]+:)?\//i.test(avatarUrl)] *)
Definition isAbsoluteUrl (avatarUrl : string) : bool :=
  JS.startsWith "/" avatarUrl ||
  match JS.span isSchemeChar avatarUrl with
  | (String _ _, String ":" (String "/" _)) => true
  | _ => false
  end.

(** [[A-Za-z0-9-]] and [[\w.-]] *)
Definition isBlobOwnerChar (c : ascii) : bool :=
  JS.isLower c || JS.isUpper c || JS.isDigit c || Ascii.eqb c "-".

Definition isBlobRepoChar (c : ascii) : bool :=
  JS.isLower c || JS.isUpper c || JS.isDigit c || Ascii.eqb c "_"
  || Ascii.eqb c "." || Ascii.eqb c "-".

(** [githubUrlRegex.exec(avatarUrl)] with
    [/^https:\/\/github\.com\/([A-Za-z0-9-]+)\/([\w.-]+)\/blob\/(.+)/]:
    the three groups of the match, if any. *)
Definition githubUrlRegex_exec (avatarUrl : string) : option (string * string * string) :=
  match JS.literal "https://github.com/" avatarUrl with
  | Some rest =>
      match JS.span isBlobOwnerChar rest with
      | (String a g1, String "/" rest2) =>
          match JS.span isBlobRepoChar rest2 with
          | (String b g2, rest3) =>
              match JS.literal "/blob/" rest3 with
              | Some rest4 =>
                  match JS.span (fun c => negb (JS.isLineTerminator c)) rest4 with
                  | (String c g3, _) => Some (String a g1, String b g2, String c g3)
                  | _ => None
                  end
              | None => None
              end
          | _ => None
          end
      | _ => None
      end
  | None => None
  end.

Definition fetchPackage (repo : RepoId) : Logged (result Thrown (option Package)) :=
  let '(log, versions) := fetchVersions repo in
  (log,
   match getRepo E repo, listRepoContributors E repo, fetchTooth repo "HEAD", versions with
   | Ok repository, Ok repositoryContributors, Ok tooth, Ok versions =>
       match tooth with
       | None => Ok None
       | Some tooth =>
           if (Z.of_nat (List.length versions) =? 0)%Z then Ok None
           else
             let avatarUrl :=
               match info_avatar_url tooth with
               | Some u => u
               | None => "https://avatars.githubusercontent.com/" ++ GitHub.owner repo
               end in
             let avatarUrl :=
               if negb (isAbsoluteUrl avatarUrl)
               then "https://raw.githubusercontent.com/" ++ GitHub.owner repo ++ "/"
                      ++ GitHub.repo repo ++ "/HEAD/" ++ avatarUrl
               else avatarUrl in
             let avatarUrl :=
               match githubUrlRegex_exec avatarUrl with
               | Some (g1, g2, g3) =>
                   "https://raw.githubusercontent.com/" ++ g1 ++ "/" ++ g2 ++ "/" ++ g3
               | None => avatarUrl
               end in
             let contributors :=
               map (fun contributor =>
                      {| username := match GitHub.login contributor with
                                     | Some l => l
                                     | None => EmptyString
                                     end;
                         contributions := GitHub.contributions contributor |})
                   repositoryContributors in
             let packageInfo :=
               {| identifier := "github.com/" ++ GitHub.owner repo ++ "/" ++ GitHub.repo repo;
                  name := info_name tooth;
                  description := info_description tooth;
                  author := GitHub.owner repo;
                  tags := ("platform:levilamina" :: info_tags tooth
                            ++ match GitHub.topics repository with
                               | Some t => t
                               | None => []
                               end)%list;
                  avatarUrl := avatarUrl;
                  projectUrl := "https://github.com/" ++ GitHub.owner repo ++ "/"
                                  ++ GitHub.repo repo;
                  hotness := GitHub.stargazers_count repository;
                  updated := EmptyString;
                  contributors := contributors;
                  versions := versions |} in
             Ok (Some (normalizePackage after packageInfo))
       end
   | _, _, _, _ => Throw thrown
   end).

(** One turn of the [for await] loop of [fetch]: the error lines it
    writes and the packages it yields. *)
Definition fetchOne (repo : RepoId) : Logged (list Package) :=
  if String.eqb (GitHub.owner repo) "LiteLDev" && String.eqb (GitHub.repo repo) "LeviLamina"
  then ([], [])
  else
    let '(log, packageInfo) := fetchPackage repo in
    match packageInfo with
    | Ok (Some packageInfo) => (log, [packageInfo])
    | Ok None => (log, [])
    | Throw _ =>
        let line := "Failed to fetch package " ++ GitHub.owner repo ++ "/"
                      ++ GitHub.repo repo ++ ":" in
        ((log ++ [line])%list, [])
    end.

Fixpoint fetchLoop (repos : list RepoId) : Logged (list Package) :=
  match repos with
  | [] => ([], [])
  | repo :: rest =>
      let '(log1, out1) := fetchOne repo in
      let '(log2, out2) := fetchLoop rest in
      ((log1 ++ log2)%list, (out1 ++ out2)%list)
  end.

(** [fetch()]: the error lines written and the packages yielded, in order. *)
Definition fetch_ : Logged (list Package) := fetchLoop (searchForRepo E query).

End Fetcher.

End LeviLaminaFetcher.

(* ===================================================================== *)
(** ** [EndstonePythonFetcher]                                            *)
(* ===================================================================== *)

Module EndstonePythonFetcher.
Import Http.

Definition RepositoryDescriptor := GitHub.RepoId.

(** [interface PythonProjectMetadata] (its [project] table). *)
Record PythonProjectMetadata := {
  project_name : string;
  project_description : option string;
  project_keywords : option (list string)
}.

(** [interface PypiPackageMetadata]: [releases], as the list of its keys
    in [Object.keys] order, each with the [upload_time_iso_8601] of its
    files. *)
Record PypiPackageMetadata := {
  releases : list (string * list string)
}.

(** The collaborators of the fetcher. *)
Record Env := {
  (** the repositories that [this.searchForRepositories(query)] yields *)
  searchForRepositories : string -> list RepositoryDescriptor;
  fetchRepository : RepositoryDescriptor -> result Thrown GitHub.Repository;
  fetchRepositoryContributors :
    RepositoryDescriptor -> result Thrown (list GitHub.RepoContributor);
  fetchRepositoryVersions : RepositoryDescriptor -> result Thrown (list GitHub.Release);
  (** [fetchBuilder(global.fetch)] *)
  fetch : string -> result Thrown Response;
  (** [toml.parse(data) as PythonProjectMetadata], read at its [project]
      table; a document without the table, whose [project.name] the
      caller reads right after, is a throw as well *)
  tomlParse : string -> result Thrown PythonProjectMetadata;
  (** [await response.json() as PypiPackageMetadata] *)
  jsonPypi : string -> result Thrown PypiPackageMetadata;
  (** [new Date(s).toISOString()], which throws on an invalid date *)
  toISOString : string -> result Thrown string
}.

Section Fetcher.

Variable after : string -> string -> bool.
Variable E : Env.

Definition query : string :=
  "path:/+filename:pyproject.toml+[project.entry-points." ++ String "034" "endstone"
    ++ String "034" "]".

Definition fetchPyprojectMetadata (repo : RepositoryDescriptor)
  : result Thrown PythonProjectMetadata :=
  let url := "https://raw.githubusercontent.com/" ++ GitHub.owner repo ++ "/"
               ++ GitHub.repo repo ++ "/HEAD/pyproject.toml" in
  response <- fetch E url ;;
  let data := text response in
  tomlParse E data.

Definition fetchPypiPackageMetadata (name : string)
  : result Thrown (option PypiPackageMetadata) :=
  let url := "https://pypi.org/pypi/" ++ name ++ "/json" in
  response <- fetch E url ;;
  if negb (ok response) then Ok None
  else data <- jsonPypi E (text response) ;; Ok (Some data).

(** [l.map(f)] for a callback that may throw. *)
Fixpoint mapThrowing {A B : Type} (f : A -> result Thrown B) (l : list A)
  : result Thrown (list B) :=
  match l with
  | [] => Ok []
  | a :: l' => b <- f a ;; bs <- mapThrowing f l' ;; Ok (b :: bs)
  end.

(** The version record made from a GitHub release. *)
Definition versionOfRelease (release : GitHub.Release) : result Thrown Version :=
  iso <- toISOString E match GitHub.published_at release with
                       | Some t => t
                       | None => GitHub.created_at release
                       end ;;
  Ok {| version := GitHub.tag_name release;
        releasedAt := iso;
        source := github;
        packageManager := pip;
        platformVersionRequirement := None |}.

(** The version records made from the PyPI releases that have a file. *)
Definition pypiVersions (metadata : PypiPackageMetadata) : list Version :=
  let pypiVersionStrings :=
    filter (fun r => 0 <? Z.of_nat (List.length (snd r)))%Z (releases metadata) in
  map (fun r =>
         {| version := fst r;
            releasedAt := match snd r with t :: _ => t | [] => EmptyString end;
            source := pypi;
            packageManager := pip;
            platformVersionRequirement := None |})
      pypiVersionStrings.

Definition fetchPackage (repo : RepositoryDescriptor) : result Thrown (option Package) :=
  match fetchRepository E repo, fetchRepositoryContributors E repo,
        fetchRepositoryVersions E repo, fetchPyprojectMetadata repo with
  | Ok repository, Ok repositoryContributors, Ok repositoryVersions, Ok pyprojectMetadata =>
      pypiPackageMetadata <- fetchPypiPackageMetadata (project_name pyprojectMetadata) ;;
      let contributors :=
        map (fun contributor =>
               {| username := match GitHub.login contributor with
                              | Some l => l
                              | None => EmptyString
                              end;
                  contributions := GitHub.contributions contributor |})
            repositoryContributors in
      versions <- mapThrowing versionOfRelease repositoryVersions ;;
      let versions :=
        match pypiPackageMetadata with
        | Some metadata => (versions ++ pypiVersions metadata)%list
        | None => versions
        end in
      if (Z.of_nat (List.length versions) =? 0)%Z then Ok None
      else
        let packageInfo :=
          {| identifier := "github.com/" ++ GitHub.owner repo ++ "/" ++ GitHub.repo repo;
             name := project_name pyprojectMetadata;
             description := match project_description pyprojectMetadata with
                            | Some d => d
                            | None => EmptyString
                            end;
             author := GitHub.owner_login repository;
             tags := ("platform:endstone" :: "type:mod"
                       :: match project_keywords pyprojectMetadata with
                          | Some k => k
                          | None => []
                          end
                       ++ match GitHub.topics repository with Some t => t | None => [] end)%list;
             avatarUrl := "https://avatars.githubusercontent.com/" ++ GitHub.owner repo;
             projectUrl := "https://github.com/" ++ GitHub.owner repo ++ "/" ++ GitHub.repo repo;
             hotness := GitHub.stargazers_count repository;
             updated := EmptyString;
             contributors := contributors;
             versions := versions |} in
        Ok (Some (normalizePackage after packageInfo))
  | _, _, _, _ => Throw thrown
  end.

(** One turn of the [for await] loop of [fetch]. *)
Definition fetchOne (repo : RepositoryDescriptor) : Logged (list Package) :=
  match fetchPackage repo with
  | Ok (Some packageInfo) => ([], [packageInfo])
  | Ok None => ([], [])
  | Throw _ =>
      (["Error fetching Endstone Python package github.com/" ++ GitHub.owner repo
          ++ "/" ++ GitHub.repo repo ++ ":"], [])
  end.

Fixpoint fetchLoop (repos : list RepositoryDescriptor) : Logged (list Package) :=
  match repos with
  | [] => ([], [])
  | repo :: rest =>
      let '(log1, out1) := fetchOne repo in
      let '(log2, out2) := fetchLoop rest in
      ((log1 ++ log2)%list, (out1 ++ out2)%list)
  end.

(** [fetch()]: the error lines written and the packages yielded, in order. *)
Definition fetch_ : Logged (list Package) := fetchLoop (searchForRepositories E query).

End Fetcher.

End EndstonePythonFetcher.

(* ===================================================================== *)
(** ** Notions used to state the properties                               *)
(* ===================================================================== *)

Module Notions.
Import RedisOm RedisClient.

(** The characters of a tag-qualified term: lowercase letters, digits and
    the hyphen. *)
Definition tagAlphabet : string := "abcdefghijklmnopqrstuvwxyz0123456789-".

Fixpoint occurs (c : ascii) (s : string) : bool :=
  match s with
  | EmptyString => false
  | String a s' => Ascii.eqb a c || occurs c s'
  end.

Fixpoint Over (alphabet : string) (s : string) : Prop :=
  match s with
  | EmptyString => True
  | String a s' => occurs a alphabet = true /\ Over alphabet s'
  end.

(** [key:value] with a non-empty key and value over [tagAlphabet]. *)
Definition TagQualified (token : string) : Prop :=
  exists key value : string,
    token = key ++ ":" ++ value /\
    key <> EmptyString /\ value <> EmptyString /\
    Over tagAlphabet key /\ Over tagAlphabet value.

(** The predicate of a tag-qualified term: the tags contain the term. *)
Definition tagWhere (token : string) : Where := WhereContains f_tags token.

(** The predicate of a free-text term: the pattern [*token*] matches the
    name, the description or the author, or is contained in the tags. *)
Definition freeTextWhere (token : string) : Where :=
  let pattern := "*" ++ token ++ "*" in
  WhereOr
    (WhereOr
      (WhereOr (WhereMatches f_name pattern) (WhereMatches f_description pattern))
      (WhereMatches f_author pattern))
    (WhereContains f_tags pattern).

(** The predicate of one term. *)
Definition termWhere (token : string) : Where :=
  if isTagTerm token then tagWhere token else freeTextWhere token.

(** The left-nested join of a list of predicates on top of [root]. *)
Definition joinAll (ctor : Where -> Where -> Where) (root : Search) (ws : list Where)
  : Search :=
  fold_left (fun s w => Some match s with
                             | None => w
                             | Some r => ctor r w
                             end) ws root.

(** The AND of a list of predicates; no predicate at all for the empty
    list. *)
Definition conjunction (ws : list Where) : Search := joinAll WhereAnd None ws.

(** The OR group of the optional terms: absent when there is none. *)
Definition orGroup (ws : list Where) : list Where :=
  match joinAll WhereOr None ws with
  | Some w => [w]
  | None => []
  end.

(** The reading of the query's predicate on a record: every required term
    holds and, when there are optional terms, one of them holds. *)
Definition requiredAndAnyOptional (I : Index) (required optional : list string)
    (p : Package) : bool :=
  forallb (fun t => holds I (termWhere t) p) required
  && match optional with
     | [] => true
     | _ :: _ => existsb (fun t => holds I (termWhere t) p) optional
     end.

(** [k] is the ceiling of [n / d]. *)
Definition IsCeiling (n d k : Z) : Prop :=
  (n <= k * d /\ forall k', n <= k' * d -> k <= k')%Z.

(** A string made of spaces and asterisks only. *)
Definition isBlank (q : string) : bool :=
  JS.all (fun c => Ascii.eqb c " " || Ascii.eqb c "*") q.

(** The identifier format of the read API: [github.com/<owner>/<repo>]
    with a non-empty owner of letters, digits and hyphens and a non-empty
    repository name of letters, digits, hyphens, underscores and dots. *)
Definition ownerAlphabet : string :=
  "abcdefghijklmnopqrstuvwxyzABCDEFGHIJKLMNOPQRSTUVWXYZ0123456789-".

Definition repoAlphabet : string :=
  "abcdefghijklmnopqrstuvwxyzABCDEFGHIJKLMNOPQRSTUVWXYZ0123456789-_.".

Definition IsToothPath (tooth : string) : Prop :=
  exists owner repo : string,
    tooth = "github.com/" ++ owner ++ "/" ++ repo /\
    owner <> EmptyString /\ repo <> EmptyString /\
    Over ownerAlphabet owner /\ Over repoAlphabet repo.

(** The distinct elements of a list, each at its first occurrence. *)
Fixpoint keepFirst (l : list string) : list string :=
  match l with
  | [] => []
  | x :: l' => x :: filter (fun y => negb (String.eqb y x)) (keepFirst l')
  end.

(** The address of the README of a language at a tagged revision, of the
    default README for no language. *)
Definition readmeUrl (owner repo versionString : string) (lang : option string) : string :=
  match lang with
  | None =>
      "https://raw.githubusercontent.com/" ++ owner ++ "/" ++ repo ++ "/v"
        ++ versionString ++ "/README.md"
  | Some lang =>
      "https://raw.githubusercontent.com/" ++ owner ++ "/" ++ repo ++ "/v"
        ++ versionString ++ "/README." ++ lang ++ ".md"
  end.

(** The answer of the README fetch for one language ([None]: the default
    README): its content, or nothing. *)
Definition readmeAnswer (ToothMetadata : Type) (E : ReadApi.Env ToothMetadata)
    (owner repo versionString : string) (lang : option string) : option string :=
  match snd (ReadApi.fetchReadmeForLang ToothMetadata E owner repo versionString lang) with
  | Ok readme => readme
  | Throw _ => None
  end.

(** The first element of a list of answers that is not [None]. *)
Definition firstSome {A : Type} (l : list (option A)) : option A :=
  match filter (fun o => match o with Some _ => true | None => false end) l with
  | o :: _ => o
  | [] => None
  end.

End Notions.

(* ===================================================================== *)
(** ** Sample inputs                                                      *)
(* ===================================================================== *)

Module Samples.
Import RedisOm RedisClient.

Definition samplePackage : Package :=
  {| identifier := "github.com/futrime/sample"; name := "sample";
     description := EmptyString; author := "futrime"; tags := ["platform:levilamina"];
     avatarUrl := EmptyString; projectUrl := EmptyString; hotness := 0%Z;
     updated := EmptyString; contributors := []; versions := [] |}.

(** An index that holds one record and matches no condition. *)
Definition silentIndex : Index :=
  {| entities := [samplePackage];
     matches := fun _ _ _ => false;
     contains := fun _ _ _ => false;
     sortBy := fun _ _ l => l |}.

(** An index that holds 25 records and matches every condition. *)
Definition fullIndex : Index :=
  {| entities := repeat samplePackage 25;
     matches := fun _ _ _ => true;
     contains := fun _ _ _ => true;
     sortBy := fun _ _ l => l |}.

(** Read-API collaborators: every upstream request is answered with
    status 404, every version string is accepted. *)
Definition notFound : Http.Response :=
  {| Http.ok := false; Http.status := 404; Http.statusText := "Not Found";
     Http.text := "404: Not Found" |}.

Definition missingEnv : ReadApi.Env unit :=
  {| ReadApi.fetch := fun _ => Ok notFound;
     ReadApi.isValidVersionString := fun _ => true;
     ReadApi.createToothMetadataFromJsonString := fun _ => Ok tt;
     ReadApi.httpErrorStatus := fun status => status;
     ReadApi.firstRejection := 0%nat |}.

(** Read-API collaborators: the tooth metadata and the version list are
    served, no README is. *)
Definition served (body : string) : Http.Response :=
  {| Http.ok := true; Http.status := 200; Http.statusText := "OK"; Http.text := body |}.

Definition noReadmeEnv : ReadApi.Env unit :=
  {| ReadApi.fetch := fun url =>
       if String.eqb url "https://raw.githubusercontent.com/futrime/sample/v1.0.0/tooth.json"
       then Ok (served "{}")
       else if String.eqb url "https://goproxy.io/github.com/futrime/sample/@v/list"
       then Ok (served (String "v" (String "1" (String "." (String "0" (String "." (String "0"
                          (String "010" EmptyString))))))))
       else Ok notFound;
     ReadApi.isValidVersionString := fun _ => true;
     ReadApi.createToothMetadataFromJsonString := fun _ => Ok tt;
     ReadApi.httpErrorStatus := fun status => status;
     ReadApi.firstRejection := 0%nat |}.

(** Read-API collaborators: every upstream request is served the same
    one-line body. *)
Definition servingEnv : ReadApi.Env unit :=
  {| ReadApi.fetch := fun _ => Ok (served (String "v" (String "1" (String "." (String "0"
                          (String "." (String "0" (String "010" EmptyString))))))));
     ReadApi.isValidVersionString := fun _ => true;
     ReadApi.createToothMetadataFromJsonString := fun _ => Ok tt;
     ReadApi.httpErrorStatus := fun status => status;
     ReadApi.firstRejection := 0%nat |}.

(** A timestamp order for the samples: ISO-8601 strings in one format
    compare as their characters do. *)
Definition laterThan (a b : string) : bool := String.ltb b a.

(** The body of a one-line goproxy version list. *)
Definition oneVersionList : string :=
  String "v" (String "1" (String "." (String "0" (String "." (String "0"
    (String "010" EmptyString)))))).

(** LeviLamina collaborators.  Discovery yields the platform repository,
    a repository without manifest (every request under its raw-content
    address is answered 404), a repository whose metadata request throws,
    and a repository that resolves. *)
Definition sampleTooth : LeviLaminaFetcher.Tooth :=
  {| LeviLaminaFetcher.info_name := "sample";
     LeviLaminaFetcher.info_description := "a sample tooth";
     LeviLaminaFetcher.info_tags := ["type:mod"];
     LeviLaminaFetcher.info_avatar_url := None;
     LeviLaminaFetcher.dependencies_LeviLamina := Some ">=0.13.0";
     LeviLaminaFetcher.prerequisites_LeviLamina := None |}.

Definition repoOf (owner repo : string) : GitHub.RepoId :=
  {| GitHub.owner := owner; GitHub.repo := repo |}.

Definition sampleRepository : GitHub.Repository :=
  {| GitHub.topics := None; GitHub.stargazers_count := 5%Z; GitHub.owner_login := "futrime" |}.

Definition leviLaminaEnv : LeviLaminaFetcher.Env :=
  {| LeviLaminaFetcher.searchForRepo := fun _ =>
       [repoOf "LiteLDev" "LeviLamina"; repoOf "futrime" "missing";
        repoOf "futrime" "broken"; repoOf "futrime" "sample"];
     LeviLaminaFetcher.getRepo := fun repo =>
       if String.eqb (GitHub.repo repo) "broken" then Throw thrown else Ok sampleRepository;
     LeviLaminaFetcher.listRepoContributors := fun _ => Ok [];
     LeviLaminaFetcher.fetch := fun url =>
       if String.prefix "https://raw.githubusercontent.com/futrime/missing/" url
       then Ok notFound else Ok (served oneVersionList);
     LeviLaminaFetcher.jsonTooth := fun _ => Ok sampleTooth;
     LeviLaminaFetcher.jsonGoProxyVersion := fun _ =>
       Ok {| LeviLaminaFetcher.Version_ := "v1.0.0";
             LeviLaminaFetcher.Time := "2023-01-01T00:00:00Z" |};
     LeviLaminaFetcher.toISOString := fun s => Ok s |}.

(** Endstone collaborators.  Discovery yields a repository without
    [pyproject.toml] (its request is answered 404 and the body does not
    parse) and a repository with one GitHub release tagged [v1.0.0] and
    no PyPI project. *)
Definition endstoneEnv : EndstonePythonFetcher.Env :=
  {| EndstonePythonFetcher.searchForRepositories := fun _ =>
       [repoOf "futrime" "noproject"; repoOf "futrime" "plugin"];
     EndstonePythonFetcher.fetchRepository := fun _ => Ok sampleRepository;
     EndstonePythonFetcher.fetchRepositoryContributors := fun _ => Ok [];
     EndstonePythonFetcher.fetchRepositoryVersions := fun _ =>
       Ok [{| GitHub.tag_name := "v1.0.0";
              GitHub.published_at := Some "2024-01-01T00:00:00.000Z";
              GitHub.created_at := "2023-12-31T00:00:00.000Z" |}];
     EndstonePythonFetcher.fetch := fun url =>
       if String.prefix "https://raw.githubusercontent.com/futrime/noproject/" url
          || String.prefix "https://pypi.org/" url
       then Ok notFound else Ok (served "[project]");
     EndstonePythonFetcher.tomlParse := fun data =>
       if String.eqb data "404: Not Found" then Throw thrown
       else Ok {| EndstonePythonFetcher.project_name := "plugin";
                  EndstonePythonFetcher.project_description := None;
                  EndstonePythonFetcher.project_keywords := None |};
     EndstonePythonFetcher.jsonPypi := fun _ =>
       Ok {| EndstonePythonFetcher.releases := [] |};
     EndstonePythonFetcher.toISOString := fun s => Ok s |}.

End Samples.

(* ===================================================================== *)
(** ** Notions used to state further properties                           *)
(* ===================================================================== *)

Module Derived.
Import RedisOm RedisClient.

(** Whether the query built from [q] selects the record [p]. *)
Definition selects (I : Index) (q : string) (p : Package) : bool :=
  match buildQuery q with
  | Ok query => satisfies I query p
  | Throw _ => false
  end.

(** The page and the page count that [search] returns. *)
Definition pageOf (I : Index) (q : string) (perPage page : Z)
    (sort : SortKey) (order : SortOrder) : list Package :=
  match search I q perPage page sort order with
  | Ok r => packages r
  | Throw _ => []
  end.

Definition pageCountOf (I : Index) (q : string) (perPage : Z)
    (sort : SortKey) (order : SortOrder) : Z :=
  match search I q perPage 1 sort order with
  | Ok r => pageCount r
  | Throw _ => 0
  end.

(** The matches of [q] in the order of the sort. *)
Definition sortedMatches (I : Index) (q : string) (sort : SortKey) (order : SortOrder)
  : list Package :=
  sortBy I (sortFieldMap sort) (sortOrderMap order) (filter (selects I q) (entities I)).

(** The index returns as many records as it is given to sort. *)
Definition SortKeepsLength (I : Index) : Prop :=
  forall f d l, List.length (sortBy I f d l) = List.length l.

(** A character that separates tokens in a query. *)
Definition isSeparator (c : ascii) : bool := Ascii.eqb c " " || Ascii.eqb c "*".

(** The number of occurrences of a character in a string. *)
Fixpoint countChar (c : ascii) (s : string) : nat :=
  match s with
  | EmptyString => 0
  | String a s' => (if Ascii.eqb a c then 1 else 0) + countChar c s'
  end.

(** The lines of a text, each followed by a line feed. *)
Fixpoint unlines (lines : list string) : string :=
  match lines with
  | [] => EmptyString
  | l :: lines' => l ++ String "010" (unlines lines')
  end.

(** The addresses that the read API requests besides the READMEs. *)
Definition toothJsonUrl (owner repo versionString : string) : string :=
  "https://raw.githubusercontent.com/" ++ owner ++ "/" ++ repo ++ "/v"
    ++ versionString ++ "/tooth.json".

Definition versionListUrl (owner repo : string) : string :=
  "https://goproxy.io/github.com/" ++ owner ++ "/" ++ repo ++ "/@v/list".

(** A string without line feed. *)
Definition isLine (s : string) : bool := JS.all (fun c => negb (Ascii.eqb c "010")) s.

(** Read-API collaborators: the version list is served, every other
    request is answered 404. *)
Definition noToothEnv : ReadApi.Env unit :=
  {| ReadApi.fetch := fun url =>
       if String.eqb url "https://goproxy.io/github.com/futrime/sample/@v/list"
       then Ok (Samples.served Samples.oneVersionList)
       else Ok Samples.notFound;
     ReadApi.isValidVersionString := fun _ => true;
     ReadApi.createToothMetadataFromJsonString := fun _ => Ok tt;
     ReadApi.httpErrorStatus := fun status => status;
     ReadApi.firstRejection := 0%nat |}.

(** Read-API collaborators: every request is served, except that the
    request of the default README is rejected (a network failure). *)
Definition brokenReadmeEnv : ReadApi.Env unit :=
  {| ReadApi.fetch := fun url =>
       if String.eqb url "https://raw.githubusercontent.com/futrime/sample/v1.0.0/README.md"
       then Throw ReadApi.OtherError
       else Ok (Samples.served Samples.oneVersionList);
     ReadApi.isValidVersionString := fun _ => true;
     ReadApi.createToothMetadataFromJsonString := fun _ => Ok tt;
     ReadApi.httpErrorStatus := fun status => status;
     ReadApi.firstRejection := 0%nat |}.

(** Read-API collaborators: every request is served a version list of
    two lines followed by an unterminated third one. *)
Definition unterminatedList : string :=
  unlines ["v1.0.0"; "v2.0.0+incompatible"] ++ "v3.0.0".

Definition unterminatedListEnv : ReadApi.Env unit :=
  {| ReadApi.fetch := fun _ => Ok (Samples.served unterminatedList);
     ReadApi.isValidVersionString := fun _ => true;
     ReadApi.createToothMetadataFromJsonString := fun _ => Ok tt;
     ReadApi.httpErrorStatus := fun status => status;
     ReadApi.firstRejection := 0%nat |}.

(** The avatar address that [LeviLaminaFetcher.fetchPackage] computes
    from the repository and the manifest: the manifest's address or the
    owner's avatar, made absolute when relative, and rewritten to the
    raw-content host when it is a [blob] address of GitHub. *)
Definition avatarUrlOf (repo : GitHub.RepoId) (tooth : LeviLaminaFetcher.Tooth) : string :=
  let avatarUrl :=
    match LeviLaminaFetcher.info_avatar_url tooth with
    | Some u => u
    | None => "https://avatars.githubusercontent.com/" ++ GitHub.owner repo
    end in
  let avatarUrl :=
    if negb (LeviLaminaFetcher.isAbsoluteUrl avatarUrl)
    then "https://raw.githubusercontent.com/" ++ GitHub.owner repo ++ "/"
           ++ GitHub.repo repo ++ "/HEAD/" ++ avatarUrl
    else avatarUrl in
  match LeviLaminaFetcher.githubUrlRegex_exec avatarUrl with
  | Some (g1, g2, g3) =>
      "https://raw.githubusercontent.com/" ++ g1 ++ "/" ++ g2 ++ "/" ++ g3
  | None => avatarUrl
  end.

(** The trimmed, non-empty lines of a goproxy version list. *)
Definition goproxyLines (body : string) : list string :=
  filter (fun line => 0 <? JS.length line)%Z (map JS.trim (JS.split "010" body)).

(** The address of the goproxy version list of a repository. *)
Definition goproxyListUrl (repo : GitHub.RepoId) : string :=
  "https://goproxy.io/github.com/" ++ LeviLaminaFetcher.escapeForGoProxy (GitHub.owner repo)
    ++ "/" ++ LeviLaminaFetcher.escapeForGoProxy (GitHub.repo repo) ++ "/@v/list".

(** The timestamp that the Endstone fetcher converts for a release. *)
Definition releaseTime (release : GitHub.Release) : string :=
  match GitHub.published_at release with
  | Some t => t
  | None => GitHub.created_at release
  end.



(** Endstone collaborators: as [Samples.endstoneEnv], but no release time
    converts. *)
Definition badTimeEnv : EndstonePythonFetcher.Env :=
  {| EndstonePythonFetcher.searchForRepositories :=
       EndstonePythonFetcher.searchForRepositories Samples.endstoneEnv;
     EndstonePythonFetcher.fetchRepository :=
       EndstonePythonFetcher.fetchRepository Samples.endstoneEnv;
     EndstonePythonFetcher.fetchRepositoryContributors :=
       EndstonePythonFetcher.fetchRepositoryContributors Samples.endstoneEnv;
     EndstonePythonFetcher.fetchRepositoryVersions :=
       EndstonePythonFetcher.fetchRepositoryVersions Samples.endstoneEnv;
     EndstonePythonFetcher.fetch := EndstonePythonFetcher.fetch Samples.endstoneEnv;
     EndstonePythonFetcher.tomlParse := EndstonePythonFetcher.tomlParse Samples.endstoneEnv;
     EndstonePythonFetcher.jsonPypi := EndstonePythonFetcher.jsonPypi Samples.endstoneEnv;
     EndstonePythonFetcher.toISOString := fun _ => Throw thrown |}.

(** The release of [Samples.endstoneEnv]. *)
Definition sampleRelease : GitHub.Release :=
  {| GitHub.tag_name := "v1.0.0";
     GitHub.published_at := Some "2024-01-01T00:00:00.000Z";
     GitHub.created_at := "2023-12-31T00:00:00.000Z" |}.

End Derived.

(* ===================================================================== *)
(** ** Readings of the inputs, stated without the functions of the code   *)
(* ===================================================================== *)

Module Readings.

(** The tokens of a query string: its maximal runs of characters other
    than the space and the asterisk, from left to right.  [current] is
    the run read so far. *)
Definition flush (current : string) : list string :=
  match current with
  | EmptyString => []
  | String _ _ => [current]
  end.

Fixpoint tokensFrom (current : string) (q : string) : list string :=
  match q with
  | EmptyString => flush current
  | String c q' =>
      if Derived.isSeparator c
      then (flush current ++ tokensFrom EmptyString q')%list
      else tokensFrom (current ++ String c EmptyString) q'
  end.

Definition tokens (q : string) : list string := tokensFrom EmptyString q.

(** A token written with a leading plus sign, without the sign. *)
Definition plusToken (token : string) : option string :=
  match token with
  | String c rest => if Ascii.eqb c "+" then Some rest else None
  | EmptyString => None
  end.

(** The required tokens: the tokens written with a leading plus sign,
    without it.  The optional tokens: all the others. *)
Definition requiredTokens (q : string) : list string :=
  flat_map (fun token => match plusToken token with
                         | Some rest => [rest]
                         | None => []
                         end) (tokens q).

Definition optionalTokens (q : string) : list string :=
  flat_map (fun token => match plusToken token with
                         | Some _ => []
                         | None => [token]
                         end) (tokens q).

(** The predicate read off one token: the tags contain the token when it
    is tag-qualified, the free-text predicate of the token otherwise. *)
Definition TermReading (token : string) (w : RedisOm.Where) : Prop :=
  (Notions.TagQualified token /\ w = Notions.tagWhere token) \/
  (~ Notions.TagQualified token /\ w = Notions.freeTextWhere token).

(** A record satisfies every required predicate and, when there are
    optional predicates, one of them. *)
Definition allAndAny (I : RedisClient.Index) (required optional : list RedisOm.Where)
    (p : Package) : bool :=
  forallb (fun w => RedisClient.holds I w p) required
  && match optional with
     | [] => true
     | _ :: _ => existsb (fun w => RedisClient.holds I w p) optional
     end.

(** The pieces of a split with [current] put before the first piece. *)
Definition prepend (current : string) (pieces : list string) : list string :=
  match pieces with
  | w :: ws => (current ++ w) :: ws
  | [] => [current]
  end.

(** What the request of the README of a language ([None]: the default
    README) gives: the body of a response with a success status, nothing
    for a response with a failure status (a missing README). *)
Definition readmeOf (ToothMetadata : Type) (E : ReadApi.Env ToothMetadata)
    (owner repo versionString : string) (lang : option string) : option string :=
  match ReadApi.fetch ToothMetadata E
          (Notions.readmeUrl owner repo versionString lang) with
  | Ok response => if Http.ok response then Some (Http.text response) else None
  | Throw _ => None
  end.

(** Read-API collaborators: the tooth metadata, the version list and the
    English README are served, every other README is missing. *)
Definition englishReadmeEnv : ReadApi.Env unit :=
  {| ReadApi.fetch := fun url =>
       if String.eqb url "https://raw.githubusercontent.com/futrime/sample/v1.0.0/README.en.md"
       then Ok (Samples.served "# Sample")
       else if String.eqb url "https://raw.githubusercontent.com/futrime/sample/v1.0.0/tooth.json"
       then Ok (Samples.served "{}")
       else if String.eqb url "https://goproxy.io/github.com/futrime/sample/@v/list"
       then Ok (Samples.served Samples.oneVersionList)
       else Ok Samples.notFound;
     ReadApi.isValidVersionString := fun _ => true;
     ReadApi.createToothMetadataFromJsonString := fun _ => Ok tt;
     ReadApi.httpErrorStatus := fun status => status;
     ReadApi.firstRejection := 0%nat |}.







(** The address of the PyPI metadata of a project. *)
Definition pypiUrl (name : string) : string := "https://pypi.org/pypi/" ++ name ++ "/json".

(** Endstone collaborators: one GitHub release tagged [v1.0.0] and a PyPI
    project with the release [1.0.0], which has a file, and the release
    [0.9.0], which has none. *)
Definition pypiEnv : EndstonePythonFetcher.Env :=
  {| EndstonePythonFetcher.searchForRepositories := fun _ =>
       [Samples.repoOf "futrime" "plugin"];
     EndstonePythonFetcher.fetchRepository := fun _ => Ok Samples.sampleRepository;
     EndstonePythonFetcher.fetchRepositoryContributors := fun _ => Ok [];
     EndstonePythonFetcher.fetchRepositoryVersions := fun _ => Ok [Derived.sampleRelease];
     EndstonePythonFetcher.fetch := fun _ => Ok (Samples.served "[project]");
     EndstonePythonFetcher.tomlParse := fun _ =>
       Ok {| EndstonePythonFetcher.project_name := "plugin";
             EndstonePythonFetcher.project_description := None;
             EndstonePythonFetcher.project_keywords := None |};
     EndstonePythonFetcher.jsonPypi := fun _ =>
       Ok {| EndstonePythonFetcher.releases :=
               [("1.0.0", ["2024-02-01T00:00:00.000000Z"]); ("0.9.0", [])] |};
     EndstonePythonFetcher.toISOString := fun s => Ok s |}.

(** The characters of a URL scheme as the LeviLamina fetcher reads it:
    letters and the plus sign. *)
Definition schemeAlphabet : string :=
  "abcdefghijklmnopqrstuvwxyzABCDEFGHIJKLMNOPQRSTUVWXYZ+".

(** An address that starts with a slash, or with a non-empty scheme, a
    colon and a slash.  The LeviLamina fetcher leaves such an address as
    it is and resolves every other one against the repository. *)
Definition StartsWithSlashOrScheme (u : string) : Prop :=
  (exists rest, u = String "/" rest) \/
  (exists scheme rest,
      scheme <> EmptyString /\ Notions.Over schemeAlphabet scheme /\
      u = scheme ++ String ":" (String "/" rest)).

(** LeviLamina collaborators: as [Samples.leviLaminaEnv], with a manifest
    whose avatar address starts with a slash. *)
Definition slashAvatarTooth : LeviLaminaFetcher.Tooth :=
  {| LeviLaminaFetcher.info_name := "sample";
     LeviLaminaFetcher.info_description := "a sample tooth";
     LeviLaminaFetcher.info_tags := ["type:mod"];
     LeviLaminaFetcher.info_avatar_url := Some "/logo.png";
     LeviLaminaFetcher.dependencies_LeviLamina := None;
     LeviLaminaFetcher.prerequisites_LeviLamina := None |}.

Definition slashAvatarEnv : LeviLaminaFetcher.Env :=
  {| LeviLaminaFetcher.searchForRepo := fun _ => [Samples.repoOf "futrime" "sample"];
     LeviLaminaFetcher.getRepo := fun _ => Ok Samples.sampleRepository;
     LeviLaminaFetcher.listRepoContributors := fun _ => Ok [];
     LeviLaminaFetcher.fetch := fun _ => Ok (Samples.served Samples.oneVersionList);
     LeviLaminaFetcher.jsonTooth := fun _ => Ok slashAvatarTooth;
     LeviLaminaFetcher.jsonGoProxyVersion := fun _ =>
       Ok {| LeviLaminaFetcher.Version_ := "v1.0.0";
             LeviLaminaFetcher.Time := "2023-01-01T00:00:00Z" |};
     LeviLaminaFetcher.toISOString := fun s => Ok s |}.

End Readings.

(* ===================================================================== *)
(** * Properties                                                          *)
(* ===================================================================== *)

(** ** Strings and character classes *)

Section StringFacts.

Lemma split_not_nil (sep : ascii) (s : string) : JS.split sep s <> [].
Proof.
  induction s as [|a s IH]; simpl; [discriminate|].
  destruct (Ascii.eqb a sep); [discriminate|].
  destruct (JS.split sep s); [contradiction|discriminate].
Qed.

Lemma span_all (p : ascii -> bool) (s : string) :
  JS.all p (fst (JS.span p s)) = true.
Proof.
  induction s as [|a s IH]; simpl; auto.
  destruct (p a) eqn:Hp; simpl; auto.
  destruct (JS.span p s); simpl in *. now rewrite Hp.
Qed.

Lemma span_append (p : ascii -> bool) (s : string) :
  s = fst (JS.span p s) ++ snd (JS.span p s).
Proof.
  induction s as [|a s IH]; simpl; auto.
  destruct (p a); simpl; auto.
  destruct (JS.span p s); simpl in *. now f_equal.
Qed.

Lemma span_stop (p : ascii -> bool) (s : string) (a : ascii) (r : string) :
  snd (JS.span p s) = String a r -> p a = false.
Proof.
  induction s as [|b s IH]; simpl; [discriminate|].
  destruct (p b) eqn:Hp.
  - destruct (JS.span p s); simpl in *. exact IH.
  - simpl. intros H. now inversion H; subst.
Qed.

(** The span of [k ++ String c r] when [k] lies in the class and [c] does
    not. *)
Lemma span_exact (p : ascii -> bool) (k r : string) (c : ascii) :
  JS.all p k = true -> p c = false ->
  JS.span p (k ++ String c r) = (k, String c r).
Proof.
  intros Hk Hc. induction k as [|a k IH]; simpl in *.
  - now rewrite Hc.
  - apply andb_true_iff in Hk as [Ha Hk]. rewrite Ha, (IH Hk). reflexivity.
Qed.

Lemma all_Over_gen (p : ascii -> bool) (alphabet : string) :
  (forall c, p c = Notions.occurs c alphabet) ->
  forall s, JS.all p s = true <-> Notions.Over alphabet s.
Proof.
  intros Hp s. induction s as [|a s IH]; simpl; [tauto|].
  rewrite andb_true_iff, IH, Hp. tauto.
Qed.

Lemma forallb_over_map {A B : Type} (f : A -> B) (p : B -> bool) (l : list A) :
  forallb p (map f l) = forallb (fun a => p (f a)) l.
Proof. induction l as [|a l IH]; simpl; [reflexivity|]. now rewrite IH. Qed.

Lemma existsb_over_map {A B : Type} (f : A -> B) (p : B -> bool) (l : list A) :
  existsb p (map f l) = existsb (fun a => p (f a)) l.
Proof. induction l as [|a l IH]; simpl; [reflexivity|]. now rewrite IH. Qed.

End StringFacts.

(** ** The query parser *)

Module SearchFacts.
Import RedisOm RedisClient Notions.

Lemma isTagChar_alphabet (c : ascii) : isTagChar c = occurs c tagAlphabet.
Proof. destruct c as [[] [] [] [] [] [] [] []]; vm_compute; reflexivity. Qed.

Lemma Over_append (alphabet k v : string) :
  Over alphabet (k ++ v) <-> Over alphabet k /\ Over alphabet v.
Proof. induction k as [|a k IH]; simpl; [tauto|]. rewrite IH. tauto. Qed.

(** The regular expression test of the source decides [TagQualified]. *)
Lemma isTagTerm_spec (token : string) : isTagTerm token = true <-> TagQualified token.
Proof.
  unfold isTagTerm, TagQualified. split.
  - intros H.
    pose proof (span_append isTagChar token) as Happ.
    pose proof (span_all isTagChar token) as Hall.
    destruct (JS.span isTagChar token) as [k r]; simpl in *.
    destruct k as [|a k]; [discriminate|].
    destruct r as [|c r]; [discriminate|].
    destruct (Ascii.eqb_spec c ":") as [->|Hc].
    2:{ destruct c as [[] [] [] [] [] [] [] []]; try discriminate; now elim Hc. }
    destruct r as [|b v]; [discriminate|].
    exists (String a k), (String b v).
    split; [exact Happ|]. split; [discriminate|]. split; [discriminate|].
    split; now apply (all_Over_gen isTagChar tagAlphabet isTagChar_alphabet).
  - intros (k & v & -> & Hk & Hv & Ok & Ov).
    apply (all_Over_gen isTagChar tagAlphabet isTagChar_alphabet) in Ok, Ov.
    change (k ++ ":" ++ v) with (k ++ String ":" v).
    rewrite span_exact by (auto; reflexivity).
    destruct k as [|a k]; [now elim Hk|].
    destruct v as [|b v]; [now elim Hv|]. exact Ov.
Qed.

Lemma termQuery_fresh (token : string) :
  termQuery token emptySearch = Ok (Some (termWhere token)).
Proof. unfold termQuery, termWhere. destruct (isTagTerm token); reflexivity. Qed.

Lemma joinFn_term (ctor : Where -> Where -> Where) (token : string) (s : Search) :
  joinFn ctor (termQuery token) s =
  Ok (Some match s with None => termWhere token | Some r => ctor r (termWhere token) end).
Proof. unfold joinFn. rewrite termQuery_fresh. simpl. destruct s; reflexivity. Qed.

Lemma joinFn_callback (ctor : Where -> Where -> Where)
    (fn : Search -> result BuilderError Search) (s : Search) (sub : Where) :
  fn emptySearch = Ok (Some sub) ->
  joinFn ctor fn s = Ok (Some match s with None => sub | Some r => ctor r sub end).
Proof. intros H. unfold joinFn. rewrite H. simpl. destruct s; reflexivity. Qed.

Lemma forOf_joinFn (ctor : Where -> Where -> Where) (l : list string) (s : Search) :
  forOf (fun query qItem => joinFn ctor (termQuery qItem) query) l s =
  Ok (joinAll ctor s (map termWhere l)).
Proof.
  revert s. induction l as [|t l IH]; intros s; simpl; [reflexivity|].
  rewrite joinFn_term. simpl. rewrite IH. reflexivity.
Qed.

Lemma joinAll_app ctor s ws1 ws2 :
  joinAll ctor s (ws1 ++ ws2)%list = joinAll ctor (joinAll ctor s ws1) ws2.
Proof. unfold joinAll. apply fold_left_app. Qed.

Lemma joinAll_cons_some ctor s w ws : joinAll ctor s (w :: ws) <> None.
Proof.
  unfold joinAll. simpl.
  generalize (match s with None => w | Some r => ctor r w end).
  induction ws as [|w' ws IH]; intros r; simpl; [discriminate|]. apply IH.
Qed.

(** The query built for a string longer than one character. *)
Lemma buildQuery_long (q : string) :
  (1 < JS.length q)%Z ->
  buildQuery q =
  Ok (conjunction (map termWhere (exactQList q)
                     ++ orGroup (map termWhere (optionalQList q)))%list).
Proof.
  intros Hq. unfold buildQuery.
  destruct (Z.ltb_spec 1 (JS.length q)) as [_|]; [|lia].
  unfold andFn, orFn. rewrite (forOf_joinFn WhereAnd (exactQList q) emptySearch). simpl.
  unfold conjunction, orGroup. rewrite joinAll_app.
  destruct (optionalQList q) as [|o os] eqn:Hopt.
  - reflexivity.
  - replace (0 <? Z.of_nat (List.length (o :: os)))%Z with true by reflexivity.
    pose proof (joinAll_cons_some WhereOr emptySearch (termWhere o) (map termWhere os)) as Hne.
    change (termWhere o :: map termWhere os) with (map termWhere (o :: os)) in Hne.
    destruct (joinAll WhereOr emptySearch (map termWhere (o :: os))) as [w|] eqn:Hw;
      [|now elim Hne].
    rewrite (joinFn_callback WhereAnd _ _ w).
    + change emptySearch with (@None Where) in *. rewrite Hw.
      destruct (joinAll WhereAnd None (map termWhere (exactQList q))); reflexivity.
    + rewrite (forOf_joinFn WhereOr (o :: os) emptySearch). now rewrite Hw.
Qed.

(** The query built for a string of at most one character. *)
Lemma buildQuery_short (q : string) :
  (JS.length q <= 1)%Z -> buildQuery q = Ok emptySearch.
Proof.
  intros Hq. unfold buildQuery.
  destruct (Z.ltb_spec 1 (JS.length q)); [lia|reflexivity].
Qed.

(** The builder never fails on the queries that [search] builds. *)
Lemma buildQuery_total (q : string) : exists query, buildQuery q = Ok query.
Proof.
  destruct (Z.lt_ge_cases 1 (JS.length q)) as [H|H].
  - eexists. now apply buildQuery_long.
  - eexists. apply buildQuery_short. lia.
Qed.

Lemma satisfies_joinAll_and (I : Index) (p : Package) (ws : list Where) (s : Search) :
  satisfies I (joinAll WhereAnd s ws) p
  = satisfies I s p && forallb (fun w => holds I w p) ws.
Proof.
  revert s. induction ws as [|w ws IH]; intros s.
  - simpl. now rewrite andb_true_r.
  - change (joinAll WhereAnd s (w :: ws))
      with (joinAll WhereAnd (Some match s with None => w | Some r => WhereAnd r w end) ws).
    rewrite IH. destruct s; simpl; [now rewrite andb_assoc | reflexivity].
Qed.

Lemma satisfies_joinAll_or (I : Index) (p : Package) (ws : list Where) (r : Where) :
  satisfies I (joinAll WhereOr (Some r) ws) p
  = holds I r p || existsb (fun w => holds I w p) ws.
Proof.
  revert r. induction ws as [|w ws IH]; intros r.
  - simpl. now rewrite orb_false_r.
  - change (joinAll WhereOr (Some r) (w :: ws))
      with (joinAll WhereOr (Some (WhereOr r w)) ws).
    rewrite IH. simpl. now rewrite orb_assoc.
Qed.

Lemma forallb_orGroup (I : Index) (p : Package) (ws : list Where) :
  forallb (fun w => holds I w p) (orGroup ws)
  = match ws with [] => true | _ :: _ => existsb (fun w => holds I w p) ws end.
Proof.
  unfold orGroup. destruct ws as [|w ws]; [reflexivity|].
  change (joinAll WhereOr None (w :: ws)) with (joinAll WhereOr (Some w) ws).
  pose proof (satisfies_joinAll_or I p ws w) as H.
  destruct (joinAll WhereOr (Some w) ws) as [g|] eqn:Hg.
  - simpl in *. now rewrite andb_true_r.
  - exfalso. revert Hg. clear. revert w.
    induction ws as [|w' ws IH]; intros w; [discriminate|]. apply IH.
Qed.

(** The meaning of the built query on a record. *)
Lemma satisfies_built (I : Index) (p : Package) (required optional : list string) :
  satisfies I (conjunction (map termWhere required ++ orGroup (map termWhere optional))%list) p
  = requiredAndAnyOptional I required optional p.
Proof.
  unfold conjunction, requiredAndAnyOptional.
  rewrite satisfies_joinAll_and. simpl.
  rewrite forallb_app, forallb_orGroup, forallb_over_map.
  f_equal. destruct optional as [|o os]; [reflexivity|].
  simpl. f_equal. now rewrite existsb_over_map.
Qed.

(** More than one token needs more than one character. *)
Lemma qList_short (q : string) : (JS.length q <= 1)%Z -> (List.length (qList q) <= 1)%nat.
Proof.
  unfold JS.length, qList. destruct q as [|a [|b q]]; simpl; intros H.
  - lia.
  - destruct (Ascii.eqb a "*"); simpl.
    + lia.
    + destruct (Ascii.eqb a " "); simpl; lia.
  - lia.
Qed.

End SearchFacts.

(** ** The search executor *)

Module SearchClaims.
Import RedisOm RedisClient Notions Samples SearchFacts.

Lemma ceilDiv_pos (a : Z) (p : positive) :
  ceilDiv a (Zpos p) = (- ((- a) / Zpos p))%Z.
Proof.
  unfold ceilDiv, Qceiling, Qfloor, Qdiv, Qinv, Qmult, Qopp, inject_Z. simpl.
  rewrite Z.mul_1_r. reflexivity.
Qed.

(** [Math.ceil(a / b)] is the least [k] with [a <= k * b]. *)
Lemma ceilDiv_IsCeiling (a b : Z) : (0 < b)%Z -> IsCeiling a b (ceilDiv a b).
Proof.
  intros Hb. destruct b as [|p|p]; try lia. rewrite ceilDiv_pos.
  pose proof (Z.div_mod (- a) (Zpos p) ltac:(lia)) as Hdm.
  pose proof (Z.mod_pos_bound (- a) (Zpos p) ltac:(lia)) as Hm.
  split.
  - nia.
  - intros k Hk. nia.
Qed.

(** A blank query has no token. *)
Lemma qList_blank (q : string) : isBlank q = true -> qList q = [].
Proof.
  unfold qList, isBlank. induction q as [|a q IH]; simpl; intros H; [reflexivity|].
  apply andb_true_iff in H as [Ha Hq].
  assert (Hsp : Ascii.eqb (if Ascii.eqb a "*" then " "%char else a) " " = true).
  { destruct (Ascii.eqb a "*"); [reflexivity|]. now rewrite orb_false_r in Ha. }
  rewrite Hsp. simpl. auto.
Qed.

Lemma buildQuery_blank (q : string) : isBlank q = true -> buildQuery q = Ok emptySearch.
Proof.
  intros Hb. destruct (Z.lt_ge_cases 1 (JS.length q)) as [H|H].
  - rewrite buildQuery_long by exact H.
    unfold optionalQList, exactQList. rewrite (qList_blank q Hb). reflexivity.
  - apply buildQuery_short. lia.
Qed.

(** The non-empty pieces of the split query are its tokens. *)
Lemma qList_tokensFrom (q current : string) :
  filter (fun item => 0 <? JS.length item)%Z
         (Readings.prepend current (JS.split " " (JS.replaceAll "*" " " q)))
  = Readings.tokensFrom current q.
Proof.
  assert (Hflush : forall w, filter (fun item => 0 <? JS.length item)%Z [w] = Readings.flush w).
  { intros [|a w]; reflexivity. }
  assert (Hcons : forall w l,
             filter (fun item => 0 <? JS.length item)%Z (w :: l)
             = (Readings.flush w ++ filter (fun item => 0 <? JS.length item)%Z l)%list).
  { intros [|a w] l; reflexivity. }
  assert (Hnil : forall w, (w ++ EmptyString)%string = w).
  { induction w as [|a w IHw]; simpl; [reflexivity | now rewrite IHw]. }
  assert (Hsnoc : forall (w : string) a v,
             (w ++ String a v)%string = ((w ++ String a EmptyString) ++ v)%string).
  { induction w as [|b w IHw]; intros a v; simpl; [reflexivity | now rewrite <- IHw]. }
  revert current. induction q as [|c q IH]; intros current.
  - simpl. rewrite Hnil. apply Hflush.
  - cbn [JS.replaceAll JS.split Readings.tokensFrom].
    assert (Hsep : Ascii.eqb (if Ascii.eqb c "*" then " "%char else c) " "
                   = Derived.isSeparator c).
    { unfold Derived.isSeparator. destruct (Ascii.eqb c "*") eqn:Hstar.
      - now rewrite orb_true_r.
      - now rewrite orb_false_r. }
    rewrite Hsep. pose proof (IH EmptyString) as IHe. pose proof (IH (current ++ String c EmptyString)%string) as IHc.
    destruct (Derived.isSeparator c) eqn:Hc.
    + cbn [Readings.prepend]. rewrite Hnil.
      rewrite Hcons. f_equal. rewrite <- IHe.
      destruct (JS.split " " (JS.replaceAll "*" " " q)); reflexivity.
    + assert (Hch : (if Ascii.eqb c "*" then " "%char else c) = c).
      { unfold Derived.isSeparator in Hc. apply orb_false_iff in Hc as [_ Hc].
        now rewrite Hc. }
      rewrite Hch, <- IHc.
      destruct (JS.split " " (JS.replaceAll "*" " " q)) as [|w ws].
      * cbn [Readings.prepend]. reflexivity.
      * cbn [Readings.prepend]. now rewrite Hsnoc.
Qed.

Lemma qList_tokens (q : string) : qList q = Readings.tokens q.
Proof.
  unfold qList, Readings.tokens. rewrite <- qList_tokensFrom.
  destruct (JS.split " " (JS.replaceAll "*" " " q)); reflexivity.
Qed.

(** The required terms of the source are the tokens written with a plus
    sign, without it; its optional terms are the other tokens. *)
Lemma exactQList_requiredTokens (q : string) : exactQList q = Readings.requiredTokens q.
Proof.
  unfold exactQList, Readings.requiredTokens. rewrite qList_tokens.
  induction (Readings.tokens q) as [|t ts IH]; [reflexivity|].
  cbn [filter flat_map]. rewrite <- IH.
  destruct t as [|c t]; [reflexivity|].
  unfold JS.startsWith, Readings.plusToken. destruct (Ascii.eqb c "+"); reflexivity.
Qed.

Lemma optionalQList_optionalTokens (q : string) :
  optionalQList q = Readings.optionalTokens q.
Proof.
  unfold optionalQList, Readings.optionalTokens. rewrite qList_tokens.
  induction (Readings.tokens q) as [|t ts IH]; [reflexivity|].
  cbn [filter flat_map]. rewrite <- IH.
  destruct t as [|c t]; [reflexivity|].
  unfold JS.startsWith, Readings.plusToken. destruct (Ascii.eqb c "+"); reflexivity.
Qed.

(** The predicate of the source for one term is the one read off the
    token. *)
Lemma termWhere_reading (token : string) : Readings.TermReading token (termWhere token).
Proof.
  unfold Readings.TermReading, termWhere.
  destruct (isTagTerm token) eqn:H.
  - left. split; [now apply isTagTerm_spec | reflexivity].
  - right. split; [|reflexivity]. intros Hq. apply isTagTerm_spec in Hq. congruence.
Qed.

Lemma termWhere_readings (l : list string) :
  Forall2 Readings.TermReading l (map termWhere l).
Proof.
  induction l as [|t l IH]; constructor; [apply termWhere_reading | exact IH].
Qed.

Lemma satisfies_allAndAny (I : Index) (p : Package) (required optional : list Where) :
  satisfies I (conjunction (required ++ orGroup optional)%list) p
  = Readings.allAndAny I required optional p.
Proof.
  unfold conjunction, Readings.allAndAny.
  rewrite satisfies_joinAll_and. simpl.
  now rewrite forallb_app, forallb_orGroup.
Qed.

(** C1. The tokens of a query string are its maximal runs of characters
    other than the space and the asterisk; the required tokens are those
    written with a leading [+], taken without it, the optional tokens all
    the others.  For every query string with more than one token, the
    predicate that [search] builds is the AND of the predicates read off
    the required tokens, in their order, and of one OR group over the
    predicates read off the optional tokens; a record satisfies it
    exactly when it satisfies every required predicate and, if there are
    optional tokens, one of the optional predicates.  When there is no
    optional token, no OR group is part of the predicate, and the query
    selects by its required tokens alone. *)
Theorem C1_required_and_any_optional (I : Index) (q : string) :
  (1 < List.length (Readings.tokens q))%nat ->
  exists (query : Search) (required optional : list Where),
    buildQuery q = Ok query /\
    Forall2 Readings.TermReading (Readings.requiredTokens q) required /\
    Forall2 Readings.TermReading (Readings.optionalTokens q) optional /\
    query = conjunction (required ++ orGroup optional)%list /\
    (forall p, satisfies I query p = Readings.allAndAny I required optional p) /\
    (Readings.optionalTokens q = [] ->
       optional = [] /\
       query = conjunction required /\
       forall p, satisfies I query p = forallb (fun w => holds I w p) required).
Proof.
  intros Htokens. rewrite <- qList_tokens in Htokens.
  assert (Hlong : (1 < JS.length q)%Z).
  { destruct (Z.lt_ge_cases 1 (JS.length q)) as [H|H]; [exact H|].
    pose proof (qList_short q ltac:(lia)). lia. }
  exists (conjunction (map termWhere (exactQList q)
                         ++ orGroup (map termWhere (optionalQList q)))%list),
         (map termWhere (exactQList q)), (map termWhere (optionalQList q)).
  split; [now apply buildQuery_long|].
  split; [rewrite <- exactQList_requiredTokens; apply termWhere_readings|].
  split; [rewrite <- optionalQList_optionalTokens; apply termWhere_readings|].
  split; [reflexivity|].
  split.
  - intros p. apply satisfies_allAndAny.
  - intros Hnone. rewrite <- optionalQList_optionalTokens in Hnone. rewrite Hnone.
    simpl. rewrite app_nil_r. split; [reflexivity|]. split; [reflexivity|].
    intros p. unfold conjunction. rewrite satisfies_joinAll_and. reflexivity.
Qed.

Lemma C1_required_and_any_optional_witness :
  (1 < List.length (Readings.tokens "+type:mod stone*craft +a:b"))%nat /\
  buildQuery "+type:mod stone*craft +a:b"
  = Ok (Some (WhereAnd
               (WhereAnd (WhereContains f_tags "type:mod") (WhereContains f_tags "a:b"))
               (WhereOr (freeTextWhere "stone") (freeTextWhere "craft")))).
Proof.
  split; [vm_compute; lia|].
  destruct (C1_required_and_any_optional silentIndex "+type:mod stone*craft +a:b")
    as (query & required & optional & Hbuild & Hreq & Hopt & Hshape & _);
    [vm_compute; lia|].
  rewrite Hbuild, Hshape. clear Hbuild Hshape.
  assert (Htag : forall k v, TagQualified (k ++ ":" ++ v) ->
                 forall w, Readings.TermReading (k ++ ":" ++ v) w ->
                 w = WhereContains f_tags (k ++ ":" ++ v)).
  { intros k v Hq w [[_ Hw]|[Hn _]]; [exact Hw | now elim Hn]. }
  assert (Hfree : forall t, isTagTerm t = false ->
                  forall w, Readings.TermReading t w -> w = freeTextWhere t).
  { intros t Ht w [[Hq _]|[_ Hw]]; [|exact Hw].
    apply isTagTerm_spec in Hq. congruence. }
  change (Readings.requiredTokens "+type:mod stone*craft +a:b")
    with ["type:mod"; "a:b"] in Hreq.
  change (Readings.optionalTokens "+type:mod stone*craft +a:b")
    with ["stone"; "craft"] in Hopt.
  inversion Hreq as [|t1 w1 l1 r1 H1 Hreq1]; subst.
  inversion Hreq1 as [|t2 w2 l2 r2 H2 Hreq2]; subst.
  inversion Hreq2; subst.
  inversion Hopt as [|t3 w3 l3 r3 H3 Hopt1]; subst.
  inversion Hopt1 as [|t4 w4 l4 r4 H4 Hopt2]; subst.
  inversion Hopt2; subst.
  rewrite (Htag "type" "mod" ltac:(apply isTagTerm_spec; reflexivity) _ H1).
  rewrite (Htag "a" "b" ltac:(apply isTagTerm_spec; reflexivity) _ H2).
  rewrite (Hfree "stone" eq_refl _ H3), (Hfree "craft" eq_refl _ H4).
  reflexivity.
Defined.

(** C2, as stated, fails: the query [" a"] has a trimmed form of length
    one, yet [search] builds the free-text predicate of [a] for it, which
    a record may fail. *)
Lemma C2_trimmed_short_query_counterexample :
  (JS.length (JS.trim " a") <= 1)%Z /\
  buildQuery " a" = Ok (Some (freeTextWhere "a")) /\
  In samplePackage (entities silentIndex) /\
  satisfies silentIndex (Some (freeTextWhere "a")) samplePackage = false.
Proof.
  split; [vm_compute; discriminate|].
  split; [reflexivity|]. split; [now left | reflexivity].
Qed.

(** C2, amended. For every query string of length at most one (as
    given, not trimmed), and for every query string made of spaces and
    asterisks only, [search] builds the match-all predicate: no filter is
    applied and every indexed record satisfies it. *)
Theorem C2_short_or_blank_query_matches_all (I : Index) (q : string) :
  (JS.length q <= 1)%Z \/ isBlank q = true ->
  buildQuery q = Ok emptySearch /\
  (forall p, satisfies I emptySearch p = true) /\
  filter (satisfies I emptySearch) (entities I) = entities I.
Proof.
  intros Hq. split.
  - destruct Hq as [Hshort|Hblank];
      [now apply buildQuery_short | now apply buildQuery_blank].
  - split; [reflexivity|].
    induction (entities I) as [|p l IH]; simpl; [reflexivity|]. now rewrite IH.
Qed.

Lemma C2_short_or_blank_query_matches_all_witness :
  ((JS.length "a" <= 1)%Z \/ isBlank "a" = true) /\
  buildQuery "a" = Ok emptySearch /\
  (forall p, satisfies silentIndex emptySearch p = true) /\
  filter (satisfies silentIndex emptySearch) (entities silentIndex) = entities silentIndex.
Proof.
  split; [left; vm_compute; discriminate|].
  apply (C2_short_or_blank_query_matches_all silentIndex "a").
  left. vm_compute. discriminate.
Defined.

(** C3. A token, required or optional, is compiled by the callback
    [termQuery] on a fresh sub-query.  The result is the predicate "the
    tags contain the token itself" if and only if the token has the form
    key:value with a non-empty key and value of lowercase letters, digits
    and hyphens; every other token compiles to the OR of: the pattern
    [*token*] matches the name, matches the description, matches the
    author, is contained in the tags. *)
Theorem C3_term_classification (I : Index) (token : string) :
  (TagQualified token <-> termQuery token emptySearch = Ok (Some (tagWhere token))) /\
  (~ TagQualified token -> termQuery token emptySearch = Ok (Some (freeTextWhere token))) /\
  (forall p, holds I (tagWhere token) p = contains I f_tags token p) /\
  (forall p, holds I (freeTextWhere token) p
             = (matches I f_name ("*" ++ token ++ "*") p
                || matches I f_description ("*" ++ token ++ "*") p
                || matches I f_author ("*" ++ token ++ "*") p
                || contains I f_tags ("*" ++ token ++ "*") p)).
Proof.
  rewrite <- isTagTerm_spec, termQuery_fresh. unfold termWhere.
  split; [|split; [|split; reflexivity]].
  - destruct (isTagTerm token); split; try reflexivity; try discriminate.
  - destruct (isTagTerm token); [intros H; now elim H | reflexivity].
Qed.

(** C4. For [perPage >= 1] and [page >= 1], the page that [search]
    returns is the [perPage] records that follow the first
    [(page - 1) * perPage] records of the sorted matches, and the page
    count it returns is the ceiling of [n / perPage], where [n] is the
    number of all records satisfying the predicate; the page count is the
    same whatever page is requested. *)
Theorem C4_offset_and_page_count (I : Index) (q : string) (perPage page : Z)
    (sort : SortKey) (order : SortOrder) :
  (1 <= perPage)%Z -> (1 <= page)%Z ->
  exists (query : Search) (r : SearchResult),
    buildQuery q = Ok query /\
    search I q perPage page sort order = Ok r /\
    packages r
    = firstn (Z.to_nat perPage)
        (skipn (Z.to_nat ((page - 1) * perPage))
           (sortBy I (sortFieldMap sort) (sortOrderMap order)
              (filter (satisfies I query) (entities I)))) /\
    IsCeiling (Z.of_nat (List.length (filter (satisfies I query) (entities I))))
      perPage (pageCount r) /\
    (forall page' : Z,
        exists r', search I q perPage page' sort order = Ok r'
                   /\ pageCount r' = pageCount r).
Proof.
  intros HperPage Hpage.
  destruct (buildQuery_total q) as [query Hquery].
  exists query. eexists. split; [exact Hquery|].
  unfold search. rewrite Hquery. simpl.
  split; [reflexivity|]. split; [reflexivity|]. split.
  - apply ceilDiv_IsCeiling. lia.
  - intros page'. eexists. split; reflexivity.
Qed.

Lemma C4_offset_and_page_count_witness :
  (1 <= 10)%Z /\ (1 <= 1)%Z /\
  exists (query : Search) (r : SearchResult),
    buildQuery "+type:mod stone" = Ok query /\
    search fullIndex "+type:mod stone" 10 1 sort_hotness desc = Ok r /\
    List.length (packages r) = 10%nat /\ pageCount r = 3%Z.
Proof.
  split; [lia|]. split; [lia|].
  destruct (C4_offset_and_page_count fullIndex "+type:mod stone" 10 1 sort_hotness desc)
    as (query & r & Hq & Hr & _); [lia|lia|].
  exists query, r. split; [exact Hq|]. split; [exact Hr|].
  vm_compute in Hr. injection Hr as <-. split; reflexivity.
Defined.

End SearchClaims.

(** ** The read API *)

Module ReadApiFacts.
Import Http ReadApi Notions.

Lemma isOwnerChar_alphabet (c : ascii) : isOwnerChar c = occurs c ownerAlphabet.
Proof. destruct c as [[] [] [] [] [] [] [] []]; vm_compute; reflexivity. Qed.

Lemma isRepoChar_alphabet (c : ascii) : isRepoChar c = occurs c repoAlphabet.
Proof. destruct c as [[] [] [] [] [] [] [] []]; vm_compute; reflexivity. Qed.

(** Every identifier of the documented format is accepted by the regular
    expression (the converse fails, see C8). *)
Lemma TOOTH_PATH_REGEXP_accepts (tooth : string) :
  IsToothPath tooth -> exists owner repo, TOOTH_PATH_REGEXP_exec tooth = Some (owner, repo)
                                          /\ tooth = "github.com/" ++ owner ++ "/" ++ repo.
Proof.
  intros (owner & repo & -> & Ho & Hr & Oo & Or).
  exists owner, repo. split; [|reflexivity].
  apply (all_Over_gen isOwnerChar ownerAlphabet isOwnerChar_alphabet) in Oo.
  apply (all_Over_gen isRepoChar repoAlphabet isRepoChar_alphabet) in Or.
  unfold TOOTH_PATH_REGEXP_exec. simpl.
  rewrite span_exact by (auto; reflexivity).
  destruct owner as [|a owner]; [now elim Ho|].
  destruct repo as [|b repo]; [now elim Hr|].
  simpl in Or. now rewrite Or.
Qed.

Section Handler.

Variable ToothMetadata : Type.
Variable E : Env ToothMetadata.

Local Abbreviation handler := (handler ToothMetadata E).
Local Abbreviation tryBlock := (tryBlock ToothMetadata E).
Local Abbreviation fetchReadme := (fetchReadme ToothMetadata E).
Local Abbreviation fetchReadmeForLang := (fetchReadmeForLang ToothMetadata E).
Local Abbreviation fetchToothMetadata := (fetchToothMetadata ToothMetadata E).
Local Abbreviation fetchVersionList := (fetchVersionList ToothMetadata E).
Local Abbreviation promiseAll := (promiseAll ToothMetadata E).

(** A path that the regular expression rejects: 400, and nothing is
    requested upstream. *)
Lemma handler_rejected_tooth (tooth version : string) (languageCodes : list string) :
  TOOTH_PATH_REGEXP_exec tooth = None ->
  handler tooth version languageCodes
  = ([], {| httpStatus := 400; code := 400;
            body := Message ToothMetadata "Invalid parameter - tooth." |}).
Proof. intros H. unfold ReadApi.handler, ReadApi.tryBlock. now rewrite H. Qed.

(** A version that [isValidVersionString] rejects: 400, and nothing is
    requested upstream. *)
Lemma handler_rejected_version (tooth version : string) (languageCodes : list string)
    (owner repo : string) :
  TOOTH_PATH_REGEXP_exec tooth = Some (owner, repo) ->
  isValidVersionString ToothMetadata E version = false ->
  handler tooth version languageCodes
  = ([], {| httpStatus := 400; code := 400;
            body := Message ToothMetadata "Invalid parameter - version." |}).
Proof. intros H Hv. unfold ReadApi.handler, ReadApi.tryBlock. now rewrite H, Hv. Qed.

(** A path that the regular expression accepts, with an accepted version:
    the three groups of requests are issued, whatever their outcome. *)
Lemma handler_accepted_requests (tooth version : string) (languageCodes : list string)
    (owner repo : string) :
  TOOTH_PATH_REGEXP_exec tooth = Some (owner, repo) ->
  isValidVersionString ToothMetadata E version = true ->
  fst (handler tooth version languageCodes)
  = (fst (fetchToothMetadata owner repo version)
       ++ fst (fetchReadme owner repo version (JS.distinct [] languageCodes))
       ++ fst (fetchVersionList owner repo))%list.
Proof.
  intros H Hv. unfold ReadApi.handler, ReadApi.tryBlock. rewrite H, Hv. simpl.
  destruct (fetchReadme owner repo version (JS.distinct [] languageCodes)) as [urls2 readme].
  reflexivity.
Qed.

(** The reply when the three fetches succeed. *)
Lemma handler_accepted_reply (tooth version : string) (languageCodes : list string)
    (owner repo : string) (meta : ToothMetadata) (readme : option string)
    (versionList : list string) :
  TOOTH_PATH_REGEXP_exec tooth = Some (owner, repo) ->
  isValidVersionString ToothMetadata E version = true ->
  snd (fetchToothMetadata owner repo version) = Ok meta ->
  snd (fetchReadme owner repo version (JS.distinct [] languageCodes)) = Ok readme ->
  snd (fetchVersionList owner repo) = Ok versionList ->
  snd (handler tooth version languageCodes)
  = {| httpStatus := 200; code := 200; body := Data ToothMetadata meta versionList readme |}.
Proof.
  intros H Hv Hm Hr Hl. unfold ReadApi.handler, ReadApi.tryBlock. rewrite H, Hv.
  destruct (fetchToothMetadata owner repo version) as [u1 r1].
  destruct (fetchReadme owner repo version (JS.distinct [] languageCodes)) as [u2 r2].
  destruct (fetchVersionList owner repo) as [u3 r3].
  simpl in *. subst. reflexivity.
Qed.

(** A reply that carries data comes from three successful fetches. *)
Lemma handler_data_inv (tooth version : string) (languageCodes : list string)
    (owner repo : string) (meta : ToothMetadata) (readme : option string)
    (versionList : list string) :
  TOOTH_PATH_REGEXP_exec tooth = Some (owner, repo) ->
  body ToothMetadata (snd (handler tooth version languageCodes))
  = Data ToothMetadata meta versionList readme ->
  snd (fetchReadme owner repo version (JS.distinct [] languageCodes)) = Ok readme.
Proof.
  intros H. unfold ReadApi.handler, ReadApi.tryBlock. rewrite H.
  destruct (isValidVersionString ToothMetadata E version); [|simpl; discriminate].
  change (negb true) with false. cbv iota.
  destruct (fetchToothMetadata owner repo version) as [u1 r1].
  destruct (fetchReadme owner repo version (JS.distinct [] languageCodes)) as [u2 r2].
  destruct (fetchVersionList owner repo) as [u3 r3]. simpl.
  destruct r1 as [m|e1], r2 as [r|e2], r3 as [l|e3]; simpl;
    try (intros Hd; now inversion Hd);
    match goal with
    | |- context [raceOf ?T ?E' ?e ?es] => destruct (raceOf T E' e es); simpl; discriminate
    end.
Qed.

End Handler.

End ReadApiFacts.

Module ReadmeFacts.
Import Http ReadApi Notions.

Lemma filter_filter {A : Type} (f g : A -> bool) (l : list A) :
  filter f (filter g l) = filter (fun a => g a && f a) l.
Proof.
  induction l as [|a l IH]; simpl; [reflexivity|].
  destruct (g a); simpl; [destruct (f a)|]; now rewrite IH.
Qed.

(** [[...new Set(l)]] keeps each element at its first occurrence. *)
Lemma distinct_filter (seen l : list string) :
  JS.distinct seen l
  = filter (fun y => negb (existsb (String.eqb y) seen)) (keepFirst l).
Proof.
  revert seen. induction l as [|x l IH]; intros seen; simpl; [reflexivity|].
  destruct (existsb (String.eqb x) seen) eqn:Hx; simpl.
  - rewrite IH, filter_filter. apply filter_ext. intros y.
    destruct (String.eqb_spec y x) as [->|]; simpl; [now rewrite Hx | reflexivity].
  - f_equal. rewrite IH, filter_filter. apply filter_ext. intros y. simpl.
    now rewrite negb_orb.
Qed.

Lemma distinct_keepFirst (l : list string) : JS.distinct [] l = keepFirst l.
Proof.
  rewrite distinct_filter. simpl.
  induction (keepFirst l) as [|y k IH]; simpl; [reflexivity|]. now rewrite IH.
Qed.

Lemma firstNonNull_firstSome (l : list (option string)) : firstNonNull l = firstSome l.
Proof.
  unfold firstSome. induction l as [|[x|] l IH]; simpl; auto.
Qed.

Section Readme.

Variable ToothMetadata : Type.
Variable E : Env ToothMetadata.

Local Abbreviation fetchReadme := (fetchReadme ToothMetadata E).
Local Abbreviation fetchReadmeForLang := (fetchReadmeForLang ToothMetadata E).
Local Abbreviation promiseAll := (promiseAll ToothMetadata E).
Local Abbreviation answer := (readmeAnswer ToothMetadata E).

Lemma no_rejection_values {A : Type} (ps : list (Async A)) :
  concat (map (fun p => rejections (snd p)) ps) = [] ->
  map snd ps = map Ok (values (map snd ps)).
Proof.
  induction ps as [|[u [a|e]] ps IH]; simpl; intros H.
  - reflexivity.
  - f_equal. now apply IH.
  - discriminate.
Qed.

Lemma values_no_rejection {A : Type} (ps : list (Async A)) (vs : list A) :
  map snd ps = map Ok vs ->
  concat (map (fun p => rejections (snd p)) ps) = [] /\ values (map snd ps) = vs.
Proof.
  revert vs. induction ps as [|[u r] ps IH]; intros [|v vs] H; simpl in *;
    try discriminate.
  - split; reflexivity.
  - injection H as -> H. destruct (IH vs H) as [Hc Hv]. simpl. split; [exact Hc|].
    now rewrite Hv.
Qed.

(** A [Promise.all] resolves exactly when each of its promises does, with
    their values in order. *)
Lemma promiseAll_resolves {A : Type} (ps : list (Async A)) (vs : list A) :
  snd (promiseAll ps) = Ok vs <-> map snd ps = map Ok vs.
Proof.
  unfold ReadApi.promiseAll. simpl. split.
  - destruct (concat (map (fun p => rejections (snd p)) ps)) eqn:Hc; [|discriminate].
    intros [= <-]. now apply no_rejection_values.
  - intros H. destruct (values_no_rejection ps vs H) as [Hc Hv]. now rewrite Hc, Hv.
Qed.

Lemma fetchReadme_snd (owner repo versionString : string) (langList : list string) :
  snd (fetchReadme owner repo versionString langList)
  = (readmeList <-
       snd (promiseAll
              (map (fun lang => fetchReadmeForLang owner repo versionString (Some lang))
                 langList
               ++ [fetchReadmeForLang owner repo versionString None])%list) ;;
     Ok (firstNonNull readmeList)).
Proof. reflexivity. Qed.

Lemma fetchReadmeForLang_url (owner repo versionString : string) (lang : option string) :
  fetchReadmeForLang owner repo versionString lang
  = ([readmeUrl owner repo versionString lang],
     response <- fetch ToothMetadata E (readmeUrl owner repo versionString lang) ;;
     if negb (ok response) then Ok None else Ok (Some (text response))).
Proof. destruct lang; reflexivity. Qed.

(** When [fetchReadme] resolves, its value is the first answer, in the
    order of [langList] followed by the default README. *)
Lemma fetchReadme_first (owner repo versionString : string) (langList : list string)
    (readme : option string) :
  snd (fetchReadme owner repo versionString langList) = Ok readme ->
  readme = firstSome (map (answer owner repo versionString)
                        (map Some langList ++ [None])%list).
Proof.
  rewrite fetchReadme_snd.
  destruct (snd (promiseAll _)) as [vs|e] eqn:Hall; simpl; [|discriminate].
  intros [= <-]. apply promiseAll_resolves in Hall.
  rewrite firstNonNull_firstSome. f_equal.
  assert (Hmap : map Ok (map (answer owner repo versionString)
                           (map Some langList ++ [None])%list)
                 = map (@Ok Error (option string)) vs).
  { rewrite <- Hall. rewrite map_app, !map_map. simpl. unfold answer.
    rewrite !map_app, !map_map in Hall. simpl in Hall. clear - Hall.
    revert vs Hall. induction langList as [|l ls IH]; intros vs Hall; simpl in *.
    - destruct vs as [|v vs]; [discriminate|]. injection Hall as -> _. reflexivity.
    - destruct vs as [|v vs]; [discriminate|]. injection Hall as Hl Hrest.
      rewrite Hl. f_equal. now apply (IH vs). }
  clear - Hmap. revert vs Hmap.
  induction (map (answer owner repo versionString) (map Some langList ++ [None])%list)
    as [|a l IH]; intros [|v vs] Hmap; simpl in *; try discriminate; [reflexivity|].
  injection Hmap as -> Hmap. f_equal. now apply IH.
Qed.

(** When every README request is answered with a failure status,
    [fetchReadme] resolves to [null]. *)
Lemma fetchReadme_all_missing (owner repo versionString : string) (langList : list string) :
  (forall lang, In lang (map Some langList ++ [None])%list ->
     exists response,
       fetch ToothMetadata E (readmeUrl owner repo versionString lang) = Ok response
       /\ ok response = false) ->
  snd (fetchReadme owner repo versionString langList) = Ok None.
Proof.
  intros Hmissing. rewrite fetchReadme_snd.
  assert (Hall : snd (promiseAll
                        (map (fun lang => fetchReadmeForLang owner repo versionString (Some lang))
                           langList
                         ++ [fetchReadmeForLang owner repo versionString None])%list)
                 = Ok (map (fun _ => None) (map Some langList ++ [None])%list)).
  { apply promiseAll_resolves. rewrite !map_app, !map_map. cbn [map].
    assert (Hone : forall lang, In lang (map Some langList ++ [None])%list ->
                     snd (fetchReadmeForLang owner repo versionString lang) = Ok None).
    { intros lang Hin. destruct (Hmissing lang Hin) as (response & Hf & Hok).
      rewrite fetchReadmeForLang_url. simpl. rewrite Hf. simpl. now rewrite Hok. }
    f_equal.
    - apply map_ext_in. intros lang Hin. apply (Hone (Some lang)). apply in_or_app. left.
      now apply in_map.
    - f_equal. apply (Hone None). apply in_or_app. right. now left. }
  rewrite Hall. simpl. f_equal.
  clear. induction (map Some langList ++ [None])%list as [|a l IH]; simpl; auto.
Qed.

End Readme.

End ReadmeFacts.

Module ReadApiClaims.
Import Http ReadApi Notions Samples ReadApiFacts ReadmeFacts.

(** C8 (defect). The [.] of [TOOTH_PATH_REGEXP] is unescaped and stands
    for any character.  The path [githubXcom/owner/repo] is not of the
    form github.com/<owner>/<repo>, yet the regular expression accepts it
    with the groups [owner] and [repo]; with a version that
    [isValidVersionString] accepts, the handler does not answer 400 for
    the path but requests the tooth metadata, the README and the version
    list upstream, and answers 200 when these are served. *)
Theorem C8_unescaped_dot_accepts_other_host (ToothMetadata : Type)
    (E : Env ToothMetadata) (languageCodes : list string) :
  isValidVersionString ToothMetadata E "1.0.0" = true ->
  ~ IsToothPath "githubXcom/owner/repo" /\
  TOOTH_PATH_REGEXP_exec "githubXcom/owner/repo" = Some ("owner", "repo") /\
  In "https://raw.githubusercontent.com/owner/repo/v1.0.0/tooth.json"
     (fst (handler ToothMetadata E "githubXcom/owner/repo" "1.0.0" languageCodes)) /\
  In "https://raw.githubusercontent.com/owner/repo/v1.0.0/README.md"
     (fst (handler ToothMetadata E "githubXcom/owner/repo" "1.0.0" languageCodes)) /\
  In "https://goproxy.io/github.com/owner/repo/@v/list"
     (fst (handler ToothMetadata E "githubXcom/owner/repo" "1.0.0" languageCodes)) /\
  (forall meta readme versionList,
      snd (fetchToothMetadata ToothMetadata E "owner" "repo" "1.0.0") = Ok meta ->
      snd (fetchReadme ToothMetadata E "owner" "repo" "1.0.0"
             (JS.distinct [] languageCodes)) = Ok readme ->
      snd (fetchVersionList ToothMetadata E "owner" "repo") = Ok versionList ->
      httpStatus ToothMetadata
        (snd (handler ToothMetadata E "githubXcom/owner/repo" "1.0.0" languageCodes))
      = 200%Z).
Proof.
  intros Hvalid.
  assert (Hexec : TOOTH_PATH_REGEXP_exec "githubXcom/owner/repo" = Some ("owner", "repo"))
    by reflexivity.
  split.
  { intros (owner & repo & Heq & _). simpl in Heq. discriminate. }
  split; [exact Hexec|].
  rewrite (handler_accepted_requests ToothMetadata E _ _ languageCodes _ _ Hexec Hvalid).
  split; [now left|]. split.
  - apply in_or_app. right. apply in_or_app. left.
    unfold ReadApi.fetchReadme, ReadApi.promiseAll. simpl.
    rewrite map_app, concat_app. apply in_or_app. right. now left.
  - split.
    + apply in_or_app. right. apply in_or_app. right. now left.
    + intros meta readme versionList Hm Hr Hl.
      now rewrite (handler_accepted_reply ToothMetadata E _ _ languageCodes _ _
                     meta readme versionList Hexec Hvalid Hm Hr Hl).
Qed.

Lemma C8_unescaped_dot_accepts_other_host_witness :
  isValidVersionString unit servingEnv "1.0.0" = true /\
  ~ IsToothPath "githubXcom/owner/repo" /\
  handler unit servingEnv "githubXcom/owner/repo" "1.0.0" ["en"]
  = (["https://raw.githubusercontent.com/owner/repo/v1.0.0/tooth.json";
      "https://raw.githubusercontent.com/owner/repo/v1.0.0/README.en.md";
      "https://raw.githubusercontent.com/owner/repo/v1.0.0/README.md";
      "https://goproxy.io/github.com/owner/repo/@v/list"],
     {| httpStatus := 200; code := 200;
        body := Data unit tt ["1.0.0"]
                  (Some (String "v" (String "1" (String "." (String "0" (String "."
                     (String "0" (String "010" EmptyString)))))))) |}).
Proof.
  split; [reflexivity|].
  split; [|reflexivity].
  apply (C8_unescaped_dot_accepts_other_host unit servingEnv ["en"]). reflexivity.
Defined.

(** What the source's fetch of one README gives is what the request of
    its address gives: the body of a success response, nothing otherwise. *)
Lemma readmeAnswer_readmeOf (ToothMetadata : Type) (E : Env ToothMetadata)
    (owner repo version : string) (lang : option string) :
  readmeAnswer ToothMetadata E owner repo version lang
  = Readings.readmeOf ToothMetadata E owner repo version lang.
Proof.
  unfold readmeAnswer, Readings.readmeOf. rewrite fetchReadmeForLang_url. cbn [snd].
  destruct (fetch ToothMetadata E (readmeUrl owner repo version lang)) as [response|e];
    cbn [bind]; [|reflexivity].
  destruct (ok response); reflexivity.
Qed.

(** When every README request is answered, [fetchReadme] resolves to the
    first README that a request gave. *)
Lemma fetchReadme_answered (ToothMetadata : Type) (E : Env ToothMetadata)
    (owner repo version : string) (langList : list string) :
  (forall lang, In lang (map Some langList ++ [None])%list ->
     exists response,
       fetch ToothMetadata E (readmeUrl owner repo version lang) = Ok response) ->
  snd (fetchReadme ToothMetadata E owner repo version langList)
  = Ok (firstSome (map (Readings.readmeOf ToothMetadata E owner repo version)
                     (map Some langList ++ [None])%list)).
Proof.
  intros Hanswered. rewrite fetchReadme_snd.
  assert (Hall : snd (promiseAll ToothMetadata E
                        (map (fun lang => fetchReadmeForLang ToothMetadata E owner repo
                                            version (Some lang)) langList
                         ++ [fetchReadmeForLang ToothMetadata E owner repo version None])%list)
                 = Ok (map (Readings.readmeOf ToothMetadata E owner repo version)
                         (map Some langList ++ [None])%list)).
  { apply promiseAll_resolves. rewrite !map_app, !map_map. cbn [map].
    assert (Hone : forall lang, In lang (map Some langList ++ [None])%list ->
                     snd (fetchReadmeForLang ToothMetadata E owner repo version lang)
                     = Ok (Readings.readmeOf ToothMetadata E owner repo version lang)).
    { intros lang Hin. destruct (Hanswered lang Hin) as (response & Hf).
      unfold Readings.readmeOf. rewrite fetchReadmeForLang_url. cbn [snd].
      rewrite Hf. cbn [bind]. destruct (ok response); reflexivity. }
    f_equal.
    - apply map_ext_in. intros lang Hin. apply (Hone (Some lang)). apply in_or_app. left.
      now apply in_map.
    - f_equal. apply (Hone None). apply in_or_app. right. now left. }
  rewrite Hall. cbn [bind]. now rewrite firstNonNull_firstSome.
Qed.

(** C10. The accepted languages are the distinct language codes in the
    order of their first occurrence.  The README of a language is
    requested at [README.<lang>.md], the default README at [README.md];
    a request gives the body of a response with a success status and
    nothing for a response with a failure status (the README is missing:
    this is a README fetch that fails).  Whenever the handler returns a
    [readme] field, it is the first README given by the requests for the
    accepted languages, in order, followed by the request of the default
    README.  When the tooth metadata and the version list are fetched and
    every README request is answered, the handler succeeds with this
    [readme]; when every one of them is answered with a failure status,
    the [readme] is [null] and the request still succeeds. *)
Theorem C10_readme_by_language_preference (ToothMetadata : Type)
    (E : Env ToothMetadata) (tooth version : string) (languageCodes : list string)
    (owner repo : string) :
  TOOTH_PATH_REGEXP_exec tooth = Some (owner, repo) ->
  let langs := JS.distinct [] languageCodes in
  let candidates := (map Some langs ++ [None])%list in
  let readmes := map (Readings.readmeOf ToothMetadata E owner repo version) candidates in
  langs = keepFirst languageCodes /\
  (forall lang,
      fst (fetchReadmeForLang ToothMetadata E owner repo version lang)
      = [readmeUrl owner repo version lang]) /\
  (forall meta versionList readme,
      body ToothMetadata (snd (handler ToothMetadata E tooth version languageCodes))
      = Data ToothMetadata meta versionList readme ->
      readme = firstSome readmes) /\
  (forall meta versionList,
      isValidVersionString ToothMetadata E version = true ->
      snd (fetchToothMetadata ToothMetadata E owner repo version) = Ok meta ->
      snd (fetchVersionList ToothMetadata E owner repo) = Ok versionList ->
      (forall lang, In lang candidates ->
         exists response,
           fetch ToothMetadata E (readmeUrl owner repo version lang) = Ok response) ->
      snd (handler ToothMetadata E tooth version languageCodes)
      = {| httpStatus := 200; code := 200;
           body := Data ToothMetadata meta versionList (firstSome readmes) |}) /\
  ((forall lang, In lang candidates ->
      exists response,
        fetch ToothMetadata E (readmeUrl owner repo version lang) = Ok response
        /\ ok response = false) ->
   firstSome readmes = None /\
   snd (fetchReadme ToothMetadata E owner repo version langs) = Ok None /\
   forall meta versionList,
     isValidVersionString ToothMetadata E version = true ->
     snd (fetchToothMetadata ToothMetadata E owner repo version) = Ok meta ->
     snd (fetchVersionList ToothMetadata E owner repo) = Ok versionList ->
     snd (handler ToothMetadata E tooth version languageCodes)
     = {| httpStatus := 200; code := 200;
          body := Data ToothMetadata meta versionList None |}).
Proof.
  intros Hexec langs candidates readmes.
  split; [apply distinct_keepFirst|].
  split; [intros lang; now rewrite fetchReadmeForLang_url|].
  split; [|split].
  - intros meta versionList readme Hdata.
    pose proof (handler_data_inv ToothMetadata E tooth version languageCodes owner repo
                  meta readme versionList Hexec Hdata) as Hreadme.
    apply (fetchReadme_first ToothMetadata E) in Hreadme. rewrite Hreadme.
    unfold readmes, candidates, langs. f_equal. apply map_ext. intros lang.
    apply readmeAnswer_readmeOf.
  - intros meta versionList Hvalid Hm Hl Hanswered.
    exact (handler_accepted_reply ToothMetadata E tooth version languageCodes owner repo
             meta (firstSome readmes) versionList Hexec Hvalid Hm
             (fetchReadme_answered ToothMetadata E owner repo version langs Hanswered) Hl).
  - intros Hmissing.
    pose proof (fetchReadme_all_missing ToothMetadata E owner repo version langs Hmissing)
      as Hnull.
    assert (Hanswered : forall lang, In lang candidates ->
              exists response,
                fetch ToothMetadata E (readmeUrl owner repo version lang) = Ok response).
    { intros lang Hin. destruct (Hmissing lang Hin) as (response & Hf & _).
      now exists response. }
    pose proof (fetchReadme_answered ToothMetadata E owner repo version langs Hanswered)
      as Hfirst.
    split; [|split; [exact Hnull|]].
    + fold candidates in Hfirst. fold readmes in Hfirst. congruence.
    + intros meta versionList Hvalid Hm Hl.
      exact (handler_accepted_reply ToothMetadata E tooth version languageCodes owner repo
               meta None versionList Hexec Hvalid Hm Hnull Hl).
Qed.

Lemma C10_readme_by_language_preference_witness :
  TOOTH_PATH_REGEXP_exec "github.com/futrime/sample" = Some ("futrime", "sample") /\
  JS.distinct [] ["zh"; "en"; "zh"] = ["zh"; "en"] /\
  snd (handler unit Readings.englishReadmeEnv "github.com/futrime/sample" "1.0.0"
         ["zh"; "en"; "zh"])
  = {| httpStatus := 200; code := 200;
       body := Data unit tt ["1.0.0"] (Some "# Sample") |} /\
  snd (handler unit noReadmeEnv "github.com/futrime/sample" "1.0.0" ["zh"; "en"; "zh"])
  = {| httpStatus := 200; code := 200; body := Data unit tt ["1.0.0"] None |}.
Proof.
  split; [reflexivity|]. split; [reflexivity|]. split.
  - destruct (C10_readme_by_language_preference unit Readings.englishReadmeEnv
                "github.com/futrime/sample" "1.0.0" ["zh"; "en"; "zh"] "futrime" "sample"
                eq_refl) as (_ & _ & _ & Hserved & _).
    rewrite (Hserved tt ["1.0.0"] eq_refl eq_refl eq_refl).
    + reflexivity.
    + intros lang Hin. simpl in Hin.
      destruct Hin as [<-|[<-|[<-|[]]]]; eexists; reflexivity.
  - destruct (C10_readme_by_language_preference unit noReadmeEnv
                "github.com/futrime/sample" "1.0.0" ["zh"; "en"; "zh"] "futrime" "sample"
                eq_refl) as (_ & _ & _ & _ & Hmissing).
    apply Hmissing.
    + intros lang Hin. exists notFound. split; [|reflexivity].
      simpl in Hin. destruct Hin as [<-|[<-|[<-|[]]]]; reflexivity.
    + reflexivity.
    + reflexivity.
    + reflexivity.
Defined.

End ReadApiClaims.

(** ** The normalizer *)

Module NormalizerFacts.

Section Facts.

Variable after : string -> string -> bool.

Lemma dedupVersions_In (seen : list string) (vs : list Version) (v : Version) :
  In v (dedupVersions seen vs) -> In v vs.
Proof.
  revert seen. induction vs as [|w vs IH]; intros seen; simpl; [tauto|].
  destruct (existsb (String.eqb (version w)) seen); simpl.
  - intros H. right. now apply (IH seen).
  - intros [H|H]; [now left | right; now apply (IH (version w :: seen))].
Qed.


Lemma insertVersion_In (v x : Version) (vs : list Version) :
  In x (insertVersion after v vs) <-> x = v \/ In x vs.
Proof.
  induction vs as [|w vs IH]; simpl.
  - intuition congruence.
  - destruct (after (releasedAt w) (releasedAt v)); simpl; [rewrite IH|];
      intuition congruence.
Qed.


Lemma sortVersions_In (x : Version) (vs : list Version) :
  In x (sortVersions after vs) <-> In x vs.
Proof.
  induction vs as [|v vs IH]; simpl; [tauto|].
  rewrite insertVersion_In, IH. intuition congruence.
Qed.


(** Normalization keeps the identifier, keeps a non-empty version list
    non-empty, and makes up no version. *)
Lemma normalizePackage_identifier (pkg : Package) :
  identifier (normalizePackage after pkg) = identifier pkg.
Proof. reflexivity. Qed.


Lemma normalizePackage_versions_In (pkg : Package) (v : Version) :
  In v (versions (normalizePackage after pkg)) -> In v (versions pkg).
Proof. simpl. rewrite sortVersions_In. apply dedupVersions_In. Qed.

End Facts.

End NormalizerFacts.

(** ** The fetchers *)

Module LeviLaminaFacts.
Import Http LeviLaminaFetcher NormalizerFacts.

Section Facts.

Variable after : string -> string -> bool.
Variable E : Env.

Local Abbreviation fetchPackage := (fetchPackage after E).
Local Abbreviation fetchOne := (fetchOne after E).
Local Abbreviation fetchLoop := (fetchLoop after E).

(** What a resolved candidate looks like. *)
Lemma leviLamina_fetchPackage_some (repo : RepoId) (p : Package) :
  snd (fetchPackage repo) = Ok (Some p) ->
  exists raw vs tooth,
    p = normalizePackage after raw /\
    identifier raw = "github.com/" ++ GitHub.owner repo ++ "/" ++ GitHub.repo repo /\
    versions raw = vs /\ vs <> [] /\
    snd (fetchVersions E repo) = Ok vs /\
    fetchTooth E repo "HEAD" = Ok (Some tooth).
Proof.
  unfold LeviLaminaFetcher.fetchPackage.
  destruct (fetchVersions E repo) as [log [vs|e]]; simpl.
  2:{ destruct (getRepo E repo), (listRepoContributors E repo), (fetchTooth E repo "HEAD");
      discriminate. }
  destruct (getRepo E repo) as [repository|]; [|discriminate].
  destruct (listRepoContributors E repo) as [cs|]; [|discriminate].
  destruct (fetchTooth E repo "HEAD") as [[tooth|]|]; try discriminate.
  destruct vs as [|v vs]; [discriminate|].
  replace (Z.of_nat (List.length (v :: vs)) =? 0)%Z with false by reflexivity.
  intros [= <-]. eexists _, (v :: vs), tooth.
  split; [reflexivity|]. split; [reflexivity|]. split; [reflexivity|].
  split; [discriminate|]. split; reflexivity.
Qed.



Lemma leviLamina_fetchOne_yields (repo : RepoId) (p : Package) :
  In p (snd (fetchOne repo)) ->
  snd (fetchPackage repo) = Ok (Some p) /\
  ~ (GitHub.owner repo = "LiteLDev" /\ GitHub.repo repo = "LeviLamina").
Proof.
  unfold LeviLaminaFetcher.fetchOne.
  destruct (String.eqb_spec (GitHub.owner repo) "LiteLDev") as [Ho|Ho];
    destruct (String.eqb_spec (GitHub.repo repo) "LeviLamina") as [Hr|Hr]; simpl;
    try (intros []);
    (destruct (fetchPackage repo) as [log [[q|]|]]; simpl; [|intros []|intros []];
     intros [<-|[]]; split; [reflexivity | tauto]).
Qed.


Lemma leviLamina_fetchLoop_cons (repo : RepoId) (rest : list RepoId) :
  fetchLoop (repo :: rest)
  = ((fst (fetchOne repo) ++ fst (fetchLoop rest))%list,
     (snd (fetchOne repo) ++ snd (fetchLoop rest))%list).
Proof.
  simpl. destruct (fetchOne repo), (fetchLoop rest). reflexivity.
Qed.

Lemma leviLamina_fetchLoop_In (repos : list RepoId) (p : Package) :
  In p (snd (fetchLoop repos)) -> exists repo, In repo repos /\ In p (snd (fetchOne repo)).
Proof.
  induction repos as [|repo repos IH]; [intros []|].
  rewrite leviLamina_fetchLoop_cons. simpl. intros H. apply in_app_or in H as [H|H].
  - exists repo. split; [now left | exact H].
  - destruct (IH H) as (r & Hr & Hp). exists r. split; [now right | exact Hp].
Qed.



End Facts.

End LeviLaminaFacts.

Module EndstoneFacts.
Import Http EndstonePythonFetcher NormalizerFacts.

Section Facts.

Variable after : string -> string -> bool.
Variable E : Env.

Local Abbreviation fetchPackage := (fetchPackage after E).
Local Abbreviation fetchOne := (fetchOne after E).
Local Abbreviation fetchLoop := (fetchLoop after E).




Lemma endstone_fetchOne_yields (repo : RepositoryDescriptor) (p : Package) :
  In p (snd (fetchOne repo)) -> fetchPackage repo = Ok (Some p).
Proof.
  unfold EndstonePythonFetcher.fetchOne.
  destruct (fetchPackage repo) as [[q|]|]; simpl; [|intros []|intros []].
  now intros [<-|[]].
Qed.


Lemma endstone_fetchLoop_cons (repo : RepositoryDescriptor) (rest : list RepositoryDescriptor) :
  fetchLoop (repo :: rest)
  = ((fst (fetchOne repo) ++ fst (fetchLoop rest))%list,
     (snd (fetchOne repo) ++ snd (fetchLoop rest))%list).
Proof.
  simpl. destruct (fetchOne repo), (fetchLoop rest). reflexivity.
Qed.

Lemma endstone_fetchLoop_In (repos : list RepositoryDescriptor) (p : Package) :
  In p (snd (fetchLoop repos)) -> exists repo, In repo repos /\ In p (snd (fetchOne repo)).
Proof.
  induction repos as [|repo repos IH]; [intros []|].
  rewrite endstone_fetchLoop_cons. simpl. intros H. apply in_app_or in H as [H|H].
  - exists repo. split; [now left | exact H].
  - destruct (IH H) as (r & Hr & Hp). exists r. split; [now right | exact Hp].
Qed.



End Facts.

End EndstoneFacts.

Module FetcherClaims.
Import Http Notions Samples NormalizerFacts.

(** The identifier of the platform repository belongs to one owner and
    repository name only. *)
Lemma platform_identifier (owner repo : string) :
  "github.com/" ++ owner ++ "/" ++ repo = "github.com/LiteLDev/LeviLamina" ->
  owner = "LiteLDev" /\ repo = "LeviLamina".
Proof.
  simpl. intros H. injection H as H.
  repeat (destruct owner as [|? owner]; simpl in H;
          [ try discriminate H; injection H as <-; split; reflexivity
          | try discriminate H; injection H as -> H ]).
Qed.

(** Every version that the LeviLamina loop pushes is named by a line of
    the goproxy list without its leading [v] and without [+incompatible]. *)
Lemma tryVersion_version (E : LeviLaminaFetcher.Env) (repo : LeviLaminaFetcher.RepoId)
    (tag : string) (v : Version) :
  LeviLaminaFetcher.tryVersion E repo tag = Ok (Some v) ->
  version v = JS.removeAll "+incompatible" (JS.stripLeadingV tag).
Proof.
  unfold LeviLaminaFetcher.tryVersion.
  destruct (LeviLaminaFetcher.fetchGoProxyVersion E repo tag) as [[g|]|];
    destruct (LeviLaminaFetcher.fetchTooth E repo
                ("v" ++ JS.removeAll "+incompatible" (JS.stripLeadingV tag))) as [[t|]|];
    try discriminate.
  destruct (LeviLaminaFetcher.toISOString E (LeviLaminaFetcher.Time g)); simpl; [|discriminate].
  now intros [= <-].
Qed.

Lemma versionLoop_version (E : LeviLaminaFetcher.Env) (repo : LeviLaminaFetcher.RepoId)
    (tags : list string) (acc : list Version) (v : Version) :
  In v (snd (LeviLaminaFetcher.versionLoop E repo tags acc)) ->
  In v acc \/
  exists tag, In tag tags /\ version v = JS.removeAll "+incompatible" (JS.stripLeadingV tag).
Proof.
  revert acc. induction tags as [|tag tags IH]; intros acc; simpl; [tauto|].
  destruct (LeviLaminaFetcher.tryVersion E repo tag) as [[w|]|] eqn:Htry.
  - intros H. destruct (IH _ H) as [Hin|(t & Ht & Hv)].
    + apply in_app_or in Hin as [Hin|[<-|[]]]; [now left|].
      right. exists tag. split; [now left | now apply (tryVersion_version E repo)].
    + right. exists t. split; [now right | exact Hv].
  - intros H. destruct (IH _ H) as [Hin|(t & Ht & Hv)]; [now left|].
    right. exists t. split; [now right | exact Hv].
  - destruct (LeviLaminaFetcher.versionLoop E repo tags acc) as [log vs] eqn:Hloop. simpl.
    intros H. specialize (IH acc). rewrite Hloop in IH.
    destruct (IH H) as [Hin|(t & Ht & Hv)]; [now left|].
    right. exists t. split; [now right | exact Hv].
Qed.

(** The Endstone fetcher names a version after the release tag as it is. *)
Lemma mapThrowing_versionOfRelease (E : EndstonePythonFetcher.Env) (releases : list GitHub.Release)
    (vs : list Version) (release : GitHub.Release) :
  EndstonePythonFetcher.mapThrowing (EndstonePythonFetcher.versionOfRelease E) releases = Ok vs ->
  In release releases ->
  exists v, In v vs /\ version v = GitHub.tag_name release /\ source v = github.
Proof.
  revert vs. induction releases as [|r rs IH]; intros vs; simpl; [intros _ []|].
  unfold EndstonePythonFetcher.versionOfRelease at 1.
  destruct (EndstonePythonFetcher.toISOString E _) as [iso|]; simpl; [|discriminate].
  destruct (EndstonePythonFetcher.mapThrowing (EndstonePythonFetcher.versionOfRelease E) rs)
    as [ws|]; simpl; [|discriminate].
  intros [= <-] [->|Hin].
  - eexists. split; [now left|]. split; reflexivity.
  - destruct (IH ws eq_refl Hin) as (v & Hv & Heq). exists v. split; [now right|exact Heq].
Qed.

(** C5 (defect). The Endstone fetcher copies the release tag into the
    [version] field without removing a leading [v], as the LeviLamina
    fetcher does: for a repository whose only release is tagged [v1.0.0]
    the package emitted has the single version [v1.0.0]. *)
Theorem C5_endstone_version_keeps_leading_v (after : string -> string -> bool) :
  exists (p : Package) (v : Version),
    snd (EndstonePythonFetcher.fetch_ after endstoneEnv) = [p] /\
    versions p = [v] /\
    version v = "v1.0.0" /\
    JS.startsWith "v" (version v) = true /\
    JS.stripLeadingV (version v) <> version v.
Proof.
  eexists. eexists. split; [reflexivity|]. split; [reflexivity|].
  split; [reflexivity|]. split; [reflexivity|]. discriminate.
Qed.






(** The sample runs of C7: the LeviLamina candidate whose metadata
    request throws and the Endstone candidate without manifest are
    logged, and the candidate after each of them is yielded. *)
Example sample_runs_continue :
  LeviLaminaFetcher.fetch_ laterThan leviLaminaEnv
  = (["Failed to fetch package futrime/broken:"],
     snd (LeviLaminaFetcher.fetchOne laterThan leviLaminaEnv (repoOf "futrime" "sample"))) /\
  List.length (snd (LeviLaminaFetcher.fetch_ laterThan leviLaminaEnv)) = 1%nat /\
  EndstonePythonFetcher.fetchPyprojectMetadata endstoneEnv (repoOf "futrime" "noproject")
  = Throw thrown /\
  EndstonePythonFetcher.fetch_ laterThan endstoneEnv
  = (["Error fetching Endstone Python package github.com/futrime/noproject:"],
     snd (EndstonePythonFetcher.fetchOne laterThan endstoneEnv (repoOf "futrime" "plugin"))) /\
  List.length (snd (EndstonePythonFetcher.fetch_ laterThan endstoneEnv)) = 1%nat.
Proof. repeat split. Qed.

(** C9. No package that [LeviLaminaFetcher.fetch] yields has the
    identifier [github.com/LiteLDev/LeviLamina], whatever the discovery
    search returns. *)
Theorem C9_platform_repository_is_skipped
    (after : string -> string -> bool) (L : LeviLaminaFetcher.Env) :
  Forall (fun p => identifier p <> "github.com/LiteLDev/LeviLamina")
         (snd (LeviLaminaFetcher.fetch_ after L)).
Proof.
  apply Forall_forall. intros p Hp Hid.
  apply LeviLaminaFacts.leviLamina_fetchLoop_In in Hp as (repo & _ & Hp).
  apply LeviLaminaFacts.leviLamina_fetchOne_yields in Hp as [Hp Hskip].
  apply LeviLaminaFacts.leviLamina_fetchPackage_some in Hp as (raw & vs & tooth & -> & Hraw & _).
  rewrite normalizePackage_identifier, Hraw in Hid.
  apply Hskip. now apply platform_identifier.
Qed.

(** The sample run: discovery returns the platform repository first, and
    only the one resolvable repository is yielded. *)
Example leviLamina_sample_run :
  In (repoOf "LiteLDev" "LeviLamina")
     (LeviLaminaFetcher.searchForRepo leviLaminaEnv LeviLaminaFetcher.query) /\
  map identifier (snd (LeviLaminaFetcher.fetch_ laterThan leviLaminaEnv))
  = ["github.com/futrime/sample"].
Proof. split; [now left | reflexivity]. Qed.

End FetcherClaims.

(** ** Further properties of the query parser and the search executor *)

Module SearchExtras.
Import RedisOm RedisClient Notions Samples Derived SearchFacts.

Lemma string_length_append (a b : string) :
  String.length (a ++ b) = (String.length a + String.length b)%nat.
Proof. induction a as [|c a IH]; simpl; [reflexivity|]. now rewrite IH. Qed.

Lemma replaceAll_append (c d : ascii) (a b : string) :
  JS.replaceAll c d (a ++ b) = JS.replaceAll c d a ++ JS.replaceAll c d b.
Proof. induction a as [|x a IH]; simpl; [reflexivity|]. now rewrite IH. Qed.

(** Splitting at a separator splits on both sides of it. *)
Lemma split_append (sep : ascii) (a b : string) :
  JS.split sep (a ++ String sep b) = (JS.split sep a ++ JS.split sep b)%list.
Proof.
  induction a as [|x a IH]; simpl.
  - now rewrite Ascii.eqb_refl.
  - destruct (Ascii.eqb x sep); simpl; [now rewrite IH|].
    rewrite IH. pose proof (split_not_nil sep a) as Hne.
    destruct (JS.split sep a); [contradiction|reflexivity].
Qed.

Lemma split_all (p : ascii -> bool) (sep : ascii) (s w : string) :
  JS.all p s = true -> In w (JS.split sep s) -> JS.all p w = true.
Proof.
  revert w. induction s as [|a s IH]; simpl; intros w Hall Hin.
  - destruct Hin as [<-|[]]. reflexivity.
  - apply andb_true_iff in Hall as [Ha Hs].
    destruct (Ascii.eqb a sep).
    + destruct Hin as [<-|Hin]; [reflexivity | now apply IH].
    + pose proof (split_not_nil sep s) as Hne.
      destruct (JS.split sep s) as [|v vs]; [contradiction|].
      destruct Hin as [<-|Hin].
      * simpl. rewrite Ha. apply IH; [exact Hs | now left].
      * apply IH; [exact Hs | now right].
Qed.

Lemma split_no_sep (sep : ascii) (s w : string) :
  In w (JS.split sep s) -> JS.all (fun c => negb (Ascii.eqb c sep)) w = true.
Proof.
  revert w. induction s as [|a s IH]; simpl; intros w Hin.
  - destruct Hin as [<-|[]]. reflexivity.
  - destruct (Ascii.eqb a sep) eqn:Ha.
    + destruct Hin as [<-|Hin]; [reflexivity | now apply IH].
    + pose proof (split_not_nil sep s) as Hne.
      destruct (JS.split sep s) as [|v vs]; [contradiction|].
      destruct Hin as [<-|Hin].
      * simpl. rewrite Ha. simpl. apply IH. now left.
      * apply IH. now right.
Qed.

Lemma replaceAll_no_asterisk (s : string) :
  JS.all (fun c => negb (Ascii.eqb c "*")) (JS.replaceAll "*" " " s) = true.
Proof.
  induction s as [|a s IH]; simpl; [reflexivity|].
  rewrite IH, andb_true_r. destruct (Ascii.eqb a "*") eqn:Ha; [reflexivity|now rewrite Ha].
Qed.

Lemma all_and (p1 p2 : ascii -> bool) (s : string) :
  JS.all p1 s = true -> JS.all p2 s = true -> JS.all (fun c => p1 c && p2 c) s = true.
Proof.
  induction s as [|a s IH]; simpl; [reflexivity|].
  intros H1 H2. apply andb_true_iff in H1 as [-> H1], H2 as [-> H2]. now apply IH.
Qed.

(** X1. Every token that [search] takes from the query string is
    non-empty and contains neither a space nor an asterisk. *)
Theorem X1_tokens_have_no_separator (q token : string) :
  In token (qList q) ->
  token <> EmptyString /\ JS.all (fun c => negb (isSeparator c)) token = true.
Proof.
  unfold qList. intros Hin. apply filter_In in Hin as [Hin Hlen]. split.
  - intros ->. discriminate.
  - pose proof (split_no_sep " " _ _ Hin) as Hsp.
    pose proof (split_all _ " " _ _ (replaceAll_no_asterisk q) Hin) as Hast.
    pose proof (all_and _ _ _ Hsp Hast) as H.
    erewrite <- H. clear. induction token as [|a t IH]; simpl; [reflexivity|].
    rewrite IH. unfold isSeparator. now rewrite negb_orb.
Qed.

Lemma X1_tokens_have_no_separator_witness :
  In "+type:mod" (qList " +type:mod**stone ") /\
  "+type:mod" <> EmptyString /\
  JS.all (fun c => negb (isSeparator c)) "+type:mod" = true.
Proof.
  split; [now left|].
  apply (X1_tokens_have_no_separator " +type:mod**stone " "+type:mod"). now left.
Defined.

Lemma qList_append (q1 q2 : string) :
  qList (q1 ++ String " " q2) = (qList q1 ++ qList q2)%list.
Proof.
  unfold qList. rewrite replaceAll_append. simpl.
  now rewrite split_append, filter_app.
Qed.

Lemma qList_append_asterisk (q1 q2 : string) :
  qList (q1 ++ String "*" q2) = (qList q1 ++ qList q2)%list.
Proof.
  unfold qList. rewrite replaceAll_append. simpl.
  now rewrite split_append, filter_app.
Qed.

(** X2. Joining two query strings with a space, or with an asterisk,
    joins their tokens: the required tokens of the joined query are those
    of the first followed by those of the second, and so are the optional
    tokens. *)
Theorem X2_joined_queries_join_tokens (q1 q2 : string) :
  qList (q1 ++ " " ++ q2) = (qList q1 ++ qList q2)%list /\
  qList (q1 ++ "*" ++ q2) = (qList q1 ++ qList q2)%list /\
  exactQList (q1 ++ " " ++ q2) = (exactQList q1 ++ exactQList q2)%list /\
  optionalQList (q1 ++ " " ++ q2) = (optionalQList q1 ++ optionalQList q2)%list.
Proof.
  change (q1 ++ " " ++ q2) with (q1 ++ String " " q2).
  change (q1 ++ "*" ++ q2) with (q1 ++ String "*" q2).
  unfold exactQList, optionalQList.
  rewrite qList_append, qList_append_asterisk, !filter_app, map_app. tauto.
Qed.

Lemma requiredAndAnyOptional_alt (I : Index) (required optional : list string)
    (p : Package) :
  requiredAndAnyOptional I required optional p
  = forallb (fun t => holds I (termWhere t) p) required
    && (match optional with [] => true | _ :: _ => false end
        || existsb (fun t => holds I (termWhere t) p) optional).
Proof. unfold requiredAndAnyOptional. destruct optional; reflexivity. Qed.

(** The record is selected when the query is short, and otherwise when
    all required and, if any, one optional term hold. *)
Lemma selects_spec (I : Index) (q : string) (p : Package) :
  selects I q p
  = if (1 <? JS.length q)%Z
    then requiredAndAnyOptional I (exactQList q) (optionalQList q) p
    else true.
Proof.
  unfold selects. destruct (Z.ltb_spec 1 (JS.length q)) as [H|H].
  - rewrite buildQuery_long by exact H. apply satisfies_built.
  - rewrite buildQuery_short by exact H. reflexivity.
Qed.

Lemma joined_length (q1 q2 : string) :
  JS.length (q1 ++ String " " q2) = JS.length (q2 ++ String " " q1).
Proof. unfold JS.length. rewrite !string_length_append. simpl. lia. Qed.

Lemma isnil_app {A : Type} (l1 l2 : list A) :
  match (l1 ++ l2)%list with [] => true | _ :: _ => false end
  = match l1 with [] => true | _ :: _ => false end
    && match l2 with [] => true | _ :: _ => false end.
Proof. destruct l1, l2; reflexivity. Qed.

(** X3. The order of the parts of a query does not matter: the query
    [q1 q2] selects the same records as the query [q2 q1]. *)
Theorem X3_token_order_is_irrelevant (I : Index) (q1 q2 : string) (p : Package) :
  selects I (q1 ++ " " ++ q2) p = selects I (q2 ++ " " ++ q1) p.
Proof.
  change (q1 ++ " " ++ q2) with (q1 ++ String " " q2).
  change (q2 ++ " " ++ q1) with (q2 ++ String " " q1).
  rewrite !selects_spec, (joined_length q1 q2).
  destruct (1 <? JS.length (q2 ++ String " " q1))%Z; [|reflexivity].
  rewrite !requiredAndAnyOptional_alt. unfold exactQList, optionalQList.
  rewrite !qList_append, !filter_app, !map_app, !forallb_app, !existsb_app, !isnil_app.
  rewrite (andb_comm (forallb _ (map JS.slice1 (filter _ (qList q1))))).
  f_equal. rewrite (orb_comm (existsb _ (filter _ (qList q1)))).
  f_equal. apply andb_comm.
Qed.

(** X4. Adding required tokens never selects more: if the tokens of [q2]
    are all required (written with [+]), every record that [q1 q2]
    selects is selected by [q1]. *)
Theorem X4_required_tokens_narrow (I : Index) (q1 q2 : string) (p : Package) :
  optionalQList q2 = [] ->
  selects I (q1 ++ " " ++ q2) p = true -> selects I q1 p = true.
Proof.
  intros Hreq. change (q1 ++ " " ++ q2) with (q1 ++ String " " q2).
  rewrite !selects_spec.
  destruct (1 <? JS.length q1)%Z eqn:H1; [|reflexivity].
  assert (Hlong : (1 <? JS.length (q1 ++ String " " q2))%Z = true).
  { apply Z.ltb_lt in H1. apply Z.ltb_lt. unfold JS.length in *.
    rewrite string_length_append. lia. }
  rewrite Hlong, !requiredAndAnyOptional_alt.
  unfold exactQList, optionalQList in *.
  rewrite qList_append, !filter_app, map_app, forallb_app, Hreq, app_nil_r.
  intros H. apply andb_true_iff in H as [H Hopt].
  apply andb_true_iff in H as [Hr1 _]. now rewrite Hr1, Hopt.
Qed.

Lemma X4_required_tokens_narrow_witness :
  optionalQList "+type:mod" = [] /\
  selects fullIndex ("stone" ++ " " ++ "+type:mod") samplePackage = true /\
  selects fullIndex "stone" samplePackage = true.
Proof.
  split; [reflexivity|]. split; [reflexivity|].
  apply (X4_required_tokens_narrow fullIndex "stone" "+type:mod" samplePackage);
    reflexivity.
Defined.

(** X5. Adding optional tokens to a query that already has an optional
    token never selects less: if [q1] is longer than one character and
    has an optional token, and the tokens of [q2] are all optional, every
    record that [q1] selects is selected by [q1 q2]. *)
Theorem X5_optional_tokens_widen (I : Index) (q1 q2 : string) (p : Package) :
  (1 < JS.length q1)%Z -> optionalQList q1 <> [] -> exactQList q2 = [] ->
  selects I q1 p = true -> selects I (q1 ++ " " ++ q2) p = true.
Proof.
  intros H1 Hopt Hreq. change (q1 ++ " " ++ q2) with (q1 ++ String " " q2).
  rewrite !selects_spec.
  assert (Hlong : (1 <? JS.length (q1 ++ String " " q2))%Z = true).
  { apply Z.ltb_lt. unfold JS.length in *. rewrite string_length_append. lia. }
  apply Z.ltb_lt in H1. rewrite H1, Hlong, !requiredAndAnyOptional_alt.
  unfold exactQList, optionalQList in *.
  rewrite qList_append, !filter_app, map_app, forallb_app, Hreq, existsb_app, isnil_app.
  destruct (filter (fun item => negb (JS.startsWith "+" item)) (qList q1)) as [|o os];
    [now elim Hopt|].
  simpl. intros H. apply andb_true_iff in H as [-> H]. simpl.
  now rewrite H.
Qed.

Lemma X5_optional_tokens_widen_witness :
  (1 < JS.length "stone")%Z /\ optionalQList "stone" <> [] /\ exactQList "craft" = [] /\
  selects fullIndex "stone" samplePackage = true /\
  selects fullIndex ("stone" ++ " " ++ "craft") samplePackage = true.
Proof.
  split; [reflexivity|]. split; [discriminate|]. split; [reflexivity|].
  split; [reflexivity|].
  apply (X5_optional_tokens_widen fullIndex "stone" "craft" samplePackage).
  - reflexivity.
  - discriminate.
  - reflexivity.
  - reflexivity.
Defined.

Lemma pageOf_spec (I : Index) (q : string) (perPage page : Z)
    (sort : SortKey) (order : SortOrder) :
  pageOf I q perPage page sort order
  = firstn (Z.to_nat perPage)
      (skipn (Z.to_nat ((page - 1) * perPage)) (sortedMatches I q sort order)).
Proof.
  unfold pageOf, search, sortedMatches, returnPage.
  destruct (buildQuery_total q) as [query Hq]. rewrite Hq. simpl.
  do 3 f_equal. apply filter_ext. intros p. unfold selects. now rewrite Hq.
Qed.

Lemma pageCountOf_spec (I : Index) (q : string) (perPage : Z)
    (sort : SortKey) (order : SortOrder) :
  pageCountOf I q perPage sort order
  = ceilDiv (Z.of_nat (List.length (filter (selects I q) (entities I)))) perPage.
Proof.
  unfold pageCountOf, search, count.
  destruct (buildQuery_total q) as [query Hq]. rewrite Hq. simpl.
  do 3 f_equal. apply filter_ext. intros p. unfold selects. now rewrite Hq.
Qed.

(** Consecutive chunks of [n] elements make up the list. *)
Lemma chunks_concat {A : Type} (n k : nat) (l : list A) :
  (List.length l <= k * n)%nat ->
  concat (map (fun i => firstn n (skipn (i * n) l)) (seq 0 k)) = l.
Proof.
  revert l. induction k as [|k IH]; intros l Hlen.
  - simpl in *. destruct l; [reflexivity | simpl in Hlen; lia].
  - rewrite <- cons_seq, <- seq_shift. cbn [map concat]. rewrite map_map.
    change (skipn (0 * n) l) with l.
    transitivity (firstn n l ++ skipn n l)%list; [|apply firstn_skipn]. f_equal.
    rewrite <- (IH (skipn n l)) by (rewrite length_skipn; lia).
    f_equal. apply map_ext. intros i. rewrite skipn_skipn.
    now replace (i * n + n)%nat with (n + i * n)%nat by lia.
Qed.

(** X6. For [perPage >= 1], every page that [search] returns has at most
    [perPage] records, and, when the index sorts without losing or adding
    records, the pages 1 to [pageCount], one after the other, are exactly
    the sorted matches. *)
Theorem X6_pages_partition_the_matches (I : Index) (q : string) (perPage : Z)
    (sort : SortKey) (order : SortOrder) :
  (1 <= perPage)%Z -> SortKeepsLength I ->
  (forall page, (Z.of_nat (List.length (pageOf I q perPage page sort order)) <= perPage)%Z) /\
  concat (map (fun i => pageOf I q perPage (Z.of_nat i) sort order)
            (seq 1 (Z.to_nat (pageCountOf I q perPage sort order))))
  = sortedMatches I q sort order.
Proof.
  intros HperPage Hsort. split.
  - intros page. rewrite pageOf_spec.
    pose proof (firstn_le_length (Z.to_nat perPage)
                  (skipn (Z.to_nat ((page - 1) * perPage)) (sortedMatches I q sort order))).
    lia.
  - rewrite pageCountOf_spec.
    set (n := List.length (filter (selects I q) (entities I))).
    destruct (SearchClaims.ceilDiv_IsCeiling (Z.of_nat n) perPage ltac:(lia)) as [Hceil Hleast].
    assert (Hnonneg : (0 <= ceilDiv (Z.of_nat n) perPage)%Z).
    { destruct (Z.lt_ge_cases (ceilDiv (Z.of_nat n) perPage) 0) as [Hneg|]; [|assumption].
      nia. }
    rewrite <- seq_shift, map_map.
    rewrite <- (chunks_concat (Z.to_nat perPage) (Z.to_nat (ceilDiv (Z.of_nat n) perPage))
                  (sortedMatches I q sort order)).
    + f_equal. apply map_ext. intros i. rewrite pageOf_spec. do 2 f_equal.
      replace ((Z.of_nat (S i) - 1) * perPage)%Z with (Z.of_nat i * perPage)%Z by lia.
      rewrite Z2Nat.inj_mul by lia. now rewrite Nat2Z.id.
    + unfold sortedMatches. rewrite Hsort. fold n.
      rewrite <- Z2Nat.inj_mul by lia. lia.
Qed.

Lemma X6_pages_partition_the_matches_witness :
  (1 <= 10)%Z /\ SortKeepsLength fullIndex /\
  map (@List.length Package)
    (map (fun i => pageOf fullIndex "stone" 10 (Z.of_nat i) sort_hotness desc)
       (seq 1 (Z.to_nat (pageCountOf fullIndex "stone" 10 sort_hotness desc))))
  = [10; 10; 5]%nat /\
  concat (map (fun i => pageOf fullIndex "stone" 10 (Z.of_nat i) sort_hotness desc)
            (seq 1 (Z.to_nat (pageCountOf fullIndex "stone" 10 sort_hotness desc))))
  = sortedMatches fullIndex "stone" sort_hotness desc.
Proof.
  split; [lia|]. split; [intros f d l; reflexivity|]. split; [reflexivity|].
  apply (X6_pages_partition_the_matches fullIndex "stone" 10 sort_hotness desc).
  - lia.
  - intros f d l. reflexivity.
Defined.

(** X7. For [perPage >= 1] and an index that sorts without losing or
    adding records, a page beyond the last one is empty, with the page
    count unchanged; and the page count is zero exactly when no record
    matches. *)
Theorem X7_page_beyond_the_last_is_empty (I : Index) (q : string) (perPage page : Z)
    (sort : SortKey) (order : SortOrder) :
  (1 <= perPage)%Z -> SortKeepsLength I ->
  (pageCountOf I q perPage sort order < page)%Z ->
  search I q perPage page sort order
  = Ok {| packages := []; pageCount := pageCountOf I q perPage sort order |} /\
  (pageCountOf I q perPage sort order = 0%Z <-> filter (selects I q) (entities I) = []).
Proof.
  intros HperPage Hsort Hpage.
  pose proof (pageOf_spec I q perPage page sort order) as Hp.
  pose proof (pageCountOf_spec I q perPage sort order) as Hc.
  set (n := List.length (filter (selects I q) (entities I))) in *.
  destruct (SearchClaims.ceilDiv_IsCeiling (Z.of_nat n) perPage ltac:(lia)) as [Hceil Hleast].
  rewrite <- Hc in Hceil, Hleast.
  split.
  - assert (Hnil : pageOf I q perPage page sort order = []).
    { rewrite Hp. rewrite skipn_all2; [now rewrite firstn_nil|].
      unfold sortedMatches. rewrite Hsort. fold n. nia. }
    revert Hnil Hc. unfold pageOf, pageCountOf, search.
    destruct (buildQuery_total q) as [query Hq]. rewrite Hq. simpl.
    intros -> _. reflexivity.
  - split.
    + intros H0. rewrite H0 in Hceil. apply length_zero_iff_nil. fold n. lia.
    + intros Hnil. subst n. rewrite Hnil in *. simpl in *.
      specialize (Hleast 0%Z ltac:(lia)). nia.
Qed.

Lemma X7_page_beyond_the_last_is_empty_witness :
  (1 <= 10)%Z /\ SortKeepsLength fullIndex /\
  (pageCountOf fullIndex "stone" 10 sort_hotness desc < 4)%Z /\
  search fullIndex "stone" 10 4 sort_hotness desc = Ok {| packages := []; pageCount := 3 |}.
Proof.
  split; [lia|]. split; [intros f d l; reflexivity|]. split; [reflexivity|].
  apply (X7_page_beyond_the_last_is_empty fullIndex "stone" 10 4 sort_hotness desc).
  - lia.
  - intros f d l. reflexivity.
  - reflexivity.
Defined.

End SearchExtras.

(** ** Further properties of the read API *)

Module ReadApiExtras.
Import Http ReadApi Notions Samples Derived ReadApiFacts ReadmeFacts.

Lemma literal_spec (lit s rest : string) :
  JS.literal lit s = Some rest <-> s = lit ++ rest.
Proof.
  revert s. induction lit as [|a lit IH]; intros s; simpl.
  - split; [now intros [= ->] | now intros ->].
  - destruct s as [|b s]; [split; discriminate|].
    destruct (Ascii.eqb_spec a b) as [->|Hab].
    + rewrite IH. split; [now intros -> | now intros [= ->]].
    + split; [discriminate | intros [= H _]; now elim Hab].
Qed.

(** X8. The regular expression of the read API accepts exactly the
    paths made of [github], one character that is no line terminator,
    [com/], a non-empty owner of letters, digits and hyphens, a slash, and
    a non-empty repository name of letters, digits, hyphens, underscores
    and dots; its groups are that owner and that name.  In particular
    neither group contains a slash. *)
Theorem X8_tooth_path_groups (tooth owner repo : string) :
  TOOTH_PATH_REGEXP_exec tooth = Some (owner, repo) <->
  exists c : ascii,
    JS.isLineTerminator c = false /\
    tooth = "github" ++ String c ("com/" ++ owner ++ "/" ++ repo) /\
    owner <> EmptyString /\ repo <> EmptyString /\
    Over ownerAlphabet owner /\ Over repoAlphabet repo.
Proof.
  unfold TOOTH_PATH_REGEXP_exec. split.
  - destruct (JS.literal "github" tooth) as [[|c afterDot]|] eqn:Hlit; try discriminate.
    apply literal_spec in Hlit. subst tooth.
    destruct (JS.isLineTerminator c) eqn:Hc; [discriminate|].
    destruct (JS.literal "com/" afterDot) as [rest|] eqn:Hcom; [|discriminate].
    apply literal_spec in Hcom. subst afterDot.
    pose proof (span_append isOwnerChar rest) as Happ.
    pose proof (span_all isOwnerChar rest) as Hall.
    destruct (JS.span isOwnerChar rest) as [k r]. simpl in Happ, Hall.
    destruct k as [|a o]; [discriminate|].
    destruct r as [|x r]; [discriminate|].
    destruct (Ascii.eqb_spec x "/") as [->|Hx].
    2:{ destruct x as [[] [] [] [] [] [] [] []]; try discriminate; now elim Hx. }
    destruct r as [|b rp]; [discriminate|].
    destruct (JS.all isRepoChar (String b rp)) eqn:Hrepo; [|discriminate].
    intros [= <- <-]. exists c. split; [exact Hc|].
    split; [now rewrite Happ|]. split; [discriminate|]. split; [discriminate|].
    split.
    + now apply (all_Over_gen isOwnerChar ownerAlphabet isOwnerChar_alphabet).
    + now apply (all_Over_gen isRepoChar repoAlphabet isRepoChar_alphabet).
  - intros (c & Hc & -> & Ho & Hr & Oo & Or).
    apply (all_Over_gen isOwnerChar ownerAlphabet isOwnerChar_alphabet) in Oo.
    apply (all_Over_gen isRepoChar repoAlphabet isRepoChar_alphabet) in Or.
    simpl. rewrite Hc. rewrite span_exact by (auto; reflexivity).
    destruct owner as [|a owner]; [now elim Ho|].
    destruct repo as [|b repo]; [now elim Hr|].
    simpl in Or. now rewrite Or.
Qed.

Section Handler.

Variable ToothMetadata : Type.
Variable E : Env ToothMetadata.

Local Abbreviation handler := (handler ToothMetadata E).
Local Abbreviation fetchReadme := (fetchReadme ToothMetadata E).
Local Abbreviation fetchReadmeForLang := (fetchReadmeForLang ToothMetadata E).
Local Abbreviation fetchToothMetadata := (fetchToothMetadata ToothMetadata E).
Local Abbreviation fetchVersionList := (fetchVersionList ToothMetadata E).
Local Abbreviation isValid := (isValidVersionString ToothMetadata E).

Lemma fetchReadme_requests (owner repo versionString : string) (langList : list string) :
  fst (fetchReadme owner repo versionString langList)
  = map (readmeUrl owner repo versionString) (map Some langList ++ [None])%list.
Proof.
  unfold ReadApi.fetchReadme, ReadApi.promiseAll. cbn [fst].
  rewrite !map_app, !map_map, concat_app. cbn [map concat].
  rewrite !fetchReadmeForLang_url. cbn [fst]. rewrite app_nil_r. f_equal.
  induction langList as [|l ls IH]; [reflexivity|].
  cbn [map concat]. rewrite IH. now rewrite fetchReadmeForLang_url.
Qed.

Lemma accepted_requests (tooth version : string) (languageCodes : list string)
    (owner repo : string) :
  TOOTH_PATH_REGEXP_exec tooth = Some (owner, repo) ->
  isValid version = true ->
  fst (handler tooth version languageCodes)
  = (toothJsonUrl owner repo version
       :: map (readmeUrl owner repo version)
            (map Some (keepFirst languageCodes) ++ [None])
       ++ [versionListUrl owner repo])%list.
Proof.
  intros Hexec Hvalid.
  rewrite (handler_accepted_requests ToothMetadata E _ _ languageCodes _ _ Hexec Hvalid).
  now rewrite fetchReadme_requests, distinct_keepFirst.
Qed.

(** X9. For a path that the regular expression accepts and a version
    that [isValidVersionString] accepts, the handler issues, in this
    order, the request of [tooth.json], one README request per distinct
    language code, the request of the default README and the request of
    the version list: three requests more than there are distinct codes,
    whichever README is used in the end. *)
Theorem X9_requests_of_an_accepted_call (tooth version : string)
    (languageCodes : list string) (owner repo : string) :
  TOOTH_PATH_REGEXP_exec tooth = Some (owner, repo) ->
  isValid version = true ->
  fst (handler tooth version languageCodes)
  = (toothJsonUrl owner repo version
       :: map (readmeUrl owner repo version)
            (map Some (keepFirst languageCodes) ++ [None])
       ++ [versionListUrl owner repo])%list /\
  List.length (fst (handler tooth version languageCodes))
  = (3 + List.length (keepFirst languageCodes))%nat.
Proof.
  intros Hexec Hvalid.
  rewrite (accepted_requests tooth version languageCodes owner repo Hexec Hvalid).
  split; [reflexivity|].
  cbn [List.length]. rewrite !length_app, !length_map, length_app, length_map.
  simpl. lia.
Qed.

(** X10. The handler issues no upstream request exactly when the path
    is rejected by the regular expression or the version by
    [isValidVersionString]; its reply is then 400 with the message that
    names the rejected parameter, the path being checked first. *)
Theorem X10_no_request_iff_rejected (tooth version : string)
    (languageCodes : list string) :
  (fst (handler tooth version languageCodes) = [] <->
   TOOTH_PATH_REGEXP_exec tooth = None \/ isValid version = false) /\
  (TOOTH_PATH_REGEXP_exec tooth = None ->
   snd (handler tooth version languageCodes)
   = {| httpStatus := 400; code := 400;
        body := Message ToothMetadata "Invalid parameter - tooth." |}) /\
  (TOOTH_PATH_REGEXP_exec tooth <> None -> isValid version = false ->
   snd (handler tooth version languageCodes)
   = {| httpStatus := 400; code := 400;
        body := Message ToothMetadata "Invalid parameter - version." |}).
Proof.
  split; [|split].
  - destruct (TOOTH_PATH_REGEXP_exec tooth) as [[owner repo]|] eqn:Hexec.
    + destruct (isValid version) eqn:Hvalid.
      * rewrite (accepted_requests tooth version languageCodes owner repo Hexec Hvalid).
        split; [discriminate | intros [H|H]; discriminate].
      * rewrite (handler_rejected_version ToothMetadata E _ _ languageCodes _ _ Hexec Hvalid).
        split; [now right | reflexivity].
    + rewrite (handler_rejected_tooth ToothMetadata E _ _ languageCodes Hexec).
      split; [now left | reflexivity].
  - intros Hexec. now rewrite (handler_rejected_tooth ToothMetadata E _ _ languageCodes Hexec).
  - intros Hexec Hvalid. destruct (TOOTH_PATH_REGEXP_exec tooth) as [[owner repo]|] eqn:He;
      [|now elim Hexec].
    now rewrite (handler_rejected_version ToothMetadata E _ _ languageCodes _ _ He Hvalid).
Qed.

End Handler.

Lemma X9_requests_of_an_accepted_call_witness :
  TOOTH_PATH_REGEXP_exec "github.com/futrime/sample" = Some ("futrime", "sample") /\
  isValidVersionString unit noReadmeEnv "1.0.0" = true /\
  fst (handler unit noReadmeEnv "github.com/futrime/sample" "1.0.0" ["zh"; "en"; "zh"])
  = ["https://raw.githubusercontent.com/futrime/sample/v1.0.0/tooth.json";
     "https://raw.githubusercontent.com/futrime/sample/v1.0.0/README.zh.md";
     "https://raw.githubusercontent.com/futrime/sample/v1.0.0/README.en.md";
     "https://raw.githubusercontent.com/futrime/sample/v1.0.0/README.md";
     "https://goproxy.io/github.com/futrime/sample/@v/list"].
Proof.
  split; [reflexivity|]. split; [reflexivity|].
  destruct (X9_requests_of_an_accepted_call unit noReadmeEnv "github.com/futrime/sample"
              "1.0.0" ["zh"; "en"; "zh"] "futrime" "sample" eq_refl eq_refl) as [Hreq _].
  rewrite Hreq. reflexivity.
Defined.

End ReadApiExtras.

Module ReadApiErrorExtras.
Import Http ReadApi Notions Samples Derived ReadApiFacts ReadmeFacts.

Lemma split_line (s : string) : isLine s = true -> JS.split "010" s = [s].
Proof.
  unfold isLine. induction s as [|a s IH]; simpl; [reflexivity|].
  intros H. apply andb_true_iff in H as [Ha Hs].
  apply negb_true_iff in Ha. rewrite Ha, (IH Hs). reflexivity.
Qed.

Lemma split_unlines (tags : list string) (rest : string) :
  Forall (fun t => isLine t = true) tags -> isLine rest = true ->
  JS.split "010" (unlines tags ++ rest) = (tags ++ [rest])%list.
Proof.
  intros Htags Hrest. induction Htags as [|t ts Ht _ IH]; simpl.
  - now apply split_line.
  - replace ((t ++ String "010" (unlines ts)) ++ rest)
      with (t ++ String "010" (unlines ts ++ rest)).
    + now rewrite SearchExtras.split_append, (split_line t Ht), IH.
    + clear. induction t as [|a t IH]; simpl; [reflexivity|]. now rewrite IH.
Qed.

Lemma stripSuffix_append (lit x : string) :
  lit <> EmptyString -> JS.stripSuffix lit (x ++ lit) = x.
Proof.
  intros Hlit. induction x as [|a x IH].
  - destruct lit as [|c lit]; [now elim Hlit|].
    cbn [append JS.stripSuffix]. now rewrite String.eqb_refl.
  - change (String a x ++ lit) with (String a (x ++ lit)).
    cbn [JS.stripSuffix]. rewrite IH.
    destruct (String.eqb_spec (String a (x ++ lit)) lit) as [Heq|]; [|reflexivity].
    apply (f_equal String.length) in Heq. simpl in Heq.
    rewrite SearchExtras.string_length_append in Heq. lia.
Qed.

Lemma stripSuffix_no_plus (s : string) :
  JS.all (fun c => negb (Ascii.eqb c "+")) s = true ->
  JS.stripSuffix "+incompatible" s = s.
Proof.
  induction s as [|a s IH]; [reflexivity|].
  intros H. pose proof H as Hall. simpl in H. apply andb_true_iff in H as [Ha Hs].
  cbn [JS.stripSuffix]. rewrite (IH Hs).
  destruct (String.eqb_spec (String a s) "+incompatible") as [Heq|]; [|reflexivity].
  injection Heq as -> _. discriminate.
Qed.

Section Handler.

Variable ToothMetadata : Type.
Variable E : Env ToothMetadata.

Local Abbreviation handler := (handler ToothMetadata E).
Local Abbreviation fetchReadme := (fetchReadme ToothMetadata E).
Local Abbreviation fetchReadmeForLang := (fetchReadmeForLang ToothMetadata E).
Local Abbreviation fetchToothMetadata := (fetchToothMetadata ToothMetadata E).
Local Abbreviation fetchVersionList := (fetchVersionList ToothMetadata E).
Local Abbreviation isValid := (isValidVersionString ToothMetadata E).
Local Abbreviation raceOf := (raceOf ToothMetadata E).

(** X11. When the version list is served, [fetchVersionList] returns
    one version per line that ends with a line feed, in order, each
    without its leading [v] and without a trailing [+incompatible];
    whatever follows the last line feed is dropped, also when it is not
    empty.  A tag [v<x>+incompatible] gives [<x>] back, and so does a tag
    [v<x>] when [<x>] has no plus sign. *)
Theorem X11_version_list_lines (owner repo : string) (tags : list string) (rest : string)
    (response : Response) :
  Forall (fun t => isLine t = true) tags -> isLine rest = true ->
  fetch ToothMetadata E (versionListUrl owner repo) = Ok response ->
  ok response = true ->
  text response = unlines tags ++ rest ->
  snd (fetchVersionList owner repo)
  = Ok (map (fun tag => JS.stripSuffix "+incompatible" (JS.stripLeadingV tag)) tags) /\
  (forall x, JS.stripSuffix "+incompatible" (JS.stripLeadingV ("v" ++ x ++ "+incompatible")) = x) /\
  (forall x, JS.all (fun c => negb (Ascii.eqb c "+")) x = true ->
             JS.stripSuffix "+incompatible" (JS.stripLeadingV ("v" ++ x)) = x).
Proof.
  intros Htags Hrest Hfetch Hok Htext. split; [|split].
  - unfold ReadApi.fetchVersionList. cbn [snd].
    change ("https://goproxy.io/github.com/" ++ owner ++ "/" ++ repo ++ "/@v/list")
      with (versionListUrl owner repo).
    rewrite Hfetch. cbn [bind]. rewrite Hok. cbn [negb].
    rewrite Htext, (split_unlines tags rest Htags Hrest).
    unfold JS.dropLast. now rewrite removelast_last.
  - intros x. simpl. apply stripSuffix_append. discriminate.
  - intros x Hx. simpl. now apply stripSuffix_no_plus.
Qed.

(** The reply of the handler when one of its three fetches rejects. *)
Lemma handler_rejected_reply (tooth version : string) (languageCodes : list string)
    (owner repo : string) (e : Error) (es : list Error) :
  TOOTH_PATH_REGEXP_exec tooth = Some (owner, repo) ->
  isValid version = true ->
  (rejections (snd (fetchToothMetadata owner repo version))
     ++ rejections (snd (fetchReadme owner repo version (JS.distinct [] languageCodes)))
     ++ rejections (snd (fetchVersionList owner repo)))%list = e :: es ->
  snd (handler tooth version languageCodes)
  = match raceOf e es with
    | HttpError statusCode message =>
        {| httpStatus := statusCode; code := statusCode;
           body := Message ToothMetadata message |}
    | OtherError =>
        {| httpStatus := 500; code := 500;
           body := Message ToothMetadata "Internal server error." |}
    end.
Proof.
  intros Hexec Hvalid. unfold ReadApi.handler, ReadApi.tryBlock. rewrite Hexec, Hvalid.
  change (negb true) with false. cbv iota.
  destruct (fetchToothMetadata owner repo version) as [u1 r1].
  destruct (fetchReadme owner repo version (JS.distinct [] languageCodes)) as [u2 r2].
  destruct (fetchVersionList owner repo) as [u3 r3]. cbn [snd].
  intros Hrej. destruct r1 as [m|e1], r2 as [r|e2], r3 as [l|e3];
    cbn [rejections app] in Hrej; try discriminate;
    cbn [rejections app]; injection Hrej as -> ->; reflexivity.
Qed.

Lemma raceOf_single (e : Error) : raceOf e [] = e.
Proof. unfold ReadApi.raceOf. simpl. now destruct (firstRejection ToothMetadata E mod 1)%nat as [|[|n]]. Qed.

Lemma raceOf_In (e : Error) (es : list Error) : In (raceOf e es) (e :: es).
Proof.
  unfold ReadApi.raceOf. apply nth_In. apply Nat.mod_upper_bound. discriminate.
Qed.

(** X12. Upstream status passthrough: when the request of [tooth.json]
    is answered with a failure status while the README and the version
    list are fetched, the handler replies with the status that
    [httpErrors] gives to that upstream status and with the upstream body
    in its message. *)
Theorem X12_tooth_json_status_passthrough (tooth version : string)
    (languageCodes : list string) (owner repo : string) (response : Response)
    (readme : option string) (versionList : list string) :
  TOOTH_PATH_REGEXP_exec tooth = Some (owner, repo) ->
  isValid version = true ->
  fetch ToothMetadata E (toothJsonUrl owner repo version) = Ok response ->
  ok response = false ->
  snd (fetchReadme owner repo version (JS.distinct [] languageCodes)) = Ok readme ->
  snd (fetchVersionList owner repo) = Ok versionList ->
  snd (handler tooth version languageCodes)
  = {| httpStatus := httpErrorStatus ToothMetadata E (status response);
       code := httpErrorStatus ToothMetadata E (status response);
       body := Message ToothMetadata ("Failed to fetch tooth.json: " ++ text response) |}.
Proof.
  intros Hexec Hvalid Hfetch Hok Hreadme Hlist.
  rewrite (handler_rejected_reply tooth version languageCodes owner repo
             (HttpError (httpErrorStatus ToothMetadata E (status response))
                ("Failed to fetch tooth.json: " ++ text response)) [] Hexec Hvalid).
  - now rewrite raceOf_single.
  - rewrite Hreadme, Hlist. unfold ReadApi.fetchToothMetadata. cbn [snd].
    change ("https://raw.githubusercontent.com/" ++ owner ++ "/" ++ repo ++ "/v"
              ++ version ++ "/tooth.json") with (toothJsonUrl owner repo version).
    rewrite Hfetch. cbn [bind]. rewrite Hok. reflexivity.
Qed.

(** The rejections of the README fetches are rejections of [fetch]. *)
Lemma readme_rejections (owner repo versionString : string) (langs : list (option string))
    (e : Error) :
  In e (concat (map (fun p : Async (option string) => rejections (snd p))
                  (map (fetchReadmeForLang owner repo versionString) langs))) <->
  exists lang, In lang langs
               /\ fetch ToothMetadata E (readmeUrl owner repo versionString lang) = Throw e.
Proof.
  induction langs as [|l ls IH]; cbn [map concat].
  - split; [intros [] | intros (lang & [] & _)].
  - rewrite in_app_iff, IH, fetchReadmeForLang_url. cbn [snd].
    destruct (fetch ToothMetadata E (readmeUrl owner repo versionString l)) as [r|e'] eqn:Hf.
    + cbn [bind]. destruct (negb (ok r)); cbn [rejections]; split.
      * intros [[]|(lang & Hin & Hl)]. exists lang. split; [now right|exact Hl].
      * intros (lang & [<-|Hin] & Hl); [congruence|]. right. now exists lang.
      * intros [[]|(lang & Hin & Hl)]. exists lang. split; [now right|exact Hl].
      * intros (lang & [<-|Hin] & Hl); [congruence|]. right. now exists lang.
    + cbn [bind rejections]. split.
      * intros [[<-|[]]|(lang & Hin & Hl)]; [exists l; split; [now left|exact Hf]|].
        exists lang. split; [now right|exact Hl].
      * intros (lang & [<-|Hin] & Hl); [left; left; congruence|]. right. now exists lang.
Qed.

Lemma fetchReadme_outcome (owner repo versionString : string) (langList : list string) :
  snd (fetchReadme owner repo versionString langList)
  = match concat (map (fun p : Async (option string) => rejections (snd p))
                    (map (fetchReadmeForLang owner repo versionString)
                       (map Some langList ++ [None])%list)) with
    | [] => Ok (firstNonNull (values (map snd
                  (map (fetchReadmeForLang owner repo versionString)
                     (map Some langList ++ [None])%list))))
    | e1 :: es => Throw (raceOf e1 es)
    end.
Proof.
  rewrite fetchReadme_snd. unfold ReadApi.promiseAll. cbn [snd].
  rewrite (map_app (fetchReadmeForLang owner repo versionString)), map_map. cbn [map].
  destruct (concat _); reflexivity.
Qed.

(** X13. A missing README is no error, but a README request that is
    rejected fails the whole request: when the rejections of [fetch] are
    not [httpErrors] errors and the tooth metadata and the version list
    are fetched, the handler replies 500 with the fixed message, whatever
    the other README requests give. *)
Theorem X13_rejected_readme_request_fails (tooth version : string)
    (languageCodes : list string) (owner repo : string) (lang : option string)
    (e : Error) (meta : ToothMetadata) (versionList : list string) :
  TOOTH_PATH_REGEXP_exec tooth = Some (owner, repo) ->
  isValid version = true ->
  (forall url e', fetch ToothMetadata E url = Throw e' -> e' = OtherError) ->
  In lang (map Some (JS.distinct [] languageCodes) ++ [None])%list ->
  fetch ToothMetadata E (readmeUrl owner repo version lang) = Throw e ->
  snd (fetchToothMetadata owner repo version) = Ok meta ->
  snd (fetchVersionList owner repo) = Ok versionList ->
  snd (handler tooth version languageCodes)
  = {| httpStatus := 500; code := 500;
       body := Message ToothMetadata "Internal server error." |}.
Proof.
  intros Hexec Hvalid Hother Hlang Hthrow Hmeta Hlist.
  set (langs := (map Some (JS.distinct [] languageCodes) ++ [None])%list) in *.
  pose proof (readme_rejections owner repo version langs) as Hrej.
  pose proof (fetchReadme_outcome owner repo version (JS.distinct [] languageCodes)) as Hsnd.
  fold langs in Hsnd.
  destruct (concat (map (fun p : Async (option string) => rejections (snd p))
                      (map (fetchReadmeForLang owner repo version) langs)))
    as [|e1 es] eqn:Hconcat.
  - exfalso. assert (Hin : In e []); [|exact Hin].
    apply Hrej. exists lang. split; [exact Hlang | exact Hthrow].
  - rewrite (handler_rejected_reply tooth version languageCodes owner repo
               (raceOf e1 es) [] Hexec Hvalid).
    + rewrite raceOf_single.
      destruct (raceOf_In e1 es) as [Heq|Hin].
      * assert (He1 : e1 = OtherError).
        { destruct (proj1 (Hrej e1) (or_introl eq_refl)) as (l & _ & Hl).
          exact (Hother _ _ Hl). }
        rewrite <- Heq, He1. reflexivity.
      * assert (Hr : raceOf e1 es = OtherError).
        { destruct (proj1 (Hrej (raceOf e1 es)) (or_intror Hin)) as (l & _ & Hl).
          exact (Hother _ _ Hl). }
        rewrite Hr. reflexivity.
    + rewrite Hmeta, Hlist, Hsnd. reflexivity.
Qed.

End Handler.

Lemma X11_version_list_lines_witness :
  Forall (fun t => isLine t = true) ["v1.0.0"; "v2.0.0+incompatible"] /\
  isLine "v3.0.0" = true /\
  snd (fetchVersionList unit unterminatedListEnv "futrime" "sample")
  = Ok ["1.0.0"; "2.0.0"].
Proof.
  split; [repeat constructor|]. split; [reflexivity|].
  refine (proj1 (X11_version_list_lines unit unterminatedListEnv "futrime" "sample"
                   ["v1.0.0"; "v2.0.0+incompatible"] "v3.0.0" (served unterminatedList)
                   _ eq_refl eq_refl eq_refl eq_refl)).
  repeat constructor.
Defined.

Lemma X12_tooth_json_status_passthrough_witness :
  TOOTH_PATH_REGEXP_exec "github.com/futrime/sample" = Some ("futrime", "sample") /\
  isValidVersionString unit noToothEnv "1.0.0" = true /\
  snd (handler unit noToothEnv "github.com/futrime/sample" "1.0.0" ["en"])
  = {| httpStatus := 404; code := 404;
       body := Message unit "Failed to fetch tooth.json: 404: Not Found" |}.
Proof.
  split; [reflexivity|]. split; [reflexivity|].
  apply (X12_tooth_json_status_passthrough unit noToothEnv "github.com/futrime/sample"
           "1.0.0" ["en"] "futrime" "sample" notFound None ["1.0.0"]); reflexivity.
Defined.

Lemma X13_rejected_readme_request_fails_witness :
  TOOTH_PATH_REGEXP_exec "github.com/futrime/sample" = Some ("futrime", "sample") /\
  isValidVersionString unit brokenReadmeEnv "1.0.0" = true /\
  snd (handler unit brokenReadmeEnv "github.com/futrime/sample" "1.0.0" ["en"])
  = {| httpStatus := 500; code := 500; body := Message unit "Internal server error." |}.
Proof.
  split; [reflexivity|]. split; [reflexivity|].
  apply (X13_rejected_readme_request_fails unit brokenReadmeEnv "github.com/futrime/sample"
           "1.0.0" ["en"] "futrime" "sample" None OtherError tt ["1.0.0"]);
    try reflexivity.
  - intros url e'. simpl. destruct (String.eqb url _); [now intros [= <-] | discriminate].
  - right. now left.
Defined.

End ReadApiErrorExtras.

(** ** Further properties of the fetchers *)

Module LeviLaminaExtras.
Import Http Notions Samples Derived NormalizerFacts LeviLaminaFetcher.

Lemma lower_of_upper (a : ascii) :
  JS.isUpper a = true ->
  JS.isUpper (ascii_of_nat (JS.code a + 32)) = false /\
  JS.isLower (ascii_of_nat (JS.code a + 32)) = true.
Proof.
  destruct a as [[] [] [] [] [] [] [] []]; vm_compute; intros H;
    try discriminate H; split; reflexivity.
Qed.

Lemma upper_code_bound (a : ascii) : JS.isUpper a = true -> (JS.code a + 32 < 256)%nat.
Proof.
  unfold JS.isUpper, JS.inRange. intros H. apply andb_true_iff in H as [_ H].
  apply Nat.leb_le in H. lia.
Qed.

Lemma bang_not_upper : JS.isUpper "!" = false.
Proof. reflexivity. Qed.

(** X14. The goproxy escaping of a name contains no uppercase letter,
    leaves a name without uppercase letters as it is, and keeps names
    without exclamation mark apart: two such names with the same escaped
    form are equal. *)
Theorem X14_goproxy_escaping (s : string) :
  JS.all (fun c => negb (JS.isUpper c)) (escapeForGoProxy s) = true /\
  (JS.all (fun c => negb (JS.isUpper c)) s = true -> escapeForGoProxy s = s) /\
  (forall s',
      JS.all (fun c => negb (Ascii.eqb c "!")) s = true ->
      JS.all (fun c => negb (Ascii.eqb c "!")) s' = true ->
      escapeForGoProxy s = escapeForGoProxy s' -> s = s').
Proof.
  split; [|split].
  - induction s as [|a s IH]; [reflexivity|]. cbn [escapeForGoProxy].
    destruct (JS.isUpper a) eqn:Ha.
    + destruct (lower_of_upper a Ha) as [Hnot _]. cbn [JS.all].
      now rewrite bang_not_upper, Hnot, IH.
    + cbn [JS.all]. now rewrite Ha, IH.
  - induction s as [|a s IH]; [reflexivity|]. cbn [JS.all escapeForGoProxy].
    intros H. apply andb_true_iff in H as [Ha Hs]. apply negb_true_iff in Ha.
    now rewrite Ha, (IH Hs).
  - induction s as [|a s IH]; intros [|b s'] Hs Hs' Heq; cbn [escapeForGoProxy] in Heq.
    + reflexivity.
    + destruct (JS.isUpper b); discriminate.
    + destruct (JS.isUpper a); discriminate.
    + cbn [JS.all] in Hs, Hs'.
      apply andb_true_iff in Hs as [Ha Hs], Hs' as [Hb Hs'].
      destruct (JS.isUpper a) eqn:Ua, (JS.isUpper b) eqn:Ub.
      * injection Heq as Hl Ht.
        assert (Hab : a = b).
        { apply (f_equal nat_of_ascii) in Hl.
          rewrite !nat_ascii_embedding in Hl by now apply upper_code_bound.
          unfold JS.code in Hl.
          rewrite <- (ascii_nat_embedding a), <- (ascii_nat_embedding b).
          f_equal. lia. }
        subst b. f_equal. now apply IH.
      * injection Heq as Hb' _. subst b. discriminate.
      * injection Heq as Ha' _. subst a. discriminate.
      * injection Heq as -> Ht. f_equal. now apply IH.
Qed.

Section Fetcher.

Variable after : string -> string -> bool.
Variable E : Env.

Local Abbreviation fetchPackage := (fetchPackage after E).
Local Abbreviation fetch_ := (fetch_ after E).






End Fetcher.


End LeviLaminaExtras.

Module LeviLaminaPackageExtras.
Import Http Notions Samples Derived NormalizerFacts LeviLaminaFetcher.

Lemma span_whole (p : ascii -> bool) (s : string) :
  JS.all p s = true -> JS.span p s = (s, EmptyString).
Proof.
  induction s as [|a s IH]; simpl; [reflexivity|].
  intros H. apply andb_true_iff in H as [Ha Hs]. now rewrite Ha, (IH Hs).
Qed.

Lemma isBlobOwnerChar_alphabet (c : ascii) : isBlobOwnerChar c = occurs c ownerAlphabet.
Proof. destruct c as [[] [] [] [] [] [] [] []]; vm_compute; reflexivity. Qed.

Lemma isBlobRepoChar_alphabet (c : ascii) : isBlobRepoChar c = occurs c repoAlphabet.
Proof. destruct c as [[] [] [] [] [] [] [] []]; vm_compute; reflexivity. Qed.

Lemma removeAll_no_plus (s : string) :
  JS.all (fun c => negb (Ascii.eqb c "+")) s = true ->
  JS.removeAll_from "+incompatible" 0 s = s.
Proof.
  induction s as [|a s IH]; [reflexivity|].
  cbn [JS.all]. intros H. apply andb_true_iff in H as [Ha Hs].
  cbn [JS.removeAll_from String.prefix].
  destruct (ascii_dec "+" a) as [<-|_]; [discriminate|]. now rewrite (IH Hs).
Qed.

Lemma removeAll_incompatible (x : string) :
  JS.all (fun c => negb (Ascii.eqb c "+")) x = true ->
  JS.removeAll "+incompatible" (x ++ "+incompatible") = x.
Proof.
  unfold JS.removeAll. induction x as [|a x IH]; [reflexivity|].
  cbn [JS.all]. intros H. apply andb_true_iff in H as [Ha Hs].
  change (String a x ++ "+incompatible") with (String a (x ++ "+incompatible")).
  cbn [JS.removeAll_from String.prefix].
  destruct (ascii_dec "+" a) as [<-|_]; [discriminate|]. now rewrite (IH Hs).
Qed.

Lemma keepFirst_In (l : list string) (x : string) : In x (keepFirst l) <-> In x l.
Proof.
  induction l as [|y l IH]; cbn [keepFirst]; [tauto|].
  cbn [In]. rewrite filter_In, IH.
  destruct (String.eqb_spec x y) as [->|Hxy]; [tauto|].
  split; [tauto|]. intros [H|H]; [now left|]. right. split; [exact H|reflexivity].
Qed.

Lemma distinct_In (l : list string) (x : string) : In x (JS.distinct [] l) <-> In x l.
Proof. rewrite ReadmeFacts.distinct_keepFirst. apply keepFirst_In. Qed.

Section Fetcher.

Variable after : string -> string -> bool.
Variable E : Env.

Local Abbreviation fetchPackage := (fetchPackage after E).
Local Abbreviation fetch_ := (fetch_ after E).

(** The package that [fetchPackage] builds before normalizing it. *)
Lemma fetchPackage_raw (repo : RepoId) (p : Package) :
  snd (fetchPackage repo) = Ok (Some p) ->
  exists repository cs tooth vs,
    getRepo E repo = Ok repository /\
    listRepoContributors E repo = Ok cs /\
    fetchTooth E repo "HEAD" = Ok (Some tooth) /\
    snd (fetchVersions E repo) = Ok vs /\
    p = normalizePackage after
          {| identifier := "github.com/" ++ GitHub.owner repo ++ "/" ++ GitHub.repo repo;
             name := info_name tooth;
             description := info_description tooth;
             author := GitHub.owner repo;
             tags := ("platform:levilamina" :: info_tags tooth
                       ++ match GitHub.topics repository with
                          | Some t => t
                          | None => []
                          end)%list;
             avatarUrl := avatarUrlOf repo tooth;
             projectUrl := "https://github.com/" ++ GitHub.owner repo ++ "/"
                             ++ GitHub.repo repo;
             hotness := GitHub.stargazers_count repository;
             updated := EmptyString;
             contributors :=
               map (fun contributor =>
                      {| username := match GitHub.login contributor with
                                     | Some l => l
                                     | None => EmptyString
                                     end;
                         contributions := GitHub.contributions contributor |}) cs;
             versions := vs |}.
Proof.
  unfold LeviLaminaFetcher.fetchPackage.
  destruct (fetchVersions E repo) as [log [vs|e]]; cbn [snd].
  2:{ destruct (getRepo E repo), (listRepoContributors E repo), (fetchTooth E repo "HEAD");
      discriminate. }
  destruct (getRepo E repo) as [repository|]; [|discriminate].
  destruct (listRepoContributors E repo) as [cs|]; [|discriminate].
  destruct (fetchTooth E repo "HEAD") as [[tooth|]|]; try discriminate.
  destruct (Z.of_nat (List.length vs) =? 0)%Z; [discriminate|].
  intros [= <-]. exists repository, cs, tooth, vs. repeat split; reflexivity.
Qed.

Lemma versionLoop_all (P : Version -> Prop) (repo : RepoId) (tags : list string)
    (acc : list Version) :
  (forall tag v, In tag tags -> tryVersion E repo tag = Ok (Some v) -> P v) ->
  Forall P acc -> Forall P (snd (versionLoop E repo tags acc)).
Proof.
  revert acc. induction tags as [|tag tags IH]; intros acc Htry Hacc; cbn [versionLoop].
  - exact Hacc.
  - assert (Hrest : forall t v, In t tags -> tryVersion E repo t = Ok (Some v) -> P v)
      by (intros t v Ht; apply Htry; now right).
    destruct (tryVersion E repo tag) as [[w|]|] eqn:Hw.
    + apply IH; [exact Hrest|]. apply Forall_app. split; [exact Hacc|].
      constructor; [|constructor]. apply (Htry tag w); [now left|exact Hw].
    + now apply IH.
    + specialize (IH acc Hrest Hacc).
      destruct (versionLoop E repo tags acc) as [log vs]. exact IH.
Qed.

Lemma tryVersion_fields (repo : RepoId) (tag : string) (v : Version) :
  tryVersion E repo tag = Ok (Some v) ->
  version v = JS.removeAll "+incompatible" (JS.stripLeadingV tag) /\
  source v = github /\ packageManager v = lip /\
  exists requirement, platformVersionRequirement v = Some requirement.
Proof.
  unfold tryVersion.
  destruct (fetchGoProxyVersion E repo tag) as [[g|]|];
    destruct (fetchTooth E repo
                ("v" ++ JS.removeAll "+incompatible" (JS.stripLeadingV tag))) as [[t|]|];
    try discriminate.
  destruct (toISOString E (Time g)); cbn [bind]; [|discriminate].
  intros [= <-]. cbn. repeat split. eexists. reflexivity.
Qed.

(** The version list that [fetchVersions] resolves to is built from the
    lines of the goproxy list of the candidate. *)
Lemma fetchVersions_from_list (repo : RepoId) (vs : list Version) :
  snd (fetchVersions E repo) = Ok vs ->
  exists response,
    fetch E (goproxyListUrl repo) = Ok response /\
    vs = snd (versionLoop E repo (goproxyLines (text response)) []).
Proof.
  unfold fetchVersions, goproxyListUrl, goproxyLines.
  destruct (fetch E _) as [response|]; cbn [snd]; [|discriminate].
  destruct (versionLoop E repo _ []) as [log ws] eqn:Hloop. cbn [snd].
  intros [= <-]. exists response. split; [reflexivity|]. now rewrite Hloop.
Qed.

(** The release metadata behind a version that [tryVersion] makes. *)
Lemma tryVersion_release (repo : RepoId) (tag : string) (v : Version) :
  tryVersion E repo tag = Ok (Some v) ->
  exists goproxy,
    fetchGoProxyVersion E repo tag = Ok (Some goproxy) /\
    toISOString E (Time goproxy) = Ok (releasedAt v).
Proof.
  unfold tryVersion.
  destruct (fetchGoProxyVersion E repo tag) as [[g|]|];
    destruct (fetchTooth E repo
                ("v" ++ JS.removeAll "+incompatible" (JS.stripLeadingV tag))) as [[t|]|];
    try discriminate.
  destruct (toISOString E (Time g)) as [iso|] eqn:Hiso; cbn [bind]; [|discriminate].
  intros [= <-]. exists g. split; [reflexivity | exact Hiso].
Qed.

(** The scheme test of the fetcher, read on the address. *)
Lemma isSchemeChar_alphabet (c : ascii) : isSchemeChar c = occurs c Readings.schemeAlphabet.
Proof. destruct c as [[] [] [] [] [] [] [] []]; vm_compute; reflexivity. Qed.

Lemma isAbsoluteUrl_reading (u : string) :
  isAbsoluteUrl u = true <-> Readings.StartsWithSlashOrScheme u.
Proof.
  unfold isAbsoluteUrl, Readings.StartsWithSlashOrScheme. split.
  - intros H. apply orb_true_iff in H as [H|H].
    + left. destruct u as [|c rest]; [discriminate|]. cbn in H.
      apply Ascii.eqb_eq in H. subst c. now exists rest.
    + right.
      pose proof (span_append isSchemeChar u) as Happ.
      pose proof (span_all isSchemeChar u) as Hall.
      destruct (JS.span isSchemeChar u) as [k r]; simpl in *.
      destruct k as [|a k]; [discriminate|].
      destruct r as [|c r]; [discriminate|].
      destruct (Ascii.eqb_spec c ":") as [->|Hc].
      2:{ destruct c as [[] [] [] [] [] [] [] []]; try discriminate; now elim Hc. }
      destruct r as [|d r]; [discriminate|].
      destruct (Ascii.eqb_spec d "/") as [->|Hd].
      2:{ destruct d as [[] [] [] [] [] [] [] []]; try discriminate; now elim Hd. }
      exists (String a k), r. split; [discriminate|].
      split; [|exact Happ].
      now apply (all_Over_gen isSchemeChar Readings.schemeAlphabet isSchemeChar_alphabet).
  - intros [(rest & ->)|(scheme & rest & Hne & Hover & ->)]; [reflexivity|].
    apply (all_Over_gen isSchemeChar Readings.schemeAlphabet isSchemeChar_alphabet) in Hover.
    rewrite span_exact by (auto; reflexivity).
    destruct scheme as [|a scheme]; [now elim Hne|]. apply orb_true_r.
Qed.

Lemma literal_not_prefix (lit s : string) :
  String.prefix lit s = false -> JS.literal lit s = None.
Proof.
  revert s. induction lit as [|a lit IH]; intros [|b s]; cbn [String.prefix JS.literal];
    try discriminate; try reflexivity.
  destruct (ascii_dec a b) as [->|Hab].
  - rewrite Ascii.eqb_refl. apply IH.
  - intros _. apply Ascii.eqb_neq in Hab. now rewrite Hab.
Qed.

(** X16. Every version of a package that the LeviLamina fetcher yields
    comes from a line of the goproxy version list of the candidate that
    the package was resolved from: its name is that line without its
    leading [v] and with every [+incompatible] removed, and its release
    time is the converted time of the goproxy release metadata of that
    line.  It has the source [github], the package manager [lip] and a
    platform requirement (possibly the empty string).  A line [v<x>] or
    [v<x>+incompatible] names the version [<x>] when [<x>] has no plus
    sign. *)
Theorem X16_leviLamina_versions_come_from_goproxy (p : Package) (v : Version) :
  In p (snd fetch_) -> In v (versions p) ->
  (exists repo response line goproxy,
      In repo (searchForRepo E query) /\
      snd (fetchPackage repo) = Ok (Some p) /\
      fetch E (goproxyListUrl repo) = Ok response /\
      In line (goproxyLines (text response)) /\
      tryVersion E repo line = Ok (Some v) /\
      version v = JS.removeAll "+incompatible" (JS.stripLeadingV line) /\
      fetchGoProxyVersion E repo line = Ok (Some goproxy) /\
      toISOString E (Time goproxy) = Ok (releasedAt v)) /\
  source v = github /\ packageManager v = lip /\
  (exists requirement, platformVersionRequirement v = Some requirement) /\
  (forall x, JS.all (fun c => negb (Ascii.eqb c "+")) x = true ->
     JS.removeAll "+incompatible" (JS.stripLeadingV ("v" ++ x)) = x /\
     JS.removeAll "+incompatible" (JS.stripLeadingV ("v" ++ x ++ "+incompatible")) = x).
Proof.
  intros Hp Hv.
  apply LeviLaminaFacts.leviLamina_fetchLoop_In in Hp as (repo & Hrepo & Hp).
  apply LeviLaminaFacts.leviLamina_fetchOne_yields in Hp as [Hp _].
  pose proof Hp as Hraw.
  apply fetchPackage_raw in Hraw as (repository & cs & tooth & vs & _ & _ & _ & Hvs & Hnorm).
  rewrite Hnorm in Hv.
  apply normalizePackage_versions_In in Hv. cbn [versions] in Hv.
  apply fetchVersions_from_list in Hvs as (response & Hfetch & Hloop).
  assert (Hall : Forall (fun v =>
                   exists line, In line (goproxyLines (text response)) /\
                                tryVersion E repo line = Ok (Some v)) vs).
  { rewrite Hloop. apply versionLoop_all; [|constructor].
    intros tag w Hin Htry. now exists tag. }
  rewrite Forall_forall in Hall. destruct (Hall v Hv) as (line & Hline & Htry).
  destruct (tryVersion_fields repo line v Htry) as (H1 & H2 & H3 & H4).
  destruct (tryVersion_release repo line v Htry) as (goproxy & Hg & Hiso).
  split.
  { exists repo, response, line, goproxy. repeat (split; [assumption|]). assumption. }
  repeat (split; [assumption|]).
  intros x Hx. split.
  - cbn [append JS.stripLeadingV]. now apply removeAll_no_plus.
  - cbn [append JS.stripLeadingV]. now apply removeAll_incompatible.
Qed.

(** X17. The avatar address of a package that the LeviLamina fetcher
    resolves is computed from the manifest at [HEAD].  Without an address
    in the manifest it is the owner's avatar.  An address that starts
    neither with a slash nor with a scheme, a colon and a slash is
    resolved against the repository's [HEAD] on the raw-content host.  An
    address [https://github.com/<o>/<r>/blob/<path>] is rewritten to
    [https://raw.githubusercontent.com/<o>/<r>/<path>].  Every other
    address that does not start with [https://github.com/] is emitted as
    it is; this includes an address that starts with a slash, so the
    emitted address need not be absolute. *)
Theorem X17_leviLamina_avatar_address (repo : RepoId) (p : Package) :
  snd (fetchPackage repo) = Ok (Some p) ->
  exists tooth,
    fetchTooth E repo "HEAD" = Ok (Some tooth) /\
    (info_avatar_url tooth = None ->
     avatarUrl p = "https://avatars.githubusercontent.com/" ++ GitHub.owner repo) /\
    (forall u, info_avatar_url tooth = Some u -> ~ Readings.StartsWithSlashOrScheme u ->
     avatarUrl p = "https://raw.githubusercontent.com/" ++ GitHub.owner repo ++ "/"
                     ++ GitHub.repo repo ++ "/HEAD/" ++ u) /\
    (forall o r path,
        info_avatar_url tooth
        = Some ("https://github.com/" ++ o ++ "/" ++ r ++ "/blob/" ++ path) ->
        o <> EmptyString -> r <> EmptyString -> path <> EmptyString ->
        Over ownerAlphabet o -> Over repoAlphabet r ->
        JS.all (fun c => negb (JS.isLineTerminator c)) path = true ->
        avatarUrl p = "https://raw.githubusercontent.com/" ++ o ++ "/" ++ r ++ "/" ++ path) /\
    (forall u, info_avatar_url tooth = Some u -> Readings.StartsWithSlashOrScheme u ->
     String.prefix "https://github.com/" u = false ->
     avatarUrl p = u) /\
    (forall rest, info_avatar_url tooth = Some (String "/" rest) ->
     avatarUrl p = String "/" rest).
Proof.
  intros Hp.
  apply fetchPackage_raw in Hp as (repository & cs & tooth & vs & _ & _ & Htooth & _ & ->).
  exists tooth. split; [exact Htooth|].
  cbn [avatarUrl normalizePackage]. unfold avatarUrlOf.
  split; [|split; [|split; [|split]]].
  - intros ->. reflexivity.
  - intros u -> Hu.
    destruct (isAbsoluteUrl u) eqn:Habs; [elim Hu; now apply isAbsoluteUrl_reading|].
    reflexivity.
  - intros o r path -> Ho Hr Hpath Oo Or Hline.
    apply (all_Over_gen isBlobOwnerChar ownerAlphabet isBlobOwnerChar_alphabet) in Oo.
    apply (all_Over_gen isBlobRepoChar repoAlphabet isBlobRepoChar_alphabet) in Or.
    replace (isAbsoluteUrl ("https://github.com/" ++ o ++ "/" ++ r ++ "/blob/" ++ path))
      with true by reflexivity.
    cbn [negb]. unfold githubUrlRegex_exec.
    replace (JS.literal "https://github.com/"
               ("https://github.com/" ++ o ++ "/" ++ r ++ "/blob/" ++ path))
      with (Some (o ++ String "/" (r ++ String "/" ("blob/" ++ path)))) by reflexivity.
    rewrite span_exact by (auto; reflexivity).
    destruct o as [|a o]; [now elim Ho|].
    rewrite span_exact by (auto; reflexivity).
    destruct r as [|b r]; [now elim Hr|].
    replace (JS.literal "/blob/" (String "/" ("blob/" ++ path))) with (Some path)
      by reflexivity.
    rewrite (span_whole _ path Hline).
    destruct path as [|c path]; [now elim Hpath|]. reflexivity.
  - intros u -> Hu Hprefix. apply isAbsoluteUrl_reading in Hu. rewrite Hu. cbn [negb].
    unfold githubUrlRegex_exec. now rewrite (literal_not_prefix _ _ Hprefix).
  - intros rest ->. reflexivity.
Qed.

End Fetcher.

Lemma X16_leviLamina_versions_come_from_goproxy_witness :
  exists p v,
    In p (snd (fetch_ laterThan leviLaminaEnv)) /\ In v (versions p) /\
    (exists response,
        LeviLaminaFetcher.fetch leviLaminaEnv (goproxyListUrl (repoOf "futrime" "sample"))
        = Ok response /\
        In "v1.0.0" (goproxyLines (text response)) /\
        tryVersion leviLaminaEnv (repoOf "futrime" "sample") "v1.0.0" = Ok (Some v)) /\
    version v = "1.0.0" /\ source v = github /\ packageManager v = lip.
Proof.
  destruct (snd (fetch_ laterThan leviLaminaEnv)) as [|p ps] eqn:Hrun; [discriminate|].
  destruct (versions p) as [|v vs] eqn:Hvs.
  { vm_compute in Hrun. injection Hrun as <- _. discriminate. }
  exists p, v. split; [now left|]. split; [rewrite Hvs; now left|].
  destruct (X16_leviLamina_versions_come_from_goproxy laterThan leviLaminaEnv p v)
    as ((repo & response & line & goproxy & Hrepo & Hpkg & Hfetch & Hline & Htry & Hname & _)
        & Hsource & Hmanager & _).
  - rewrite Hrun. now left.
  - rewrite Hvs. now left.
  - split.
    + exists response.
      vm_compute in Hrun. injection Hrun as <- _.
      vm_compute in Hrepo. destruct Hrepo as [<-|[<-|[<-|[<-|[]]]]];
        try (vm_compute in Hpkg; discriminate).
      split; [exact Hfetch|].
      injection Hfetch as <-. vm_compute in Hline. destruct Hline as [<-|[]].
      split; [now left | exact Htry].
    + split; [|split; assumption].
      vm_compute in Hrun. injection Hrun as <- _. injection Hvs as <- _. reflexivity.
Defined.

Lemma X17_leviLamina_avatar_address_witness :
  (exists p,
     snd (fetchPackage laterThan leviLaminaEnv (repoOf "futrime" "sample")) = Ok (Some p) /\
     avatarUrl p = "https://avatars.githubusercontent.com/futrime") /\
  (exists p,
     snd (fetchPackage laterThan Readings.slashAvatarEnv (repoOf "futrime" "sample"))
     = Ok (Some p) /\
     avatarUrl p = "/logo.png").
Proof.
  split.
  - destruct (snd (fetchPackage laterThan leviLaminaEnv (repoOf "futrime" "sample")))
      as [[p|]|] eqn:Hp; try discriminate.
    exists p. split; [reflexivity|].
    destruct (X17_leviLamina_avatar_address laterThan leviLaminaEnv
                (repoOf "futrime" "sample") p Hp) as (tooth & Htooth & Hnone & _).
    vm_compute in Htooth. injection Htooth as <-. now apply Hnone.
  - destruct (snd (fetchPackage laterThan Readings.slashAvatarEnv (repoOf "futrime" "sample")))
      as [[p|]|] eqn:Hp; try discriminate.
    exists p. split; [reflexivity|].
    destruct (X17_leviLamina_avatar_address laterThan Readings.slashAvatarEnv
                (repoOf "futrime" "sample") p Hp)
      as (tooth & Htooth & _ & _ & _ & _ & Hslash).
    vm_compute in Htooth. injection Htooth as <-. now apply (Hslash "logo.png").
Defined.

End LeviLaminaPackageExtras.

Module EndstoneExtras.
Import Http Notions Samples Derived NormalizerFacts EndstonePythonFetcher.

Section Fetcher.

Variable after : string -> string -> bool.
Variable E : Env.

Local Abbreviation fetchPackage := (fetchPackage after E).
Local Abbreviation fetchOne := (fetchOne after E).
Local Abbreviation fetch_ := (fetch_ after E).

(** The package that [fetchPackage] builds before normalizing it. *)
Lemma endstone_fetchPackage_raw (repo : RepositoryDescriptor) (p : Package) :
  fetchPackage repo = Ok (Some p) ->
  exists repository cs releases meta pm gitHubVersions,
    fetchRepository E repo = Ok repository /\
    fetchRepositoryVersions E repo = Ok releases /\
    fetchPyprojectMetadata E repo = Ok meta /\
    fetchPypiPackageMetadata E (project_name meta) = Ok pm /\
    mapThrowing (versionOfRelease E) releases = Ok gitHubVersions /\
    p = normalizePackage after
          {| identifier := "github.com/" ++ GitHub.owner repo ++ "/" ++ GitHub.repo repo;
             name := project_name meta;
             description := match project_description meta with
                            | Some d => d
                            | None => EmptyString
                            end;
             author := GitHub.owner_login repository;
             tags := ("platform:endstone" :: "type:mod"
                       :: match project_keywords meta with
                          | Some k => k
                          | None => []
                          end
                       ++ match GitHub.topics repository with
                          | Some t => t
                          | None => []
                          end)%list;
             avatarUrl := "https://avatars.githubusercontent.com/" ++ GitHub.owner repo;
             projectUrl := "https://github.com/" ++ GitHub.owner repo ++ "/"
                             ++ GitHub.repo repo;
             hotness := GitHub.stargazers_count repository;
             updated := EmptyString;
             contributors :=
               map (fun contributor =>
                      {| username := match GitHub.login contributor with
                                     | Some l => l
                                     | None => EmptyString
                                     end;
                         contributions := GitHub.contributions contributor |}) cs;
             versions := match pm with
                         | Some metadata => (gitHubVersions ++ pypiVersions metadata)%list
                         | None => gitHubVersions
                         end |}.
Proof.
  unfold EndstonePythonFetcher.fetchPackage.
  destruct (fetchRepository E repo) as [repository|] eqn:H1; [|discriminate].
  destruct (fetchRepositoryContributors E repo) as [cs|]; [|discriminate].
  destruct (fetchRepositoryVersions E repo) as [releases|] eqn:H2; [|discriminate].
  destruct (fetchPyprojectMetadata E repo) as [meta|] eqn:H3; [|discriminate].
  destruct (fetchPypiPackageMetadata E (project_name meta)) as [pm|] eqn:H4; [|discriminate].
  cbn [bind].
  destruct (mapThrowing (versionOfRelease E) releases) as [gv|] eqn:H5; [|discriminate].
  cbn [bind].
  destruct (Z.of_nat (List.length _) =? 0)%Z; [discriminate|].
  intros [= <-]. exists repository, cs, releases, meta, pm, gv.
  repeat (split; [assumption || reflexivity|]). reflexivity.
Qed.

Lemma mapThrowing_In {A B : Type} (f : A -> result Thrown B) (l : list A) (bs : list B)
    (b : B) :
  mapThrowing f l = Ok bs -> In b bs -> exists a, In a l /\ f a = Ok b.
Proof.
  revert bs. induction l as [|a l IH]; intros bs; cbn [mapThrowing].
  - intros [= <-] [].
  - destruct (f a) as [b0|] eqn:Ha; cbn [bind]; [|discriminate].
    destruct (mapThrowing f l) as [bs0|]; cbn [bind]; [|discriminate].
    intros [= <-] [<-|Hin].
    + exists a. split; [now left|exact Ha].
    + destruct (IH bs0 eq_refl Hin) as (a' & Ha' & Hf). exists a'. split; [now right|exact Hf].
Qed.

Lemma mapThrowing_throws {A B : Type} (f : A -> result Thrown B) (l : list A) (a : A) :
  In a l -> f a = Throw thrown -> mapThrowing f l = Throw thrown.
Proof.
  induction l as [|x l IH]; [intros []|]. cbn [mapThrowing].
  intros [->|Hin] Hf.
  - now rewrite Hf.
  - destruct (f x); cbn [bind]; [|now destruct e].
    now rewrite (IH Hin Hf).
Qed.

(** The PyPI metadata that [fetchPypiPackageMetadata] resolves to is
    the parsed body of a success response of the project's address. *)
Lemma pypi_metadata_fetched (name : string) (metadata : PypiPackageMetadata) :
  fetchPypiPackageMetadata E name = Ok (Some metadata) ->
  exists response,
    fetch E (Readings.pypiUrl name) = Ok response /\ ok response = true /\
    jsonPypi E (text response) = Ok metadata.
Proof.
  unfold fetchPypiPackageMetadata, Readings.pypiUrl.
  destruct (fetch E _) as [response|]; cbn [bind]; [|discriminate].
  destruct (ok response) eqn:Hok; cbn [negb]; [|discriminate].
  destruct (jsonPypi E (text response)) as [data|] eqn:Hjson; cbn [bind]; [|discriminate].
  intros [= <-]. exists response. split; [reflexivity|]. split; [exact Hok | exact Hjson].
Qed.

(** X18. Every version of a package that the Endstone fetcher yields
    is installed with [pip] and carries no platform requirement.  The
    package was resolved from a discovery candidate, and the version
    either comes from one of the GitHub releases fetched for that
    candidate, named by the release's tag as it is and dated by the
    converted publication (or else creation) time, or comes from the PyPI
    metadata fetched for the project that the candidate's manifest names:
    from a release of it that has at least one file, named by the
    release's key and dated by the upload time of its first file. *)
Theorem X18_endstone_version_provenance (p : Package) (v : Version) :
  In p (snd fetch_) -> In v (versions p) ->
  packageManager v = pip /\ platformVersionRequirement v = None /\
  exists repo fetched meta,
    In repo (searchForRepositories E query) /\
    fetchPackage repo = Ok (Some p) /\
    fetchRepositoryVersions E repo = Ok fetched /\
    fetchPyprojectMetadata E repo = Ok meta /\
    ((source v = github /\
      exists release,
        In release fetched /\
        version v = GitHub.tag_name release /\
        toISOString E (releaseTime release) = Ok (releasedAt v)) \/
     (source v = pypi /\
      exists response metadata others,
        fetch E (Readings.pypiUrl (project_name meta)) = Ok response /\
        ok response = true /\
        jsonPypi E (text response) = Ok metadata /\
        fetchPypiPackageMetadata E (project_name meta) = Ok (Some metadata) /\
        In (version v, releasedAt v :: others) (releases metadata))).
Proof.
  intros Hp Hv.
  apply EndstoneFacts.endstone_fetchLoop_In in Hp as (repo & Hrepo & Hp).
  apply EndstoneFacts.endstone_fetchOne_yields in Hp.
  pose proof Hp as Hraw.
  apply endstone_fetchPackage_raw in Hraw
    as (repository & cs & releases & meta & pm & gv & _ & Hrel & Hmeta & Hpm & Hgv & Hnorm).
  rewrite Hnorm in Hv.
  apply normalizePackage_versions_In in Hv. cbn [versions] in Hv.
  assert (Hcases : In v gv \/ exists metadata, pm = Some metadata /\ In v (pypiVersions metadata)).
  { destruct pm as [metadata|]; [|now left].
    apply in_app_or in Hv as [Hv|Hv]; [now left | right; now exists metadata]. }
  destruct Hcases as [Hgit|(metadata & -> & Hpypi)].
  - destruct (mapThrowing_In _ _ _ _ Hgv Hgit) as (release & Hin & Hmake).
    unfold versionOfRelease in Hmake. fold (releaseTime release) in Hmake.
    destruct (toISOString E (releaseTime release)) as [iso|] eqn:Hiso; [|discriminate].
    cbn [bind] in Hmake. injection Hmake as <-. cbn.
    split; [reflexivity|]. split; [reflexivity|].
    exists repo, releases, meta. repeat (split; [assumption|]).
    left. split; [reflexivity|]. exists release. repeat split; assumption.
  - unfold pypiVersions in Hpypi. apply in_map_iff in Hpypi as ([key files] & <- & Hin).
    apply filter_In in Hin as [Hin Hfiles]. cbn [fst snd] in *.
    destruct files as [|uploaded others]; [discriminate|]. cbn.
    split; [reflexivity|]. split; [reflexivity|].
    exists repo, releases, meta. repeat (split; [assumption|]).
    right. split; [reflexivity|].
    destruct (pypi_metadata_fetched _ _ Hpm) as (response & Hfetch & Hok & Hjson).
    exists response, metadata, others. repeat (split; [assumption|]). exact Hin.
Qed.

(** X19. In the Endstone fetcher one release whose time does not
    convert fails the whole candidate: [fetchPackage] throws, [fetch]
    logs the candidate and yields nothing for it, whatever its other
    releases and its PyPI project are. *)
Theorem X19_endstone_bad_release_time_fails_candidate (repo : RepositoryDescriptor)
    (releases : list GitHub.Release) (release : GitHub.Release) :
  fetchRepositoryVersions E repo = Ok releases -> In release releases ->
  toISOString E (releaseTime release) = Throw thrown ->
  fetchPackage repo = Throw thrown /\
  fetchOne repo
  = (["Error fetching Endstone Python package github.com/" ++ GitHub.owner repo
        ++ "/" ++ GitHub.repo repo ++ ":"], []).
Proof.
  intros Hrel Hin Hthrow.
  assert (Hpkg : fetchPackage repo = Throw thrown).
  { unfold EndstonePythonFetcher.fetchPackage. rewrite Hrel.
    destruct (fetchRepository E repo) as [repository|[]]; [|reflexivity].
    destruct (fetchRepositoryContributors E repo) as [cs|[]]; [|reflexivity].
    destruct (fetchPyprojectMetadata E repo) as [meta|[]]; [|reflexivity].
    destruct (fetchPypiPackageMetadata E (project_name meta)) as [pm|[]]; [|reflexivity].
    cbn [bind].
    rewrite (mapThrowing_throws (versionOfRelease E) releases release Hin); [reflexivity|].
    unfold versionOfRelease. fold (releaseTime release). now rewrite Hthrow. }
  split; [exact Hpkg|]. unfold EndstonePythonFetcher.fetchOne. now rewrite Hpkg.
Qed.

End Fetcher.

Lemma X18_endstone_version_provenance_witness :
  exists p v,
    In p (snd (fetch_ laterThan Readings.pypiEnv)) /\ In v (versions p) /\
    packageManager v = pip /\ platformVersionRequirement v = None /\
    source v = pypi /\ version v = "1.0.0" /\
    exists response metadata,
      fetch Readings.pypiEnv "https://pypi.org/pypi/plugin/json" = Ok response /\
      jsonPypi Readings.pypiEnv (text response) = Ok metadata /\
      In ("1.0.0", [releasedAt v]) (releases metadata).
Proof.
  destruct (snd (fetch_ laterThan Readings.pypiEnv)) as [|p ps] eqn:Hrun; [discriminate|].
  destruct (versions p) as [|v vs] eqn:Hvs.
  { vm_compute in Hrun. injection Hrun as <- _. discriminate. }
  exists p, v. split; [now left|]. split; [rewrite Hvs; now left|].
  destruct (X18_endstone_version_provenance laterThan Readings.pypiEnv p v)
    as (Hmanager & Hrequirement & repo & rels & meta & Hrepo & Hpkg & Hrels & Hmeta & Hfrom).
  - rewrite Hrun. now left.
  - rewrite Hvs. now left.
  - split; [exact Hmanager|]. split; [exact Hrequirement|].
    vm_compute in Hrun. injection Hrun as <- _. injection Hvs as <- _.
    split; [reflexivity|]. split; [reflexivity|].
    destruct Hfrom as [[Hsource _]|(_ & response & metadata & others & Hfetch & _ & Hjson
                                     & _ & Hin)]; [discriminate|].
    vm_compute in Hrepo. destruct Hrepo as [<-|[]].
    vm_compute in Hmeta. injection Hmeta as <-.
    exists response, metadata. split; [exact Hfetch|]. split; [exact Hjson|].
    injection Hfetch as <-. vm_compute in Hjson. injection Hjson as <-.
    cbn in Hin. destruct Hin as [Hin|[Hin|[]]]; [|discriminate].
    injection Hin as <-. now left.
Defined.

Lemma X19_endstone_bad_release_time_fails_candidate_witness :
  fetchRepositoryVersions badTimeEnv (repoOf "futrime" "plugin") = Ok [sampleRelease] /\
  In sampleRelease [sampleRelease] /\
  toISOString badTimeEnv (releaseTime sampleRelease) = Throw thrown /\
  fetchOne laterThan badTimeEnv (repoOf "futrime" "plugin")
  = (["Error fetching Endstone Python package github.com/futrime/plugin:"], []).
Proof.
  split; [reflexivity|]. split; [now left|]. split; [reflexivity|].
  refine (proj2 (X19_endstone_bad_release_time_fails_candidate laterThan badTimeEnv
                   (repoOf "futrime" "plugin") [sampleRelease] sampleRelease
                   eq_refl (or_introl eq_refl) eq_refl)).
Defined.

End EndstoneExtras.

Module PackageIdentityExtras.
Import Notions Samples Derived NormalizerFacts.

(** X20. Every package that a fetcher yields is identified by a
    candidate of its discovery: its identifier is
    [github.com/<owner>/<repo>] and its project address is [https://]
    followed by the identifier.  A LeviLamina package has the repository
    owner as author and the tag [platform:levilamina]; an Endstone
    package has the owner's avatar and the tags [platform:endstone] and
    [type:mod]. *)
Theorem X20_yielded_packages_identify_their_candidate
    (after : string -> string -> bool) (L : LeviLaminaFetcher.Env)
    (N : EndstonePythonFetcher.Env) :
  Forall (fun p =>
            exists repo,
              In repo (LeviLaminaFetcher.searchForRepo L LeviLaminaFetcher.query) /\
              identifier p = "github.com/" ++ GitHub.owner repo ++ "/" ++ GitHub.repo repo /\
              projectUrl p = "https://" ++ identifier p /\
              author p = GitHub.owner repo /\
              In "platform:levilamina" (tags p))
         (snd (LeviLaminaFetcher.fetch_ after L)) /\
  Forall (fun p =>
            exists repo,
              In repo (EndstonePythonFetcher.searchForRepositories N
                         EndstonePythonFetcher.query) /\
              identifier p = "github.com/" ++ GitHub.owner repo ++ "/" ++ GitHub.repo repo /\
              projectUrl p = "https://" ++ identifier p /\
              avatarUrl p = "https://avatars.githubusercontent.com/" ++ GitHub.owner repo /\
              In "platform:endstone" (tags p) /\ In "type:mod" (tags p))
         (snd (EndstonePythonFetcher.fetch_ after N)).
Proof.
  split; apply Forall_forall; intros p Hp.
  - apply LeviLaminaFacts.leviLamina_fetchLoop_In in Hp as (repo & Hrepo & Hp).
    apply LeviLaminaFacts.leviLamina_fetchOne_yields in Hp as [Hp _].
    apply LeviLaminaPackageExtras.fetchPackage_raw in Hp
      as (repository & cs & tooth & vs & _ & _ & _ & _ & ->).
    exists repo. split; [exact Hrepo|]. split; [reflexivity|]. split; [reflexivity|].
    split; [reflexivity|]. cbn [tags normalizePackage].
    apply LeviLaminaPackageExtras.distinct_In. now left.
  - apply EndstoneFacts.endstone_fetchLoop_In in Hp as (repo & Hrepo & Hp).
    apply EndstoneFacts.endstone_fetchOne_yields in Hp.
    apply EndstoneExtras.endstone_fetchPackage_raw in Hp
      as (repository & cs & releases & meta & pm & gv & _ & _ & _ & _ & _ & ->).
    exists repo. split; [exact Hrepo|]. split; [reflexivity|]. split; [reflexivity|].
    split; [reflexivity|]. cbn [tags normalizePackage].
    split; apply LeviLaminaPackageExtras.distinct_In; [now left | right; now left].
Qed.

End PackageIdentityExtras.

Module EndstonePypiExtras.
Import Http Notions Samples Derived NormalizerFacts EndstonePythonFetcher.

(** X21. A project that PyPI does not know is no error for the Endstone
    fetcher: when the PyPI lookup of the manifest's project name is
    answered with a failure status, a resolved package has exactly the
    versions made from the GitHub releases, normalized, and all of them
    have the source [github]. *)
Theorem X21_endstone_without_pypi_project (after : string -> string -> bool) (E : Env)
    (repo : RepositoryDescriptor) (p : Package) (meta : PythonProjectMetadata)
    (response : Response) :
  fetchPackage after E repo = Ok (Some p) ->
  fetchPyprojectMetadata E repo = Ok meta ->
  fetch E ("https://pypi.org/pypi/" ++ project_name meta ++ "/json") = Ok response ->
  ok response = false ->
  (exists releases gitHubVersions,
      fetchRepositoryVersions E repo = Ok releases /\
      mapThrowing (versionOfRelease E) releases = Ok gitHubVersions /\
      versions p = sortVersions after (dedupVersions [] gitHubVersions)) /\
  (forall v, In v (versions p) -> source v = github).
Proof.
  intros Hp Hmeta Hfetch Hok.
  apply EndstoneExtras.endstone_fetchPackage_raw in Hp
    as (repository & cs & releases & meta' & pm & gv & _ & Hrel & Hmeta' & Hpm & Hgv & ->).
  rewrite Hmeta in Hmeta'. injection Hmeta' as <-.
  unfold fetchPypiPackageMetadata in Hpm. rewrite Hfetch in Hpm. cbn [bind] in Hpm.
  rewrite Hok in Hpm. cbn [negb] in Hpm. injection Hpm as <-.
  split.
  - exists releases, gv. repeat split; assumption || reflexivity.
  - intros v Hv. apply normalizePackage_versions_In in Hv. cbn [versions] in Hv.
    destruct (EndstoneExtras.mapThrowing_In _ _ _ _ Hgv Hv) as (release & _ & Hmake).
    unfold versionOfRelease in Hmake.
    destruct (toISOString E _); cbn [bind] in Hmake; [|discriminate].
    now injection Hmake as <-.
Qed.

Lemma X21_endstone_without_pypi_project_witness :
  exists p,
    fetchPackage laterThan endstoneEnv (repoOf "futrime" "plugin") = Ok (Some p) /\
    ok notFound = false /\
    map version (versions p) = ["v1.0.0"] /\
    (forall v, In v (versions p) -> source v = github).
Proof.
  destruct (fetchPackage laterThan endstoneEnv (repoOf "futrime" "plugin"))
    as [[p|]|] eqn:Hp; try discriminate.
  exists p. split; [reflexivity|]. split; [reflexivity|].
  split; [vm_compute in Hp; now injection Hp as <-|].
  refine (proj2 (X21_endstone_without_pypi_project laterThan endstoneEnv
                   (repoOf "futrime" "plugin") p
                   {| project_name := "plugin"; project_description := None;
                      project_keywords := None |}
                   notFound Hp eq_refl eq_refl eq_refl)).
Defined.

End EndstonePypiExtras.
